(** * Ticketing service: reservation engine and conductor queries

    A shallow embedding of the Go packages [domain] and [reservation] of the
    ticketing application, followed by the properties of the reservation
    engine that its specification states.

    Conventions of the embedding:
    - Go [string] is [string]; Go [int] is [Z] (indices produced by [range]
      never leave the slice, the booking counter wraps at 64 bits);
    - a Go slice is a [list], read by position with [!!]; an index outside
      the slice is a run-time panic, which the embedding makes an explicit
      [Panic] outcome;
    - a Go [map[string]V] is a [gmap string V]; the order in which [range]
      visits a map is not fixed by Go, so every loop over the booking store
      is written over a list of bookings and the properties are proved for
      every order of visit;
    - [time.Time] is kept as its civil reading: the calendar fields that
      [Time.Date()] returns and the rest of the instant;
    - [time.Now()] is an input of the operation that calls it. *)

From Stdlib Require Import ZArith Lia.
From stdpp Require Import gmap strings pretty list fin_maps.

Local Open Scope Z_scope.

(** ** Outcomes of Go calls *)

(** A call either returns or panics. *)
Inductive outcome (A : Type) : Type :=
  | Return (a : A)
  | Panic (msg : string).
Arguments Return {A} a.
Arguments Panic {A} msg.

Definition bind {A B : Type} (m : outcome A) (k : A → outcome B) : outcome B :=
  match m with
  | Return a => k a
  | Panic msg => Panic msg
  end.

Notation "'call' x := m 'in' k" := (bind m (λ x, k))
  (at level 10, x name, m at level 100, k at level 200).

(** Reading [s[i]] on a slice. *)
Definition index {A : Type} (s : list A) (i : Z) : outcome A :=
  if bool_decide (0 ≤ i) then
    match s !! Z.to_nat i with
    | Some a => Return a
    | None => Panic "index out of range"
    end
  else Panic "index out of range".

(** The assignment [s[i] = a] on a slice. *)
Definition assign {A : Type} (s : list A) (i : Z) (a : A) : outcome (list A) :=
  if bool_decide (0 ≤ i ∧ i < Z.of_nat (length s)) then
    Return (<[Z.to_nat i := a]> s)
  else Panic "index out of range".

(** ** time.Time *)

Record Time : Type := mkTime {
  year : Z;
  month : Z;
  day : Z;
  (** what is left of the instant: time of day, zone *)
  clock : Z
}.

(** [t.Date()] *)
Definition Date (t : Time) : Z * Z * Z := (year t, month t, day t).

(** ** Package domain *)

Record Station : Type := mkStation {
  Station_Name : string
}.

Record Stop : Type := mkStop {
  Stop_Station : Station;
  Stop_Distance : Z;
  Stop_StopOrder : Z
}.

Record Route : Type := mkRoute {
  Route_ID : string;
  Route_Name : string;
  Route_Stops : list Stop
}.

Definition ComfortZone : Type := string.
Definition FirstClass : ComfortZone := "first-class".
Definition SecondClass : ComfortZone := "second-class".

Record Seat : Type := mkSeat {
  Seat_Number : string;
  Seat_ComfortZone : ComfortZone;
  Seat_CarriageID : string
}.

Record Carriage : Type := mkCarriage {
  Carriage_ID : string;
  Carriage_Seats : list Seat
}.

Record Service : Type := mkService {
  Service_ID : string;
  Service_Route : Route;
  Service_DateTime : Time;
  Service_Carriages : list Carriage
}.

Record Passenger : Type := mkPassenger {
  Passenger_Name : string
}.

Record Ticket : Type := mkTicket {
  Ticket_Seat : Seat;
  Ticket_Origin : Station;
  Ticket_Destination : Station;
  Ticket_Service : Service;
  Ticket_Passenger : Passenger
}.

Record Booking : Type := mkBooking {
  Booking_ID : string;
  Booking_Passengers : list Passenger;
  Booking_Tickets : list Ticket;
  Booking_CreatedAt : Time
}.

Record SeatRequest : Type := mkSeatRequest {
  SeatRequest_CarriageID : string;
  SeatRequest_SeatNumber : string
}.

Record ReservationRequest : Type := mkReservationRequest {
  Req_ServiceID : string;
  Req_Origin : string;
  Req_Destination : string;
  Req_Passengers : list Passenger;
  Req_SeatRequests : list SeatRequest;
  Req_Date : Time
}.

(** Zero values of the structs that the code returns or allocates. *)
Definition zeroTime : Time := mkTime 1 1 1 0.
Definition zeroStation : Station := mkStation "".
Definition zeroStop : Stop := mkStop zeroStation 0 0.
Definition zeroSeat : Seat := mkSeat "" "" "".
Definition zeroRoute : Route := mkRoute "" "" [].
Definition zeroService : Service := mkService "" zeroRoute zeroTime [].
Definition zeroPassenger : Passenger := mkPassenger "".
Definition zeroTicket : Ticket :=
  mkTicket zeroSeat zeroStation zeroStation zeroService zeroPassenger.

Definition NewStation (name : string) : Station := mkStation name.

(** The loop of [NewRoute]: [stations] is what [range] has still to visit,
    [i] the index of its head, [stops] the slice being filled. *)
Fixpoint NewRoute_loop (stations : list Station) (distances : list Z) (i : Z)
    (stops : list Stop) : outcome (list Stop) :=
  match stations with
  | [] => Return stops
  | station :: rest =>
      call d := index distances i in
      call stops' := assign stops i (mkStop station d i) in
      NewRoute_loop rest distances (i + 1) stops'
  end.

Definition NewRoute (id name : string) (stations : list Station)
    (distances : list Z) : outcome Route :=
  if negb (length stations =? length distances)%nat then
    Panic "number of stations must equal number of distances"
  else
    call stops := NewRoute_loop stations distances 0
                    (replicate (length stations) zeroStop) in
    Return (mkRoute id name stops).

Definition NewService (id : string) (route : Route) (dateTime : Time)
    (carriages : list Carriage) : Service :=
  mkService id route dateTime carriages.

Definition NewBooking (now : Time) (id : string) (passengers : list Passenger)
    (tickets : list Ticket) : Booking :=
  mkBooking id passengers tickets now.

Fixpoint GetStationByName_loop (stops : list Stop) (name : string)
    : Station * bool :=
  match stops with
  | [] => (zeroStation, false)
  | stop :: rest =>
      if String.eqb (Station_Name (Stop_Station stop)) name
      then (Stop_Station stop, true)
      else GetStationByName_loop rest name
  end.

Definition GetStationByName (r : Route) (name : string) : Station * bool :=
  GetStationByName_loop (Route_Stops r) name.

Fixpoint GetStopIndex_loop (stops : list Stop) (i : Z) (stationName : string)
    : Z * bool :=
  match stops with
  | [] => (-1, false)
  | stop :: rest =>
      if String.eqb (Station_Name (Stop_Station stop)) stationName
      then (i, true)
      else GetStopIndex_loop rest (i + 1) stationName
  end.

Definition GetStopIndex (r : Route) (stationName : string) : Z * bool :=
  GetStopIndex_loop (Route_Stops r) 0 stationName.

Definition IsValidOriginDestination (r : Route) (origin destination : string)
    : bool :=
  let '(originIndex, originFound) := GetStopIndex r origin in
  let '(destIndex, destFound) := GetStopIndex r destination in
  if negb originFound || negb destFound then false
  else originIndex <? destIndex.

Fixpoint GetSeatByID_seats (seats : list Seat) (seatNumber : string)
    : option Seat :=
  match seats with
  | [] => None
  | seat :: rest =>
      if String.eqb (Seat_Number seat) seatNumber then Some seat
      else GetSeatByID_seats rest seatNumber
  end.

Fixpoint GetSeatByID_loop (carriages : list Carriage)
    (carriageID seatNumber : string) : Seat * bool :=
  match carriages with
  | [] => (zeroSeat, false)
  | carriage :: rest =>
      if String.eqb (Carriage_ID carriage) carriageID then
        match GetSeatByID_seats (Carriage_Seats carriage) seatNumber with
        | Some seat => (seat, true)
        | None => GetSeatByID_loop rest carriageID seatNumber
        end
      else GetSeatByID_loop rest carriageID seatNumber
  end.

Definition GetSeatByID (s : Service) (carriageID seatNumber : string)
    : Seat * bool :=
  GetSeatByID_loop (Service_Carriages s) carriageID seatNumber.

(** ** Package reservation *)

Record ReservationError : Type := mkReservationError {
  Message : string;
  Code : string
}.

Record System : Type := mkSystem {
  bookings : gmap string Booking;
  services : gmap string Service;
  routes : gmap string Route;
  nextBookingID : Z
}.

(** What [MakeReservation] hands back: a booking, or an error and no booking. *)
Inductive result : Type :=
  | Ok (booking : Booking)
  | Err (err : ReservationError).

(** A 64-bit [int] after an arithmetic operation. *)
Definition int_wrap (z : Z) : Z := (z + 2 ^ 63) `mod` 2 ^ 64 - 2 ^ 63.

(** [fmt.Sprintf("%04d", n)]: decimal, zero-padded to four characters, the
    sign counted in the width. *)
Fixpoint zeros (n : nat) : string :=
  match n with
  | O => ""
  | S n' => "0" +:+ zeros n'
  end.

Definition zero_pad (width : nat) (digits : string) : string :=
  zeros (width - String.length digits) +:+ digits.

Definition Sprintf_04d (n : Z) : string :=
  if n <? 0 then "-" +:+ zero_pad 3 (pretty (Z.abs_N n))
  else zero_pad 4 (pretty (Z.to_N n)).

Definition NewSystem : System :=
  mkSystem ∅ ∅ ∅ 1.

Definition AddRoute (rs : System) (route : Route) : System :=
  mkSystem (bookings rs) (services rs) (<[Route_ID route := route]> (routes rs))
    (nextBookingID rs).

Definition AddService (rs : System) (service : Service) : System :=
  mkSystem (bookings rs) (<[Service_ID service := service]> (services rs))
    (routes rs) (nextBookingID rs).

Definition isSameDate (date1 date2 : Time) : bool :=
  let '(y1, m1, d1) := Date date1 in
  let '(y2, m2, d2) := Date date2 in
  (y1 =? y2) && (m1 =? m2) && (d1 =? d2).

(** The bookings of the store in one order of visit. *)
Definition visit (rs : System) : list Booking :=
  (map_to_list (bookings rs)).*2.

(** The condition of the [if] in [isSeatBooked] and [GetPassengerOnSeat]. *)
Definition seatMatches (ticket : Ticket) (serviceID carriageID seatNumber : string)
    (date : Time) : bool :=
  String.eqb (Service_ID (Ticket_Service ticket)) serviceID
  && String.eqb (Seat_CarriageID (Ticket_Seat ticket)) carriageID
  && String.eqb (Seat_Number (Ticket_Seat ticket)) seatNumber
  && isSameDate (Service_DateTime (Ticket_Service ticket)) date.

Fixpoint isSeatBooked_tickets (tickets : list Ticket)
    (serviceID carriageID seatNumber : string) (date : Time) : bool :=
  match tickets with
  | [] => false
  | ticket :: rest =>
      if seatMatches ticket serviceID carriageID seatNumber date then true
      else isSeatBooked_tickets rest serviceID carriageID seatNumber date
  end.

(** [isSeatBooked] with the store visited in the order [order]. *)
Fixpoint isSeatBooked_visiting (order : list Booking)
    (serviceID carriageID seatNumber : string) (date : Time) : bool :=
  match order with
  | [] => false
  | booking :: rest =>
      if isSeatBooked_tickets (Booking_Tickets booking)
           serviceID carriageID seatNumber date
      then true
      else isSeatBooked_visiting rest serviceID carriageID seatNumber date
  end.

Definition isSeatBooked (rs : System) (serviceID carriageID seatNumber : string)
    (date : Time) : bool :=
  isSeatBooked_visiting (visit rs) serviceID carriageID seatNumber date.

Definition errSeatNotFound (seatReq : SeatRequest) (serviceID : string)
    : ReservationError :=
  mkReservationError
    ("Seat " +:+ SeatRequest_SeatNumber seatReq +:+ " in carriage "
       +:+ SeatRequest_CarriageID seatReq +:+ " not found in service "
       +:+ serviceID)
    "SEAT_NOT_FOUND".

Definition errSeatAlreadyBooked (seatReq : SeatRequest) (serviceID : string)
    : ReservationError :=
  mkReservationError
    ("Seat " +:+ SeatRequest_SeatNumber seatReq +:+ " in carriage "
       +:+ SeatRequest_CarriageID seatReq +:+ " is already booked for service "
       +:+ serviceID)
    "SEAT_ALREADY_BOOKED".

Definition errServiceNotFound (serviceID : string) : ReservationError :=
  mkReservationError ("Service " +:+ serviceID +:+ " not found")
    "SERVICE_NOT_FOUND".

Definition errInvalidRoute (req : ReservationRequest) : ReservationError :=
  mkReservationError
    ("Invalid route from " +:+ Req_Origin req +:+ " to "
       +:+ Req_Destination req +:+ " for service " +:+ Req_ServiceID req)
    "INVALID_ROUTE".

Definition errPassengerSeatMismatch : ReservationError :=
  mkReservationError "Number of passengers must match number of seat requests"
    "PASSENGER_SEAT_MISMATCH".

(** The loop of [MakeReservation] over the seat requests: [seatReqs] is what
    is left to visit, [i] the index of its head, [tickets] the slice being
    filled.  It ends with the first error or with all the tickets. *)
Fixpoint MakeReservation_loop (rs : System) (service : Service)
    (req : ReservationRequest) (originStation destStation : Station)
    (seatReqs : list SeatRequest) (i : Z) (tickets : list Ticket)
    : outcome (ReservationError + list Ticket) :=
  match seatReqs with
  | [] => Return (inr tickets)
  | seatReq :: rest =>
      let '(seat, found) :=
        GetSeatByID service (SeatRequest_CarriageID seatReq)
          (SeatRequest_SeatNumber seatReq) in
      if negb found then
        Return (inl (errSeatNotFound seatReq (Req_ServiceID req)))
      else if isSeatBooked rs (Req_ServiceID req)
                (SeatRequest_CarriageID seatReq)
                (SeatRequest_SeatNumber seatReq) (Req_Date req) then
        Return (inl (errSeatAlreadyBooked seatReq (Req_ServiceID req)))
      else
        call passenger := index (Req_Passengers req) i in
        call tickets' :=
          assign tickets i
            (mkTicket seat originStation destStation service passenger) in
        MakeReservation_loop rs service req originStation destStation
          rest (i + 1) tickets'
  end.

(** [MakeReservation] on the engine [rs] at the instant [now]: the value
    handed back and the engine afterwards. *)
Definition MakeReservation (rs : System) (req : ReservationRequest) (now : Time)
    : outcome (result * System) :=
  match services rs !! Req_ServiceID req with
  | None => Return (Err (errServiceNotFound (Req_ServiceID req)), rs)
  | Some service =>
      if negb (IsValidOriginDestination (Service_Route service)
                 (Req_Origin req) (Req_Destination req)) then
        Return (Err (errInvalidRoute req), rs)
      else if negb (length (Req_Passengers req)
                      =? length (Req_SeatRequests req))%nat then
        Return (Err errPassengerSeatMismatch, rs)
      else
        let originStation :=
          (GetStationByName (Service_Route service) (Req_Origin req)).1 in
        let destStation :=
          (GetStationByName (Service_Route service) (Req_Destination req)).1 in
        let tickets := replicate (length (Req_Passengers req)) zeroTicket in
        call filled :=
          MakeReservation_loop rs service req originStation destStation
            (Req_SeatRequests req) 0 tickets in
        match filled with
        | inl err => Return (Err err, rs)
        | inr tickets =>
            let bookingID := "B" +:+ Sprintf_04d (nextBookingID rs) in
            let booking := NewBooking now bookingID (Req_Passengers req) tickets in
            Return (Ok booking,
                    mkSystem (<[bookingID := booking]> (bookings rs))
                      (services rs) (routes rs)
                      (int_wrap (nextBookingID rs + 1)))
        end
  end.

Definition GetBooking (rs : System) (bookingID : string) : Booking * bool :=
  match bookings rs !! bookingID with
  | Some booking => (booking, true)
  | None => (mkBooking "" [] [] zeroTime, false)
  end.

(** The condition of the inner [if] of [GetPassengersBetweenStations]. *)
Definition coversSegment (service : Service) (ticket : Ticket)
    (stop1Index stop2Index : Z) : bool :=
  let originIndex :=
    (GetStopIndex (Service_Route service)
       (Station_Name (Ticket_Origin ticket))).1 in
  let destIndex :=
    (GetStopIndex (Service_Route service)
       (Station_Name (Ticket_Destination ticket))).1 in
  (originIndex <=? stop1Index) && (destIndex >=? stop2Index).

Fixpoint GetPassengersBetweenStations_tickets (service : Service)
    (serviceID : string) (date : Time) (stop1Index stop2Index : Z)
    (tickets : list Ticket) (passengers : list Passenger) : list Passenger :=
  match tickets with
  | [] => passengers
  | ticket :: rest =>
      GetPassengersBetweenStations_tickets service serviceID date
        stop1Index stop2Index rest
        (if String.eqb (Service_ID (Ticket_Service ticket)) serviceID
            && isSameDate (Service_DateTime (Ticket_Service ticket)) date
         then
           if coversSegment service ticket stop1Index stop2Index
           then passengers ++ [Ticket_Passenger ticket]
           else passengers
         else passengers)
  end.

Fixpoint GetPassengersBetweenStations_loop (service : Service)
    (serviceID : string) (date : Time) (stop1Index stop2Index : Z)
    (order : list Booking) (passengers : list Passenger) : list Passenger :=
  match order with
  | [] => passengers
  | booking :: rest =>
      GetPassengersBetweenStations_loop service serviceID date
        stop1Index stop2Index rest
        (GetPassengersBetweenStations_tickets service serviceID date
           stop1Index stop2Index (Booking_Tickets booking) passengers)
  end.

(** [GetPassengersBetweenStations] with the store visited in the order
    [order]. *)
Definition GetPassengersBetweenStations_visiting (order : list Booking)
    (rs : System) (serviceID station1 station2 : string) (date : Time)
    : list Passenger :=
  let passengers : list Passenger := [] in
  match services rs !! serviceID with
  | None => passengers
  | Some service =>
      let '(stop1Index, found1) :=
        GetStopIndex (Service_Route service) station1 in
      let '(stop2Index, found2) :=
        GetStopIndex (Service_Route service) station2 in
      if negb found1 || negb found2 then passengers
      else
        let '(stop1Index, stop2Index) :=
          if stop1Index >=? stop2Index then (stop2Index, stop1Index)
          else (stop1Index, stop2Index) in
        GetPassengersBetweenStations_loop service serviceID date
          stop1Index stop2Index order passengers
  end.

Definition GetPassengersBetweenStations (rs : System)
    (serviceID station1 station2 : string) (date : Time) : list Passenger :=
  GetPassengersBetweenStations_visiting (visit rs) rs
    serviceID station1 station2 date.

(** ** The rest of the two packages *)

(** [fmt.Sprintf("%d", n)] *)
Definition Sprintf_d (n : Z) : string :=
  if n <? 0 then "-" +:+ pretty (Z.abs_N n) else pretty (Z.to_N n).

(** [Booking.String] *)
Definition Booking_String (b : Booking) : string :=
  "Booking " +:+ Booking_ID b +:+ ": "
    +:+ Sprintf_d (Z.of_nat (length (Booking_Passengers b)))
    +:+ " passengers, "
    +:+ Sprintf_d (Z.of_nat (length (Booking_Tickets b)))
    +:+ " tickets".

Fixpoint GetAllBookings_loop (order : list Booking) (bookings : list Booking)
    : list Booking :=
  match order with
  | [] => bookings
  | booking :: rest => GetAllBookings_loop rest (bookings ++ [booking])
  end.

(** [GetAllBookings] with the store visited in the order [order]. *)
Definition GetAllBookings_visiting (order : list Booking) : list Booking :=
  GetAllBookings_loop order [].

Definition GetAllBookings (rs : System) : list Booking :=
  GetAllBookings_visiting (visit rs).

Fixpoint GetPassengersBoardingAt_tickets (serviceID stationName : string)
    (date : Time) (tickets : list Ticket) (passengers : list Passenger)
    : list Passenger :=
  match tickets with
  | [] => passengers
  | ticket :: rest =>
      GetPassengersBoardingAt_tickets serviceID stationName date rest
        (if String.eqb (Service_ID (Ticket_Service ticket)) serviceID
            && String.eqb (Station_Name (Ticket_Origin ticket)) stationName
            && isSameDate (Service_DateTime (Ticket_Service ticket)) date
         then passengers ++ [Ticket_Passenger ticket]
         else passengers)
  end.

Fixpoint GetPassengersBoardingAt_loop (serviceID stationName : string)
    (date : Time) (order : list Booking) (passengers : list Passenger)
    : list Passenger :=
  match order with
  | [] => passengers
  | booking :: rest =>
      GetPassengersBoardingAt_loop serviceID stationName date rest
        (GetPassengersBoardingAt_tickets serviceID stationName date
           (Booking_Tickets booking) passengers)
  end.

(** [GetPassengersBoardingAt] with the store visited in the order [order]. *)
Definition GetPassengersBoardingAt_visiting (order : list Booking)
    (serviceID stationName : string) (date : Time) : list Passenger :=
  GetPassengersBoardingAt_loop serviceID stationName date order [].

Definition GetPassengersBoardingAt (rs : System)
    (serviceID stationName : string) (date : Time) : list Passenger :=
  GetPassengersBoardingAt_visiting (visit rs) serviceID stationName date.

Fixpoint GetPassengersAlightingAt_tickets (serviceID stationName : string)
    (date : Time) (tickets : list Ticket) (passengers : list Passenger)
    : list Passenger :=
  match tickets with
  | [] => passengers
  | ticket :: rest =>
      GetPassengersAlightingAt_tickets serviceID stationName date rest
        (if String.eqb (Service_ID (Ticket_Service ticket)) serviceID
            && String.eqb (Station_Name (Ticket_Destination ticket)) stationName
            && isSameDate (Service_DateTime (Ticket_Service ticket)) date
         then passengers ++ [Ticket_Passenger ticket]
         else passengers)
  end.

Fixpoint GetPassengersAlightingAt_loop (serviceID stationName : string)
    (date : Time) (order : list Booking) (passengers : list Passenger)
    : list Passenger :=
  match order with
  | [] => passengers
  | booking :: rest =>
      GetPassengersAlightingAt_loop serviceID stationName date rest
        (GetPassengersAlightingAt_tickets serviceID stationName date
           (Booking_Tickets booking) passengers)
  end.

(** [GetPassengersAlightingAt] with the store visited in the order [order]. *)
Definition GetPassengersAlightingAt_visiting (order : list Booking)
    (serviceID stationName : string) (date : Time) : list Passenger :=
  GetPassengersAlightingAt_loop serviceID stationName date order [].

Definition GetPassengersAlightingAt (rs : System)
    (serviceID stationName : string) (date : Time) : list Passenger :=
  GetPassengersAlightingAt_visiting (visit rs) serviceID stationName date.

Fixpoint GetPassengerOnSeat_tickets (tickets : list Ticket)
    (serviceID carriageID seatNumber : string) (date : Time)
    : option Passenger :=
  match tickets with
  | [] => None
  | ticket :: rest =>
      if seatMatches ticket serviceID carriageID seatNumber date
      then Some (Ticket_Passenger ticket)
      else GetPassengerOnSeat_tickets rest serviceID carriageID seatNumber date
  end.

(** [GetPassengerOnSeat] with the store visited in the order [order]; the
    pointer it hands back is [None] when it is nil. *)
Fixpoint GetPassengerOnSeat_visiting (order : list Booking)
    (serviceID carriageID seatNumber : string) (date : Time)
    : option Passenger * bool :=
  match order with
  | [] => (None, false)
  | booking :: rest =>
      match GetPassengerOnSeat_tickets (Booking_Tickets booking)
              serviceID carriageID seatNumber date with
      | Some passenger => (Some passenger, true)
      | None =>
          GetPassengerOnSeat_visiting rest serviceID carriageID seatNumber date
      end
  end.

Definition GetPassengerOnSeat (rs : System)
    (serviceID carriageID seatNumber : string) (date : Time)
    : option Passenger * bool :=
  GetPassengerOnSeat_visiting (visit rs) serviceID carriageID seatNumber date.

(** ** The fixture of the package's tests

    [setupTestSystem] of the reservation tests: the route Paris, Calais,
    Amsterdam, and service 5160 on 2021-04-01 with carriage A, seats A1 to
    A8. *)

Definition firstClassSeats (carriageID : string) (numbers : list string)
    : list Seat :=
  (λ number, mkSeat number FirstClass carriageID) <$> numbers.

Definition testCarriages : list Carriage :=
  [mkCarriage "A"
     (firstClassSeats "A" ["A1"; "A2"; "A3"; "A4"; "A5"; "A6"; "A7"; "A8"])].

(** [time.Date(y, m, d, h, 0, 0, 0, time.UTC)] *)
Definition utc (y m d h : Z) : Time := mkTime y m d (h * 3600).

Definition testRoute : Route :=
  match NewRoute "R002" "Paris-Amsterdam"
          [NewStation "Paris"; NewStation "Calais"; NewStation "Amsterdam"]
          [0; 300; 520] with
  | Return route => route
  | Panic _ => zeroRoute
  end.

Definition testService : Service :=
  NewService "5160" testRoute (utc 2021 4 1 8) testCarriages.

Definition setupTestSystem : System :=
  AddService (AddRoute NewSystem testRoute) testService.

Definition testRequest (origin destination : string)
    (names : list string) (seats : list string) (date : Time)
    : ReservationRequest :=
  mkReservationRequest "5160" origin destination
    (mkPassenger <$> names) (mkSeatRequest "A" <$> seats) date.

(** The engine after a call that returned, the engine itself otherwise. *)
Definition after (rs : System) (o : outcome (result * System)) : System :=
  match o with
  | Return (_, rs') => rs'
  | Panic _ => rs
  end.

(** The day of service 5160, another day, and the instant of the calls. *)
Definition april1 : Time := utc 2021 4 1 0.
Definition september1 : Time := utc 2025 9 1 0.
Definition testNow : Time := utc 2021 3 1 12.

(** "Valid first booking" and "Duplicate booking should fail" of the tests. *)
Definition requestA1 : ReservationRequest :=
  testRequest "Paris" "Amsterdam" ["John Doe"] ["A1"] april1.
Definition requestA1_again : ReservationRequest :=
  testRequest "Paris" "Amsterdam" ["Jane Smith"] ["A1"] april1.
Definition bookedA1 : System :=
  after setupTestSystem (MakeReservation setupTestSystem requestA1 testNow).

(** A request of two seats whose second seat does not exist. *)
Definition requestA2_A99 : ReservationRequest :=
  testRequest "Paris" "Amsterdam" ["Bob Wilson"; "Alice Brown"] ["A2"; "A99"]
    april1.

(** "Invalid route" of the tests: the reverse direction. *)
Definition requestReverse : ReservationRequest :=
  testRequest "Amsterdam" "Paris" ["Alice Brown"] ["A3"] april1.

(** Seat A3 asked twice in one request. *)
Definition requestA3_twice : ReservationRequest :=
  testRequest "Paris" "Amsterdam" ["Charlie Davis"; "Diana Prince"]
    ["A3"; "A3"] april1.

(** Scenario 1 of the demo: seats of service 5160, which runs on
    2021-04-01, asked for 2025-09-01. *)
Definition requestOffSchedule : ReservationRequest :=
  testRequest "Paris" "Amsterdam" ["John Doe"; "Jane Smith"] ["A7"; "A8"]
    september1.

(** A journey from Calais to Amsterdam. *)
Definition requestCalaisAmsterdam : ReservationRequest :=
  testRequest "Calais" "Amsterdam" ["John Doe"] ["A1"] april1.
Definition bookedCalaisAmsterdam : System :=
  after setupTestSystem
    (MakeReservation setupTestSystem requestCalaisAmsterdam testNow).

(** Service 5160 registered again, to run on 2025-09-01, after seat A1 was
    booked on the service of 2021-04-01. *)
Definition service5160_moved : Service :=
  NewService "5160" testRoute september1 testCarriages.
Definition reRegistered : System := AddService bookedA1 service5160_moved.

(** As in scenario 2 of the demo: the same seats asked for 2021-04-01, the
    day of the service. *)
Definition requestOnSchedule : ReservationRequest :=
  testRequest "Paris" "Amsterdam" ["Bob Wilson"; "Alice Brown"] ["A7"; "A8"]
    april1.

(** ** Vocabulary of the properties *)

(** The stops that [NewRoute] is to produce from position [i] on. *)
Fixpoint buildStops (stations : list Station) (distances : list Z) (i : Z)
    : list Stop :=
  match stations, distances with
  | station :: stations', d :: distances' =>
      mkStop station d i :: buildStops stations' distances' (i + 1)
  | _, _ => []
  end.

(** [name] is the station of some stop of the route. *)
Definition on_route (r : Route) (name : string) : Prop :=
  ∃ stop, stop ∈ Route_Stops r ∧ Station_Name (Stop_Station stop) = name.

(** [name] resolves to the stop at position [i]: the first stop of the route
    whose station bears that name. *)
Definition resolves (r : Route) (name : string) (i : Z) : Prop :=
  0 ≤ i
  ∧ (∃ stop, Route_Stops r !! Z.to_nat i = Some stop
             ∧ Station_Name (Stop_Station stop) = name)
  ∧ ∀ k stop, (k < Z.to_nat i)%nat → Route_Stops r !! k = Some stop →
      Station_Name (Stop_Station stop) ≠ name.

(** The seat that a seat request names exists in the service. *)
Definition seat_exists (service : Service) (seatReq : SeatRequest) : bool :=
  (GetSeatByID service (SeatRequest_CarriageID seatReq)
     (SeatRequest_SeatNumber seatReq)).2.

(** The availability check of [MakeReservation] for one seat request. *)
Definition seat_taken (rs : System) (req : ReservationRequest)
    (seatReq : SeatRequest) : bool :=
  isSeatBooked rs (Req_ServiceID req) (SeatRequest_CarriageID seatReq)
    (SeatRequest_SeatNumber seatReq) (Req_Date req).

(** All the tickets of a list of bookings, in order. *)
Definition tickets_of (order : list Booking) : list Ticket :=
  order ≫= Booking_Tickets.

(** The booking store holds ticket [t]. *)
Definition holds_ticket (rs : System) (t : Ticket) : Prop :=
  ∃ id booking, bookings rs !! id = Some booking ∧ t ∈ Booking_Tickets booking.

(** States of the engine that its operations can produce. *)
Inductive reachable : System → Prop :=
  | reachable_new : reachable NewSystem
  | reachable_route rs route :
      reachable rs → reachable (AddRoute rs route)
  | reachable_service rs service :
      reachable rs → reachable (AddService rs service)
  | reachable_reserve rs req now res rs' :
      reachable rs → MakeReservation rs req now = Return (res, rs') →
      reachable rs'.

(** The registry is keyed by the services' own ids, and every stored ticket
    carries the operating day of the service registered under its id. *)
Definition consistent (rs : System) : Prop :=
  (∀ id service, services rs !! id = Some service → Service_ID service = id)
  ∧ ∀ t, holds_ticket rs t →
      ∃ service, services rs !! Service_ID (Ticket_Service t) = Some service
                 ∧ Date (Service_DateTime (Ticket_Service t))
                   = Date (Service_DateTime service).

(** Use of the engine as the tests and the demo make it: services are
    registered while the store is empty, reservations follow. *)
Inductive operating : System → Prop :=
  | operating_new : operating NewSystem
  | operating_route rs route :
      operating rs → operating (AddRoute rs route)
  | operating_service rs service :
      operating rs → bookings rs = ∅ → operating (AddService rs service)
  | operating_reserve rs req now res rs' :
      operating rs → MakeReservation rs req now = Return (res, rs') →
      operating rs'.

(** The ticket that [MakeReservation] builds for one seat request and the
    passenger at the same position. *)
Definition ticketFor (service : Service) (originStation destStation : Station)
    (seatReq : SeatRequest) (passenger : Passenger) : Ticket :=
  mkTicket
    (GetSeatByID service (SeatRequest_CarriageID seatReq)
       (SeatRequest_SeatNumber seatReq)).1
    originStation destStation service passenger.

(** The error, if any, that one seat request raises. *)
Definition seatError (rs : System) (service : Service)
    (req : ReservationRequest) (seatReq : SeatRequest)
    : option ReservationError :=
  if negb (seat_exists service seatReq) then
    Some (errSeatNotFound seatReq (Req_ServiceID req))
  else if seat_taken rs req seatReq then
    Some (errSeatAlreadyBooked seatReq (Req_ServiceID req))
  else None.

(** The error of the first seat request of the list that raises one. *)
Fixpoint firstSeatError (rs : System) (service : Service)
    (req : ReservationRequest) (seatReqs : list SeatRequest)
    : option ReservationError :=
  match seatReqs with
  | [] => None
  | seatReq :: rest =>
      match seatError rs service req seatReq with
      | Some err => Some err
      | None => firstSeatError rs service req rest
      end
  end.

(** The engine and the booking that a reservation passing every check
    leaves. *)
Definition bookingOf (rs : System) (service : Service)
    (req : ReservationRequest) (now : Time) : Booking :=
  NewBooking now ("B" +:+ Sprintf_04d (nextBookingID rs)) (Req_Passengers req)
    (zip_with
       (ticketFor service
          (GetStationByName (Service_Route service) (Req_Origin req)).1
          (GetStationByName (Service_Route service) (Req_Destination req)).1)
       (Req_SeatRequests req) (Req_Passengers req)).

Definition booked (rs : System) (booking : Booking) : System :=
  mkSystem (<[Booking_ID booking := booking]> (bookings rs))
    (services rs) (routes rs) (int_wrap (nextBookingID rs + 1)).

(** The stop index that the code works with: the position of the first stop
    bearing the name, and -1 when no stop bears it. *)
Definition stop_index (r : Route) (name : string) : Z :=
  (GetStopIndex r name).1.

(** Ticket [t] is for service [serviceID] on the day of [date], and its
    journey covers the segment from stop [segStart] to stop [segEnd] of the
    route of [service]. *)
Definition covers (service : Service) (serviceID : string) (date : Time)
    (segStart segEnd : Z) (t : Ticket) : Prop :=
  Service_ID (Ticket_Service t) = serviceID
  ∧ Date (Service_DateTime (Ticket_Service t)) = Date date
  ∧ stop_index (Service_Route service) (Station_Name (Ticket_Origin t))
    ≤ segStart
  ∧ segEnd
    ≤ stop_index (Service_Route service) (Station_Name (Ticket_Destination t)).

#[global] Instance covers_dec service serviceID date segStart segEnd t :
  Decision (covers service serviceID date segStart segEnd t).
Proof. unfold covers. apply _. Defined.

(** ** Vocabulary of the further properties *)

(** The id of the booking numbered [k]. *)
Definition bookingID (k : Z) : string := "B" +:+ Sprintf_04d k.

(** Reading a decimal numeral: the value of the digits after [acc]. *)
Definition digit_value (c : Ascii.ascii) : N :=
  (Ascii.N_of_ascii c - 48)%N.

Fixpoint parse_decimal (acc : N) (s : string) : N :=
  match s with
  | EmptyString => acc
  | String c s' => parse_decimal (acc * 10 + digit_value c)%N s'
  end.

(** The bookings of the store are numbered 1 to its size: the next booking
    number is one more than the size, the ids stored are those of the
    numbers below it, and each booking is stored under its own id. *)
Definition sequential (rs : System) : Prop :=
  nextBookingID rs = 1 + Z.of_nat (size (bookings rs))
  ∧ (∀ id, is_Some (bookings rs !! id) ↔
       ∃ k, 1 ≤ k < nextBookingID rs ∧ id = bookingID k)
  ∧ ∀ id booking, bookings rs !! id = Some booking → Booking_ID booking = id.

(** Every seat of the service records the id of the carriage it is in. *)
Definition inventory_ok (service : Service) : Prop :=
  ∀ carriage seat,
    carriage ∈ Service_Carriages service →
    seat ∈ Carriage_Seats carriage →
    Seat_CarriageID seat = Carriage_ID carriage.

(** Ticket [t] is for service [serviceID] on the day of [date] and boards
    at, respectively alights at, the station named. *)
Definition boards (serviceID stationName : string) (date : Time) (t : Ticket)
    : Prop :=
  Service_ID (Ticket_Service t) = serviceID
  ∧ Station_Name (Ticket_Origin t) = stationName
  ∧ Date (Service_DateTime (Ticket_Service t)) = Date date.

Definition alights (serviceID stationName : string) (date : Time) (t : Ticket)
    : Prop :=
  Service_ID (Ticket_Service t) = serviceID
  ∧ Station_Name (Ticket_Destination t) = stationName
  ∧ Date (Service_DateTime (Ticket_Service t)) = Date date.

#[global] Instance boards_dec serviceID stationName date t :
  Decision (boards serviceID stationName date t).
Proof. unfold boards. apply _. Defined.

#[global] Instance alights_dec serviceID stationName date t :
  Decision (alights serviceID stationName date t).
Proof. unfold alights. apply _. Defined.

(** Ticket [t] is for that seat of that service on the day of [date]. *)
Definition occupies (serviceID carriageID seatNumber : string) (date : Time)
    (t : Ticket) : Prop :=
  Service_ID (Ticket_Service t) = serviceID
  ∧ Seat_CarriageID (Ticket_Seat t) = carriageID
  ∧ Seat_Number (Ticket_Seat t) = seatNumber
  ∧ Date (Service_DateTime (Ticket_Service t)) = Date date.

(** Two tickets are for one seat of one service on one day. *)
Definition same_seat (t1 t2 : Ticket) : Prop :=
  Service_ID (Ticket_Service t1) = Service_ID (Ticket_Service t2)
  ∧ Seat_CarriageID (Ticket_Seat t1) = Seat_CarriageID (Ticket_Seat t2)
  ∧ Seat_Number (Ticket_Seat t1) = Seat_Number (Ticket_Seat t2)
  ∧ Date (Service_DateTime (Ticket_Service t1))
    = Date (Service_DateTime (Ticket_Service t2)).

(** Engines whose services record, seat by seat, the carriage of the seat,
    and whose reservation requests were all dated on the day of the service
    they name and named no seat twice. *)
Inductive punctual : System → Prop :=
  | punctual_new : punctual NewSystem
  | punctual_route rs route :
      punctual rs → punctual (AddRoute rs route)
  | punctual_service rs service :
      punctual rs → inventory_ok service → punctual (AddService rs service)
  | punctual_reserve rs req now res rs' :
      punctual rs →
      MakeReservation rs req now = Return (res, rs') →
      (∀ service, services rs !! Req_ServiceID req = Some service →
         Date (Req_Date req) = Date (Service_DateTime service)) →
      NoDup (Req_SeatRequests req) →
      punctual rs'.

(** Every service is registered under its own id and records the carriage
    of each seat. *)
Definition registry_ok (rs : System) : Prop :=
  ∀ id service, services rs !! id = Some service →
    Service_ID service = id ∧ inventory_ok service.

(** No seat of a service is held twice for one day: two stored tickets for
    one seat are one ticket, at one position of one booking. *)
Definition exclusive (rs : System) : Prop :=
  ∀ id1 b1 (i1 : nat) t1 id2 b2 (i2 : nat) t2,
    bookings rs !! id1 = Some b1 → Booking_Tickets b1 !! i1 = Some t1 →
    bookings rs !! id2 = Some b2 → Booking_Tickets b2 !! i2 = Some t2 →
    same_seat t1 t2 → id1 = id2 ∧ i1 = i2.

(** What a stored ticket of an engine in regular use satisfies: it carries
    the service registered under its service id, its journey is a valid
    forward pair on the route of that service, and its seat is a seat of
    that service. *)
Definition ticket_ok (rs : System) (t : Ticket) : Prop :=
  services rs !! Service_ID (Ticket_Service t) = Some (Ticket_Service t)
  ∧ IsValidOriginDestination (Service_Route (Ticket_Service t))
      (Station_Name (Ticket_Origin t)) (Station_Name (Ticket_Destination t))
    = true
  ∧ ∃ carriage, carriage ∈ Service_Carriages (Ticket_Service t)
                ∧ Ticket_Seat t ∈ Carriage_Seats carriage.

(** ** Slices *)

Lemma index_lookup {A : Type} (s : list A) (i : nat) (a : A) :
  s !! i = Some a → index s (Z.of_nat i) = Return a.
Proof.
  intros Hs. unfold index.
  rewrite bool_decide_eq_true_2 by lia.
  by rewrite Nat2Z.id, Hs.
Qed.

Lemma assign_insert {A : Type} (s : list A) (i : nat) (a : A) :
  (i < length s)%nat → assign s (Z.of_nat i) a = Return (<[i := a]> s).
Proof.
  intros Hi. unfold assign.
  rewrite bool_decide_eq_true_2 by lia.
  by rewrite Nat2Z.id.
Qed.

Lemma take_S_insert {A : Type} (s : list A) (i : nat) (a : A) :
  (i < length s)%nat → take (S i) (<[i := a]> s) = take i s ++ [a].
Proof.
  intros Hi.
  rewrite (take_S_r (<[i := a]> s) i a) by (by apply list_lookup_insert_eq).
  by rewrite take_insert_ge by lia.
Qed.

(** ** Route construction *)

Lemma NewRoute_loop_spec stations distances (i : nat) stops :
  (i + length stations)%nat = length stops →
  length distances = length stops →
  NewRoute_loop stations distances (Z.of_nat i) stops
  = Return (take i stops ++ buildStops stations (drop i distances) (Z.of_nat i)).
Proof.
  revert i stops.
  induction stations as [|station rest IH]; intros i stops Hlen Hdist; simpl.
  - rewrite Nat.add_0_r in Hlen. subst i.
    by rewrite firstn_all, app_nil_r.
  - simpl in Hlen.
    destruct (lookup_lt_is_Some_2 distances i) as [d Hd]; [lia|].
    rewrite (index_lookup _ _ _ Hd). simpl.
    rewrite assign_insert by lia. simpl.
    replace (Z.of_nat i + 1) with (Z.of_nat (S i)) by lia.
    rewrite IH by (rewrite ?length_insert; lia).
    rewrite take_S_insert by lia.
    rewrite (drop_S distances d i Hd). simpl.
    replace (Z.of_nat i + 1) with (Z.of_nat (S i)) by lia.
    by rewrite <- app_assoc.
Qed.

Lemma buildStops_lookup stations distances (i : Z) (k : nat) station d :
  stations !! k = Some station → distances !! k = Some d →
  buildStops stations distances i !! k = Some (mkStop station d (i + Z.of_nat k)).
Proof.
  revert distances i k.
  induction stations as [|s rest IH]; intros [|d' ds] i [|k]; simpl; try done.
  - intros [= ->] [= ->]. by rewrite Z.add_0_r.
  - intros Hs Hd. rewrite (IH ds (i + 1) k Hs Hd). do 2 f_equal. lia.
Qed.

Lemma buildStops_length stations distances (i : Z) :
  length stations = length distances →
  length (buildStops stations distances i) = length stations.
Proof.
  revert distances i.
  induction stations as [|s rest IH]; intros [|d ds] i; simpl; try done.
  intros [= Hlen]. by rewrite IH.
Qed.

(** C10.  [NewRoute] panics whenever the station list and the distance list
    differ in length; on lists of equal length it returns, and the route it
    returns has one stop per station: the stop at position [i] carries
    station [i], distance [i] and stop order [i]. *)
Theorem NewRoute_safety (id name : string) (stations : list Station)
    (distances : list Z) :
  (length stations ≠ length distances →
     NewRoute id name stations distances
     = Panic "number of stations must equal number of distances")
  ∧ (length stations = length distances →
     ∃ r, NewRoute id name stations distances = Return r
          ∧ Route_ID r = id ∧ Route_Name r = name
          ∧ length (Route_Stops r) = length stations
          ∧ ∀ (i : nat) station d,
              stations !! i = Some station → distances !! i = Some d →
              Route_Stops r !! i = Some (mkStop station d (Z.of_nat i))).
Proof.
  unfold NewRoute. split; intros Hlen.
  - apply Nat.eqb_neq in Hlen. by rewrite Hlen.
  - rewrite (proj2 (Nat.eqb_eq _ _) Hlen). simpl.
    rewrite (NewRoute_loop_spec stations distances 0)
      by (rewrite ?length_replicate; simpl; lia).
    simpl. eexists. split; [done|]. simpl.
    repeat split.
    + by apply buildStops_length.
    + intros i station d Hs Hd.
      exact (buildStops_lookup _ _ 0 i station d Hs Hd).
Qed.

(** The route that the tests build. *)
Lemma NewRoute_safety_witness :
  ∃ r, NewRoute "R002" "Paris-Amsterdam"
         [NewStation "Paris"; NewStation "Calais"; NewStation "Amsterdam"]
         [0; 300; 520] = Return r
       ∧ Route_Stops r !! 1%nat
         = Some (mkStop (NewStation "Calais") 300 1).
Proof.
  destruct (NewRoute_safety "R002" "Paris-Amsterdam"
              [NewStation "Paris"; NewStation "Calais"; NewStation "Amsterdam"]
              [0; 300; 520]) as [_ Hok].
  destruct (Hok eq_refl) as (r & Hr & _ & _ & _ & Hstops).
  exists r. split; [exact Hr|].
  exact (Hstops 1%nat (NewStation "Calais") 300 eq_refl eq_refl).
Defined.

(** ** Looking up stops *)

Lemma GetStopIndex_loop_found stops (i : Z) name (j : Z) :
  GetStopIndex_loop stops i name = (j, true) ↔
  i ≤ j
  ∧ (∃ stop, stops !! Z.to_nat (j - i) = Some stop
             ∧ Station_Name (Stop_Station stop) = name)
  ∧ ∀ k stop, (k < Z.to_nat (j - i))%nat → stops !! k = Some stop →
      Station_Name (Stop_Station stop) ≠ name.
Proof.
  revert i. induction stops as [|stop rest IH]; intros i; simpl.
  - split; [done|]. by intros (_ & (stop & Hstop & _) & _).
  - destruct (String.eqb_spec (Station_Name (Stop_Station stop)) name)
      as [Heq|Hne].
    + split.
      * intros [= ->]. rewrite Z.sub_diag. simpl.
        split; [lia|]. split; [by exists stop|]. intros k ? Hk. lia.
      * intros (Hij & _ & Hfirst). f_equal.
        destruct (decide (j = i)) as [|Hji]; [done|].
        exfalso. apply (Hfirst 0%nat stop); [lia|done|done].
    + rewrite IH. split.
      * intros (Hij & (stop' & Hstop' & Hname) & Hfirst).
        split; [lia|]. split.
        -- exists stop'. split; [|done].
           replace (Z.to_nat (j - i)) with (S (Z.to_nat (j - (i + 1)))) by lia.
           done.
        -- intros [|k] stop'' Hk; simpl.
           ++ by intros [= <-].
           ++ apply Hfirst. lia.
      * intros (Hij & (stop' & Hstop' & Hname) & Hfirst).
        assert (i < j) as Hlt.
        { destruct (decide (j = i)) as [->|]; [|lia].
          rewrite Z.sub_diag in Hstop'. simpl in Hstop'.
          injection Hstop' as <-. done. }
        replace (Z.to_nat (j - i)) with (S (Z.to_nat (j - (i + 1))))
          in Hstop', Hfirst by lia.
        split; [lia|]. split; [by exists stop'|].
        intros k stop'' Hk Hl. apply (Hfirst (S k) stop''); [lia|done].
Qed.

Lemma GetStopIndex_loop_missing stops (i : Z) name (j : Z) :
  GetStopIndex_loop stops i name = (j, false) ↔
  j = -1 ∧ ∀ stop, stop ∈ stops → Station_Name (Stop_Station stop) ≠ name.
Proof.
  revert i. induction stops as [|stop rest IH]; intros i; simpl.
  - split.
    + intros [= <-]. split; [done|]. intros stop Hin. by apply elem_of_nil in Hin.
    + by intros [-> _].
  - destruct (String.eqb_spec (Station_Name (Stop_Station stop)) name)
      as [Heq|Hne].
    + split; [done|]. intros [_ Hall]. exfalso.
      apply (Hall stop); [by left|done].
    + rewrite IH. split; intros [-> Hall]; (split; [done|]).
      * intros stop' [->|Hin]%elem_of_cons; auto.
      * intros stop' Hin. apply Hall. by right.
Qed.

Lemma GetStopIndex_found (r : Route) name (j : Z) :
  GetStopIndex r name = (j, true) ↔ resolves r name j.
Proof.
  unfold GetStopIndex, resolves. rewrite GetStopIndex_loop_found.
  by rewrite Z.sub_0_r.
Qed.

Lemma GetStopIndex_missing (r : Route) name (j : Z) :
  GetStopIndex r name = (j, false) ↔ j = -1 ∧ ¬ on_route r name.
Proof.
  unfold GetStopIndex, on_route. rewrite GetStopIndex_loop_missing.
  split; intros [-> Hall]; (split; [done|]).
  - intros (stop & Hin & Hname). by apply (Hall stop).
  - intros stop Hin Hname. apply Hall. by exists stop.
Qed.

Lemma resolves_on_route (r : Route) name (i : Z) :
  resolves r name i → on_route r name.
Proof.
  intros (_ & (stop & Hstop & Hname) & _). exists stop. split; [|done].
  by apply list_elem_of_lookup_2 in Hstop.
Qed.

Lemma resolves_functional (r : Route) name (i j : Z) :
  resolves r name i → resolves r name j → i = j.
Proof.
  intros Hi%GetStopIndex_found Hj%GetStopIndex_found. congruence.
Qed.

Lemma on_route_resolves (r : Route) name :
  on_route r name → ∃ i, resolves r name i.
Proof.
  intros Hon. destruct (GetStopIndex r name) as [j [|]] eqn:Hget.
  - exists j. by apply GetStopIndex_found.
  - apply GetStopIndex_missing in Hget as [_ Hnot]. done.
Qed.

Lemma IsValidOriginDestination_true (r : Route) (origin destination : string) :
  IsValidOriginDestination r origin destination = true ↔
  ∃ i j, resolves r origin i ∧ resolves r destination j ∧ i < j.
Proof.
  unfold IsValidOriginDestination.
  destruct (GetStopIndex r origin) as [i fo] eqn:Ho.
  destruct (GetStopIndex r destination) as [j fd] eqn:Hd.
  destruct fo, fd; simpl.
  - apply GetStopIndex_found in Ho, Hd. rewrite Z.ltb_lt. split.
    + intros Hlt. by exists i, j.
    + intros (i' & j' & Hi' & Hj' & Hlt).
      by rewrite (resolves_functional _ _ _ _ Ho Hi'),
                 (resolves_functional _ _ _ _ Hd Hj').
  - apply GetStopIndex_missing in Hd as [_ Hd]. split; [done|].
    intros (_ & j' & _ & Hj' & _). by apply resolves_on_route in Hj'.
  - apply GetStopIndex_missing in Ho as [_ Ho]. split; [done|].
    intros (i' & _ & Hi' & _). by apply resolves_on_route in Hi'.
  - apply GetStopIndex_missing in Ho as [_ Ho]. split; [done|].
    intros (i' & _ & Hi' & _). by apply resolves_on_route in Hi'.
Qed.

Lemma GetStationByName_loop_resolved stops name stop :
  (∃ k, stops !! k = Some stop
        ∧ Station_Name (Stop_Station stop) = name
        ∧ ∀ k' stop', (k' < k)%nat → stops !! k' = Some stop' →
            Station_Name (Stop_Station stop') ≠ name) →
  GetStationByName_loop stops name = (Stop_Station stop, true).
Proof.
  induction stops as [|stop0 rest IH]; intros (k & Hk & Hname & Hfirst); simpl.
  - done.
  - destruct (String.eqb_spec (Station_Name (Stop_Station stop0)) name)
      as [Heq|Hne].
    + destruct k as [|k]; [by injection Hk as ->|].
      exfalso. apply (Hfirst 0%nat stop0); [lia|done|done].
    + destruct k as [|k]; [by injection Hk as ->|].
      apply IH. exists k. split; [done|]. split; [done|].
      intros k' stop' Hlt Hl. apply (Hfirst (S k') stop'); [lia|done].
Qed.

(** The station that [GetStationByName] hands back for a name that resolves
    is the station of the stop the name resolves to. *)
Lemma GetStationByName_resolved (r : Route) name (i : Z) :
  resolves r name i →
  ∃ stop, Route_Stops r !! Z.to_nat i = Some stop
          ∧ Station_Name (Stop_Station stop) = name
          ∧ GetStationByName r name = (Stop_Station stop, true).
Proof.
  intros (_ & (stop & Hstop & Hname) & Hfirst).
  exists stop. split; [done|]. split; [done|].
  apply GetStationByName_loop_resolved. by exists (Z.to_nat i).
Qed.

(** ** The booking store and the availability check *)

Lemma isSameDate_true (date1 date2 : Time) :
  isSameDate date1 date2 = true ↔ Date date1 = Date date2.
Proof.
  unfold isSameDate, Date.
  rewrite !andb_true_iff, !Z.eqb_eq. split.
  - intros [[-> ->] ->]. done.
  - intros [= -> -> ->]. done.
Qed.

Lemma isSameDate_false (date1 date2 : Time) :
  isSameDate date1 date2 = false ↔ Date date1 ≠ Date date2.
Proof.
  rewrite <- isSameDate_true. by destruct (isSameDate date1 date2).
Qed.

Lemma seatMatches_true ticket serviceID carriageID seatNumber date :
  seatMatches ticket serviceID carriageID seatNumber date = true ↔
  Service_ID (Ticket_Service ticket) = serviceID
  ∧ Seat_CarriageID (Ticket_Seat ticket) = carriageID
  ∧ Seat_Number (Ticket_Seat ticket) = seatNumber
  ∧ Date (Service_DateTime (Ticket_Service ticket)) = Date date.
Proof.
  unfold seatMatches.
  rewrite !andb_true_iff, !String.eqb_eq, isSameDate_true. tauto.
Qed.

Lemma isSeatBooked_tickets_true tickets serviceID carriageID seatNumber date :
  isSeatBooked_tickets tickets serviceID carriageID seatNumber date = true ↔
  ∃ t, t ∈ tickets ∧ seatMatches t serviceID carriageID seatNumber date = true.
Proof.
  induction tickets as [|ticket rest IH]; simpl.
  - split; [done|]. intros (t & Hin & _). by apply elem_of_nil in Hin.
  - destruct (seatMatches ticket _ _ _ _) eqn:Hm.
    + split; [|done]. intros _. exists ticket. split; [by left|done].
    + rewrite IH. split.
      * intros (t & Hin & Ht). exists t. split; [by right|done].
      * intros (t & [->|Hin]%elem_of_cons & Ht); [congruence|by exists t].
Qed.

Lemma isSeatBooked_visiting_true order serviceID carriageID seatNumber date :
  isSeatBooked_visiting order serviceID carriageID seatNumber date = true ↔
  ∃ t, t ∈ tickets_of order
       ∧ seatMatches t serviceID carriageID seatNumber date = true.
Proof.
  unfold tickets_of. induction order as [|booking rest IH]; simpl.
  - split; [done|]. intros (t & Hin & _). by apply elem_of_nil in Hin.
  - destruct (isSeatBooked_tickets _ _ _ _ _) eqn:Hb.
    + split; [|done]. intros _.
      apply isSeatBooked_tickets_true in Hb as (t & Hin & Ht).
      exists t. split; [|done]. apply elem_of_app. by left.
    + rewrite IH. split.
      * intros (t & Hin & Ht). exists t. split; [|done].
        apply elem_of_app. by right.
      * intros (t & [Hin|Hin]%elem_of_app & Ht); [|by exists t].
        assert (isSeatBooked_tickets (Booking_Tickets booking) serviceID
                  carriageID seatNumber date = true) as Hyes
          by (apply isSeatBooked_tickets_true; by exists t).
        congruence.
Qed.

Lemma elem_of_visit (rs : System) (booking : Booking) :
  booking ∈ visit rs ↔ ∃ id, bookings rs !! id = Some booking.
Proof.
  unfold visit. rewrite list_elem_of_fmap. split.
  - intros ([id b] & -> & Hin). exists id. by apply elem_of_map_to_list.
  - intros (id & Hid). exists (id, booking). split; [done|].
    by apply elem_of_map_to_list.
Qed.

Lemma elem_of_tickets_of (order : list Booking) (t : Ticket) :
  t ∈ tickets_of order ↔ ∃ booking, booking ∈ order ∧ t ∈ Booking_Tickets booking.
Proof.
  unfold tickets_of. rewrite list_elem_of_bind. split.
  - intros (booking & Ht & Hin). by exists booking.
  - intros (booking & Hin & Ht). by exists booking.
Qed.

Lemma holds_ticket_visit (rs : System) (order : list Booking) (t : Ticket) :
  order ≡ₚ visit rs → (t ∈ tickets_of order ↔ holds_ticket rs t).
Proof.
  intros Hperm. rewrite elem_of_tickets_of. unfold holds_ticket. split.
  - intros (booking & Hin & Ht). rewrite Hperm in Hin.
    apply elem_of_visit in Hin as (id & Hid). by exists id, booking.
  - intros (id & booking & Hid & Ht). exists booking. split; [|done].
    rewrite Hperm. apply elem_of_visit. by exists id.
Qed.

(** The answer of [isSeatBooked] does not depend on the order in which the
    store is visited: it says whether the store holds a matching ticket. *)
Lemma isSeatBooked_any_order rs order serviceID carriageID seatNumber date :
  order ≡ₚ visit rs →
  isSeatBooked_visiting order serviceID carriageID seatNumber date
  = isSeatBooked rs serviceID carriageID seatNumber date.
Proof.
  intros Hperm. unfold isSeatBooked.
  apply eq_true_iff_eq. rewrite !isSeatBooked_visiting_true.
  split; intros (t & Hin & Ht); exists t; (split; [|done]).
  - apply (holds_ticket_visit rs) in Hin; [|done].
    by apply (holds_ticket_visit rs (visit rs)).
  - apply (holds_ticket_visit rs) in Hin; [|done].
    by apply (holds_ticket_visit rs order).
Qed.

Lemma isSeatBooked_true rs serviceID carriageID seatNumber date :
  isSeatBooked rs serviceID carriageID seatNumber date = true ↔
  ∃ t, holds_ticket rs t
       ∧ Service_ID (Ticket_Service t) = serviceID
       ∧ Seat_CarriageID (Ticket_Seat t) = carriageID
       ∧ Seat_Number (Ticket_Seat t) = seatNumber
       ∧ Date (Service_DateTime (Ticket_Service t)) = Date date.
Proof.
  unfold isSeatBooked. rewrite isSeatBooked_visiting_true.
  split; intros (t & Hin & Ht); exists t.
  - split; [by apply (holds_ticket_visit rs (visit rs))|].
    by apply seatMatches_true.
  - split; [by apply (holds_ticket_visit rs (visit rs))|].
    by apply seatMatches_true.
Qed.

Lemma isSeatBooked_false rs serviceID carriageID seatNumber date :
  isSeatBooked rs serviceID carriageID seatNumber date = false ↔
  ∀ t, holds_ticket rs t →
    ¬ (Service_ID (Ticket_Service t) = serviceID
       ∧ Seat_CarriageID (Ticket_Seat t) = carriageID
       ∧ Seat_Number (Ticket_Seat t) = seatNumber
       ∧ Date (Service_DateTime (Ticket_Service t)) = Date date).
Proof.
  rewrite <- not_true_iff_false, isSeatBooked_true. split.
  - intros Hnone t Ht Hm. apply Hnone. by exists t.
  - intros Hall (t & Ht & Hm). by apply (Hall t).
Qed.

Lemma holds_ticket_insert rs id booking t sv ro next :
  holds_ticket (mkSystem (<[id := booking]> (bookings rs)) sv ro next) t →
  t ∈ Booking_Tickets booking ∨ holds_ticket rs t.
Proof.
  intros (id' & booking' & Hl & Ht). simpl in Hl.
  apply lookup_insert_Some in Hl as [[<- <-]|[_ Hl]]; [by left|].
  right. by exists id', booking'.
Qed.

Lemma holds_ticket_inserted rs id booking t sv ro next :
  t ∈ Booking_Tickets booking →
  holds_ticket (mkSystem (<[id := booking]> (bookings rs)) sv ro next) t.
Proof.
  intros Ht. exists id, booking. split; [|done]. simpl.
  by rewrite lookup_insert_eq.
Qed.

(** ** Reservation *)

Lemma MakeReservation_loop_spec rs service req originStation destStation
    seatReqs (i : nat) tickets :
  (i + length seatReqs)%nat = length tickets →
  length (Req_Passengers req) = length tickets →
  MakeReservation_loop rs service req originStation destStation seatReqs
    (Z.of_nat i) tickets
  = Return
      match firstSeatError rs service req seatReqs with
      | Some err => inl err
      | None =>
          inr (take i tickets
               ++ zip_with (ticketFor service originStation destStation)
                    seatReqs (drop i (Req_Passengers req)))
      end.
Proof.
  revert i tickets.
  induction seatReqs as [|seatReq rest IH]; intros i tickets Hlen Hpass; simpl.
  - rewrite Nat.add_0_r in Hlen. subst i.
    by rewrite firstn_all, app_nil_r.
  - simpl in Hlen. unfold seatError, seat_exists, seat_taken, ticketFor.
    destruct (GetSeatByID service _ _) as [seat found] eqn:Hseat. simpl.
    destruct found; simpl; [|done].
    destruct (isSeatBooked rs _ _ _ _); [done|].
    destruct (lookup_lt_is_Some_2 (Req_Passengers req) i) as [p Hp]; [lia|].
    rewrite (index_lookup _ _ _ Hp). simpl.
    rewrite assign_insert by lia. simpl.
    replace (Z.of_nat i + 1) with (Z.of_nat (S i)) by lia.
    rewrite IH by (rewrite ?length_insert; lia).
    destruct (firstSeatError rs service req rest); [done|].
    rewrite take_S_insert by lia.
    rewrite (drop_S (Req_Passengers req) p i Hp). simpl.
    by rewrite <- app_assoc.
Qed.

(** [MakeReservation] always returns, and what it returns is decided by its
    checks in the order of the code. *)
Lemma MakeReservation_spec rs req now :
  MakeReservation rs req now
  = Return
      match services rs !! Req_ServiceID req with
      | None => (Err (errServiceNotFound (Req_ServiceID req)), rs)
      | Some service =>
          if negb (IsValidOriginDestination (Service_Route service)
                     (Req_Origin req) (Req_Destination req)) then
            (Err (errInvalidRoute req), rs)
          else if negb (length (Req_Passengers req)
                          =? length (Req_SeatRequests req))%nat then
            (Err errPassengerSeatMismatch, rs)
          else
            match firstSeatError rs service req (Req_SeatRequests req) with
            | Some err => (Err err, rs)
            | None =>
                (Ok (bookingOf rs service req now),
                 booked rs (bookingOf rs service req now))
            end
      end.
Proof.
  unfold MakeReservation.
  destruct (services rs !! Req_ServiceID req) as [service|]; [|done].
  destruct (IsValidOriginDestination _ _ _); simpl; [|done].
  destruct (Nat.eqb_spec (length (Req_Passengers req))
              (length (Req_SeatRequests req))) as [Hlen|Hlen]; simpl; [|done].
  rewrite (MakeReservation_loop_spec rs service req _ _ _ 0)
    by (rewrite ?length_replicate; simpl; lia).
  simpl. by destruct (firstSeatError rs service req (Req_SeatRequests req)).
Qed.

Lemma firstSeatError_None rs service req seatReqs :
  firstSeatError rs service req seatReqs = None ↔
  ∀ seatReq, seatReq ∈ seatReqs →
    seat_exists service seatReq = true ∧ seat_taken rs req seatReq = false.
Proof.
  induction seatReqs as [|seatReq rest IH]; simpl.
  - split; [|done]. intros _ seatReq Hin. by apply elem_of_nil in Hin.
  - unfold seatError at 1.
    destruct (seat_exists service seatReq) eqn:He; simpl.
    + destruct (seat_taken rs req seatReq) eqn:Ht.
      * split; [done|]. intros Hall.
        destruct (Hall seatReq) as [_ Hno]; [by left|congruence].
      * rewrite IH. split.
        -- intros Hall sr [->|Hin]%elem_of_cons; auto.
        -- intros Hall sr Hin. apply Hall. by right.
    + split; [done|]. intros Hall.
      destruct (Hall seatReq) as [Hyes _]; [by left|congruence].
Qed.

(** The error of the seat loop is that of the first seat request, in list
    order, that fails one of its two checks. *)
Lemma firstSeatError_first rs service req seatReqs (k : nat) seatReq :
  seatReqs !! k = Some seatReq →
  (∀ (j : nat) sr, (j < k)%nat → seatReqs !! j = Some sr →
     seat_exists service sr = true ∧ seat_taken rs req sr = false) →
  firstSeatError rs service req seatReqs
  = match seatError rs service req seatReq with
    | Some err => Some err
    | None => firstSeatError rs service req (drop (S k) seatReqs)
    end.
Proof.
  revert k. induction seatReqs as [|sr0 rest IH]; intros k Hk Hbefore.
  - done.
  - destruct k as [|k]; simpl in Hk.
    + injection Hk as ->. simpl. by rewrite drop_0.
    + simpl. destruct (Hbefore 0%nat sr0) as [He Ht]; [lia|done|].
      unfold seatError at 1. rewrite He, Ht. simpl.
      apply IH; [done|].
      intros j sr Hj Hl. apply (Hbefore (S j) sr); [lia|done].
Qed.

Lemma firstSeatError_taken rs service req seatReqs seatReq :
  seatReq ∈ seatReqs →
  (∀ sr, sr ∈ seatReqs → seat_exists service sr = true) →
  seat_taken rs req seatReq = true →
  ∃ sr, sr ∈ seatReqs
        ∧ firstSeatError rs service req seatReqs
          = Some (errSeatAlreadyBooked sr (Req_ServiceID req)).
Proof.
  induction seatReqs as [|sr0 rest IH]; intros Hin Hall Htaken.
  - by apply elem_of_nil in Hin.
  - simpl. unfold seatError at 1.
    rewrite (Hall sr0) by (by left). simpl.
    destruct (seat_taken rs req sr0) eqn:Ht0.
    + exists sr0. split; [by left|done].
    + apply elem_of_cons in Hin as [->|Hin]; [congruence|].
      destruct IH as (sr & Hsr & Herr); [done| |done|].
      * intros sr Hsr. apply Hall. by right.
      * exists sr. split; [by right|done].
Qed.

(** An error leaves the engine as it was. *)
Lemma MakeReservation_Err_inv rs req now err rs' :
  MakeReservation rs req now = Return (Err err, rs') → rs' = rs.
Proof.
  rewrite MakeReservation_spec. intros Hrun.
  destruct (services rs !! Req_ServiceID req) as [service|];
    [|by injection Hrun].
  destruct (negb (IsValidOriginDestination _ _ _)); [by injection Hrun|].
  destruct (negb (_ =? _)%nat); [by injection Hrun|].
  destruct (firstSeatError rs service req _); by injection Hrun.
Qed.

(** ** Properties of [MakeReservation] *)

(** C7.  [IsValidOriginDestination] holds exactly when both names resolve to
    stops of the route and the origin's stop comes strictly before the
    destination's.  Hence a request on a registered service whose origin or
    destination is not on the route, or whose origin stop is at or after its
    destination stop, fails with INVALID_ROUTE and leaves the engine as it
    was. *)
Theorem route_order_invariant :
  (∀ r origin destination,
     IsValidOriginDestination r origin destination = true ↔
     ∃ i j, resolves r origin i ∧ resolves r destination j ∧ i < j)
  ∧ ∀ rs req now service,
      services rs !! Req_ServiceID req = Some service →
      (¬ on_route (Service_Route service) (Req_Origin req)
       ∨ ¬ on_route (Service_Route service) (Req_Destination req)
       ∨ ∃ i j, resolves (Service_Route service) (Req_Origin req) i
                ∧ resolves (Service_Route service) (Req_Destination req) j
                ∧ j ≤ i) →
      MakeReservation rs req now = Return (Err (errInvalidRoute req), rs)
      ∧ Code (errInvalidRoute req) = "INVALID_ROUTE".
Proof.
  split; [exact IsValidOriginDestination_true|].
  intros rs req now service Hsvc Hbad. split; [|done].
  rewrite MakeReservation_spec, Hsvc.
  destruct (IsValidOriginDestination _ _ _) eqn:Hvalid; [|done].
  exfalso. apply IsValidOriginDestination_true in Hvalid
    as (i & j & Hi & Hj & Hlt).
  destruct Hbad as [Hno|[Hno|(i' & j' & Hi' & Hj' & Hge)]].
  - apply Hno. by apply (resolves_on_route _ _ i).
  - apply Hno. by apply (resolves_on_route _ _ j).
  - rewrite (resolves_functional _ _ _ _ Hi Hi') in Hlt.
    rewrite (resolves_functional _ _ _ _ Hj Hj') in Hlt. lia.
Qed.

(** Amsterdam to Paris on service 5160: the reverse direction. *)
Lemma route_order_invariant_witness :
  MakeReservation setupTestSystem requestReverse testNow
  = Return (Err (errInvalidRoute requestReverse), setupTestSystem)
  ∧ Code (errInvalidRoute requestReverse) = "INVALID_ROUTE".
Proof.
  apply (proj2 route_order_invariant setupTestSystem requestReverse testNow
           testService).
  - reflexivity.
  - right. right. exists 2, 0.
    split; [apply GetStopIndex_found; reflexivity|].
    split; [apply GetStopIndex_found; reflexivity|lia].
Defined.

(** C4.  The checks of [MakeReservation] are applied in this order, and the
    error handed back is that of the first one that fails: the service is
    registered (SERVICE_NOT_FOUND), origin and destination form a valid
    forward pair (INVALID_ROUTE), there are as many passengers as seat
    requests (PASSENGER_SEAT_MISMATCH), then for the seat requests in list
    order, the seat exists (SEAT_NOT_FOUND) and is not booked
    (SEAT_ALREADY_BOOKED). *)
Theorem validation_order rs req now :
  (services rs !! Req_ServiceID req = None →
     MakeReservation rs req now
     = Return (Err (errServiceNotFound (Req_ServiceID req)), rs))
  ∧ ∀ service, services rs !! Req_ServiceID req = Some service →
      (IsValidOriginDestination (Service_Route service)
         (Req_Origin req) (Req_Destination req) = false →
       MakeReservation rs req now = Return (Err (errInvalidRoute req), rs))
      ∧ (IsValidOriginDestination (Service_Route service)
           (Req_Origin req) (Req_Destination req) = true →
         length (Req_Passengers req) ≠ length (Req_SeatRequests req) →
         MakeReservation rs req now = Return (Err errPassengerSeatMismatch, rs))
      ∧ (IsValidOriginDestination (Service_Route service)
           (Req_Origin req) (Req_Destination req) = true →
         length (Req_Passengers req) = length (Req_SeatRequests req) →
         ∀ (k : nat) seatReq,
           Req_SeatRequests req !! k = Some seatReq →
           (∀ (j : nat) sr, (j < k)%nat → Req_SeatRequests req !! j = Some sr →
              seat_exists service sr = true ∧ seat_taken rs req sr = false) →
           (seat_exists service seatReq = false →
            MakeReservation rs req now
            = Return (Err (errSeatNotFound seatReq (Req_ServiceID req)), rs))
           ∧ (seat_exists service seatReq = true →
              seat_taken rs req seatReq = true →
              MakeReservation rs req now
              = Return (Err (errSeatAlreadyBooked seatReq (Req_ServiceID req)),
                        rs))).
Proof.
  rewrite MakeReservation_spec. split.
  - by intros ->.
  - intros service ->. split; [by intros ->|].
    split.
    + intros -> Hlen%Nat.eqb_neq. simpl. by rewrite Hlen.
    + intros -> Hlen%Nat.eqb_eq k seatReq Hk Hbefore. simpl. rewrite Hlen. simpl.
      rewrite (firstSeatError_first rs service req _ k seatReq Hk Hbefore).
      unfold seatError. split.
      * by intros ->.
      * by intros -> ->.
Qed.

(** Seats A2 and A99 on service 5160: A2 passes both checks, A99 does not
    exist. *)
Lemma validation_order_witness :
  MakeReservation setupTestSystem requestA2_A99 testNow
  = Return (Err (errSeatNotFound (mkSeatRequest "A" "A99") "5160"),
            setupTestSystem).
Proof.
  destruct (validation_order setupTestSystem requestA2_A99 testNow)
    as [_ Hsome].
  destruct (Hsome testService eq_refl) as (_ & _ & Hseats).
  destruct (Hseats eq_refl eq_refl 1%nat (mkSeatRequest "A" "A99") eq_refl)
    as [Hmissing _].
  - intros [|j] sr Hj Hsr; [|lia].
    injection Hsr as <-. split; vm_compute; reflexivity.
  - exact (Hmissing eq_refl).
Defined.

(** C5.  [MakeReservation] always returns, and when what it returns is an
    error the engine is the one it was given: same booking store, of the
    same size, holding no ticket it did not hold, and the same next booking
    number.  This holds whichever check failed, the check of a later seat
    of a request of several seats included. *)
Theorem all_or_nothing rs req now :
  (∃ res rs', MakeReservation rs req now = Return (res, rs'))
  ∧ ∀ err rs', MakeReservation rs req now = Return (Err err, rs') →
      rs' = rs
      ∧ bookings rs' = bookings rs
      ∧ size (bookings rs') = size (bookings rs)
      ∧ nextBookingID rs' = nextBookingID rs
      ∧ ∀ t, holds_ticket rs' t → holds_ticket rs t.
Proof.
  rewrite MakeReservation_spec. split.
  - by destruct (match services rs !! Req_ServiceID req with
                 | Some _ => _ | None => _ end) as [res rs']; exists res, rs'.
  - intros err rs' Hrun. rewrite <- MakeReservation_spec in Hrun.
    by rewrite (MakeReservation_Err_inv rs req now err rs' Hrun).
Qed.

(** The request of seats A2 and A99 fails at its second seat: the engine is
    left as it was, and seat A2 is not booked by it. *)
Lemma all_or_nothing_witness :
  after setupTestSystem
    (MakeReservation setupTestSystem requestA2_A99 testNow)
  = setupTestSystem
  ∧ ∀ t, ¬ holds_ticket
             (after setupTestSystem
                (MakeReservation setupTestSystem requestA2_A99 testNow)) t.
Proof.
  destruct (all_or_nothing setupTestSystem requestA2_A99 testNow)
    as [_ Hkeep].
  destruct (Hkeep (errSeatNotFound (mkSeatRequest "A" "A99") "5160")
              (after setupTestSystem
                 (MakeReservation setupTestSystem requestA2_A99 testNow)))
    as (Hsame & _ & _ & _ & Htickets).
  - vm_compute. reflexivity.
  - split; [exact Hsame|].
    intros t Ht. destruct (Htickets t Ht) as (id & booking & Hl & _).
    simpl in Hl. by rewrite lookup_empty in Hl.
Defined.

(** C1.  When the store holds a ticket for a seat of a service, every later
    request that names that service and that seat and whose date falls on
    the ticket's day - the calendar day of the service the ticket was issued
    for, the only date a ticket carries - and that is otherwise valid
    (registered service, valid forward pair, as many passengers as seats,
    every seat existing) fails with SEAT_ALREADY_BOOKED and leaves the
    engine, its store included, as it was. *)
Theorem double_booking_exclusion rs req now service t seatReq :
  holds_ticket rs t →
  services rs !! Req_ServiceID req = Some service →
  IsValidOriginDestination (Service_Route service)
    (Req_Origin req) (Req_Destination req) = true →
  length (Req_Passengers req) = length (Req_SeatRequests req) →
  (∀ sr, sr ∈ Req_SeatRequests req → seat_exists service sr = true) →
  seatReq ∈ Req_SeatRequests req →
  Service_ID (Ticket_Service t) = Req_ServiceID req →
  Seat_CarriageID (Ticket_Seat t) = SeatRequest_CarriageID seatReq →
  Seat_Number (Ticket_Seat t) = SeatRequest_SeatNumber seatReq →
  Date (Service_DateTime (Ticket_Service t)) = Date (Req_Date req) →
  ∃ err, MakeReservation rs req now = Return (Err err, rs)
         ∧ Code err = "SEAT_ALREADY_BOOKED".
Proof.
  intros Hheld Hsvc Hvalid Hlen%Nat.eqb_eq Hexist Hin Hid Hcar Hnum Hday.
  rewrite MakeReservation_spec, Hsvc, Hvalid, Hlen. simpl.
  destruct (firstSeatError_taken rs service req _ seatReq Hin Hexist)
    as (sr & _ & ->).
  - apply isSeatBooked_true. by exists t.
  - by eexists.
Qed.

(** "Duplicate booking should fail" of the tests: seat A1 of service 5160 on
    2021-04-01, asked again for another passenger. *)
Lemma double_booking_exclusion_witness :
  ∃ err, MakeReservation bookedA1 requestA1_again testNow
         = Return (Err err, bookedA1)
         ∧ Code err = "SEAT_ALREADY_BOOKED".
Proof.
  apply (double_booking_exclusion bookedA1 requestA1_again testNow testService
           (ticketFor testService (NewStation "Paris") (NewStation "Amsterdam")
              (mkSeatRequest "A" "A1") (mkPassenger "John Doe"))
           (mkSeatRequest "A" "A1")).
  - exists "B0001", (bookingOf setupTestSystem testService requestA1 testNow).
    split; [vm_compute; reflexivity|left].
  - reflexivity.
  - reflexivity.
  - reflexivity.
  - intros sr Hsr. apply list_elem_of_singleton in Hsr as ->. reflexivity.
  - left.
  - reflexivity.
  - reflexivity.
  - reflexivity.
  - reflexivity.
Defined.

Lemma reachable_first rs :
  reachable rs → bookings rs = ∅ → nextBookingID rs = 1.
Proof.
  induction 1 as [|rs route _ IH|rs service _ IH|rs req now res rs' _ IH Hrun];
    try done.
  rewrite MakeReservation_spec in Hrun. injection Hrun as Hrun.
  destruct (services rs !! Req_ServiceID req) as [service|];
    [|by injection Hrun as _ <-].
  destruct (negb (IsValidOriginDestination _ _ _));
    [by injection Hrun as _ <-|].
  destruct (negb (_ =? _)%nat); [by injection Hrun as _ <-|].
  destruct (firstSeatError rs service req _); [by injection Hrun as _ <-|].
  injection Hrun as _ <-. simpl. intros Hempty.
  by apply insert_non_empty in Hempty.
Qed.

Lemma MakeReservation_success rs req now service :
  services rs !! Req_ServiceID req = Some service →
  IsValidOriginDestination (Service_Route service)
    (Req_Origin req) (Req_Destination req) = true →
  length (Req_Passengers req) = length (Req_SeatRequests req) →
  (∀ sr, sr ∈ Req_SeatRequests req →
     seat_exists service sr = true ∧ seat_taken rs req sr = false) →
  MakeReservation rs req now
  = Return (Ok (bookingOf rs service req now),
            booked rs (bookingOf rs service req now)).
Proof.
  intros Hsvc Hvalid Hlen%Nat.eqb_eq Hseats%firstSeatError_None.
  by rewrite MakeReservation_spec, Hsvc, Hvalid, Hlen, Hseats.
Qed.

Lemma bookingOf_ticket rs service req now (i : nat) seatReq passenger :
  Req_SeatRequests req !! i = Some seatReq →
  Req_Passengers req !! i = Some passenger →
  Booking_Tickets (bookingOf rs service req now) !! i
  = Some (ticketFor service
            (GetStationByName (Service_Route service) (Req_Origin req)).1
            (GetStationByName (Service_Route service) (Req_Destination req)).1
            seatReq passenger).
Proof.
  intros Hs Hp. unfold bookingOf. simpl.
  by rewrite lookup_zip_with, Hs, Hp.
Qed.

(** C9.  A request that passes every check is given the booking id made of
    the letter B and the engine's next booking number written in decimal and
    zero-padded to four characters, B0001 for the first booking an engine
    ever makes; the number then advances by one.  The booking that is
    returned is stored under that id, holds the passengers of the request
    and one ticket per passenger, and ticket [i] binds the seat of seat
    request [i], the stations of the stops that origin and destination
    resolve to, the service, and passenger [i]. *)
Theorem success_postcondition rs req now service :
  services rs !! Req_ServiceID req = Some service →
  IsValidOriginDestination (Service_Route service)
    (Req_Origin req) (Req_Destination req) = true →
  length (Req_Passengers req) = length (Req_SeatRequests req) →
  (∀ sr, sr ∈ Req_SeatRequests req →
     seat_exists service sr = true ∧ seat_taken rs req sr = false) →
  ∃ booking rs' originStop destStop (io jo : Z),
    MakeReservation rs req now = Return (Ok booking, rs')
    ∧ Booking_ID booking = "B" +:+ Sprintf_04d (nextBookingID rs)
    ∧ (0 ≤ nextBookingID rs →
       Sprintf_04d (nextBookingID rs)
       = zeros (4 - String.length (pretty (Z.to_N (nextBookingID rs))))
         +:+ pretty (Z.to_N (nextBookingID rs)))
    ∧ (reachable rs → bookings rs = ∅ → Booking_ID booking = "B0001")
    ∧ nextBookingID rs' = int_wrap (nextBookingID rs + 1)
    ∧ bookings rs' !! Booking_ID booking = Some booking
    ∧ Booking_Passengers booking = Req_Passengers req
    ∧ length (Booking_Tickets booking) = length (Req_Passengers req)
    ∧ resolves (Service_Route service) (Req_Origin req) io
    ∧ Route_Stops (Service_Route service) !! Z.to_nat io = Some originStop
    ∧ resolves (Service_Route service) (Req_Destination req) jo
    ∧ Route_Stops (Service_Route service) !! Z.to_nat jo = Some destStop
    ∧ ∀ (i : nat) seatReq passenger,
        Req_SeatRequests req !! i = Some seatReq →
        Req_Passengers req !! i = Some passenger →
        ∃ seat,
          GetSeatByID service (SeatRequest_CarriageID seatReq)
            (SeatRequest_SeatNumber seatReq) = (seat, true)
          ∧ Booking_Tickets booking !! i
            = Some (mkTicket seat (Stop_Station originStop)
                      (Stop_Station destStop) service passenger).
Proof.
  intros Hsvc Hvalid Hlen Hseats.
  pose proof (MakeReservation_success rs req now service
                Hsvc Hvalid Hlen Hseats) as Hrun.
  apply IsValidOriginDestination_true in Hvalid as (io & jo & Hio & Hjo & _).
  destruct (GetStationByName_resolved _ _ _ Hio) as (originStop & Ho & _ & Hso).
  destruct (GetStationByName_resolved _ _ _ Hjo) as (destStop & Hd & _ & Hsd).
  exists (bookingOf rs service req now),
         (booked rs (bookingOf rs service req now)),
         originStop, destStop, io, jo.
  split; [done|]. split; [done|]. split.
  { intros Hnext. unfold Sprintf_04d, zero_pad.
    by rewrite (proj2 (Z.ltb_ge _ _) Hnext). }
  split.
  { intros Hreach Hempty. simpl.
    by rewrite (reachable_first rs Hreach Hempty). }
  split; [done|]. split.
  { simpl. by rewrite lookup_insert_eq. }
  split; [done|]. split.
  { simpl. by rewrite length_zip_with_r_eq. }
  do 4 (split; [done|]).
  intros i seatReq passenger Hs Hp.
  rewrite (bookingOf_ticket rs service req now i seatReq passenger Hs Hp).
  unfold ticketFor. rewrite Hso, Hsd. simpl.
  destruct (Hseats seatReq) as [Hex _];
    [by apply list_elem_of_lookup_2 in Hs|].
  unfold seat_exists in Hex.
  destruct (GetSeatByID service _ _) as [seat found]. simpl in *. subst found.
  by exists seat.
Qed.

(** "Valid first booking" of the tests. *)
Lemma success_postcondition_witness :
  ∃ booking rs',
    MakeReservation setupTestSystem requestA1 testNow = Return (Ok booking, rs')
    ∧ Booking_ID booking = "B0001"
    ∧ Booking_Tickets booking !! 0%nat
      = Some (mkTicket (mkSeat "A1" FirstClass "A") (NewStation "Paris")
                (NewStation "Amsterdam") testService (mkPassenger "John Doe")).
Proof.
  destruct (success_postcondition setupTestSystem requestA1 testNow testService)
    as (booking & rs' & originStop & destStop & io & jo & Hrun & Hid & _ & _
        & _ & _ & _ & _ & Hio & Ho & Hjo & Hd & Htickets).
  - reflexivity.
  - reflexivity.
  - reflexivity.
  - intros sr Hsr. apply list_elem_of_singleton in Hsr as ->.
    split; vm_compute; reflexivity.
  - exists booking, rs'. split; [exact Hrun|]. split; [exact Hid|].
    destruct (Htickets 0%nat (mkSeatRequest "A" "A1") (mkPassenger "John Doe")
                eq_refl eq_refl) as (seat & Hseat & Hticket).
    rewrite Hticket. f_equal.
    apply GetStopIndex_found in Hio, Hjo.
    injection Hio as <-. injection Hjo as <-.
    injection Hseat as <-. injection Ho as <-. injection Hd as <-.
    reflexivity.
Defined.

(** C6.  The availability check looks at the store only, not at the tickets
    the request has built so far: a request that names one seat at two
    positions, and that passes every check against the store, succeeds, and
    the one booking it returns, stored in the engine, holds two tickets for
    that seat of that service. *)
Theorem double_booking_within_request rs req now service (i j : nat) seatReq :
  services rs !! Req_ServiceID req = Some service →
  IsValidOriginDestination (Service_Route service)
    (Req_Origin req) (Req_Destination req) = true →
  length (Req_Passengers req) = length (Req_SeatRequests req) →
  (∀ sr, sr ∈ Req_SeatRequests req →
     seat_exists service sr = true ∧ seat_taken rs req sr = false) →
  i ≠ j →
  Req_SeatRequests req !! i = Some seatReq →
  Req_SeatRequests req !! j = Some seatReq →
  ∃ booking rs' ti tj seat,
    MakeReservation rs req now = Return (Ok booking, rs')
    ∧ bookings rs' !! Booking_ID booking = Some booking
    ∧ Booking_Tickets booking !! i = Some ti
    ∧ Booking_Tickets booking !! j = Some tj
    ∧ GetSeatByID service (SeatRequest_CarriageID seatReq)
        (SeatRequest_SeatNumber seatReq) = (seat, true)
    ∧ Ticket_Seat ti = seat ∧ Ticket_Seat tj = seat
    ∧ Ticket_Service ti = service ∧ Ticket_Service tj = service.
Proof.
  intros Hsvc Hvalid Hlen Hseats Hij Hi Hj.
  destruct (lookup_lt_is_Some_2 (Req_Passengers req) i) as [pi Hpi];
    [rewrite Hlen; by apply lookup_lt_Some in Hi|].
  destruct (lookup_lt_is_Some_2 (Req_Passengers req) j) as [pj Hpj];
    [rewrite Hlen; by apply lookup_lt_Some in Hj|].
  destruct (Hseats seatReq) as [Hex _];
    [by apply list_elem_of_lookup_2 in Hi|].
  unfold seat_exists in Hex.
  destruct (GetSeatByID service _ _) as [seat found] eqn:Hseat.
  simpl in Hex. subst found.
  exists (bookingOf rs service req now),
         (booked rs (bookingOf rs service req now)),
         (ticketFor service
            (GetStationByName (Service_Route service) (Req_Origin req)).1
            (GetStationByName (Service_Route service) (Req_Destination req)).1
            seatReq pi),
         (ticketFor service
            (GetStationByName (Service_Route service) (Req_Origin req)).1
            (GetStationByName (Service_Route service) (Req_Destination req)).1
            seatReq pj),
         seat.
  split; [by apply MakeReservation_success|].
  split; [simpl; by rewrite lookup_insert_eq|].
  split; [by apply bookingOf_ticket|].
  split; [by apply bookingOf_ticket|].
  unfold ticketFor. simpl. by rewrite Hseat.
Qed.

(** Seat A3 of service 5160 asked for two passengers in one request. *)
Lemma double_booking_within_request_witness :
  ∃ booking rs' ti tj,
    MakeReservation setupTestSystem requestA3_twice testNow
    = Return (Ok booking, rs')
    ∧ Booking_Tickets booking !! 0%nat = Some ti
    ∧ Booking_Tickets booking !! 1%nat = Some tj
    ∧ Ticket_Seat ti = mkSeat "A3" FirstClass "A"
    ∧ Ticket_Seat tj = mkSeat "A3" FirstClass "A".
Proof.
  destruct (double_booking_within_request setupTestSystem requestA3_twice
              testNow testService 0%nat 1%nat (mkSeatRequest "A" "A3"))
    as (booking & rs' & ti & tj & seat & Hrun & _ & Hi & Hj & Hseat
        & Hti & Htj & _).
  - reflexivity.
  - reflexivity.
  - reflexivity.
  - intros sr Hsr.
    assert (sr = mkSeatRequest "A" "A3") as ->.
    { apply elem_of_cons in Hsr as [->|Hsr]; [done|].
      by apply list_elem_of_singleton in Hsr as ->. }
    split; vm_compute; reflexivity.
  - discriminate.
  - reflexivity.
  - reflexivity.
  - exists booking, rs', ti, tj. injection Hseat as <-.
    repeat split; assumption.
Defined.

(** ** The day of a ticket *)

Lemma MakeReservation_Ok_inv rs req now booking rs' :
  MakeReservation rs req now = Return (Ok booking, rs') →
  ∃ service, services rs !! Req_ServiceID req = Some service
             ∧ booking = bookingOf rs service req now
             ∧ rs' = booked rs booking.
Proof.
  rewrite MakeReservation_spec. intros Hrun. injection Hrun as Hrun.
  destruct (services rs !! Req_ServiceID req) as [service|]; [|done].
  destruct (negb (IsValidOriginDestination _ _ _)); [done|].
  destruct (negb (_ =? _)%nat); [done|].
  destruct (firstSeatError rs service req _); [done|].
  injection Hrun as <- <-. by exists service.
Qed.

Lemma bookingOf_ticket_service rs service req now t :
  t ∈ Booking_Tickets (bookingOf rs service req now) →
  Ticket_Service t = service.
Proof.
  unfold bookingOf. simpl.
  intros (seatReq & passenger & -> & _)%elem_of_zip_with. done.
Qed.

Lemma booked_consistent rs req now service :
  consistent rs → services rs !! Req_ServiceID req = Some service →
  consistent (booked rs (bookingOf rs service req now)).
Proof.
  intros [Hkeyed Hday] Hsvc. split; [exact Hkeyed|].
  intros t [Hnew|Hold]%holds_ticket_insert.
  - apply bookingOf_ticket_service in Hnew as ->.
    exists service. split; [|done]. simpl.
    by rewrite (Hkeyed _ _ Hsvc).
  - exact (Hday t Hold).
Qed.

Lemma MakeReservation_consistent rs req now res rs' :
  consistent rs → MakeReservation rs req now = Return (res, rs') →
  consistent rs'.
Proof.
  intros Hcons Hrun. destruct res as [booking|err].
  - apply MakeReservation_Ok_inv in Hrun as (service & Hsvc & -> & ->).
    by apply booked_consistent.
  - by rewrite (MakeReservation_Err_inv rs req now err rs' Hrun).
Qed.

Lemma operating_consistent rs : operating rs → consistent rs.
Proof.
  induction 1 as [|rs route _ IH|rs service _ IH Hempty
                  |rs req now res rs' _ IH Hrun].
  - split.
    + intros id service Hl. simpl in Hl. by rewrite lookup_empty in Hl.
    + intros t (id & booking & Hl & _). simpl in Hl.
      by rewrite lookup_empty in Hl.
  - exact IH.
  - destruct IH as [Hkeyed _]. split.
    + intros id service' Hl. simpl in Hl.
      apply lookup_insert_Some in Hl as [[<- <-]|[_ Hl]]; [done|].
      by apply Hkeyed.
    + intros t (id & booking & Hl & _). simpl in Hl.
      by rewrite Hempty, lookup_empty in Hl.
  - by apply (MakeReservation_consistent rs req now res rs').
Qed.

Lemma off_schedule_free rs req service seatReq :
  consistent rs → services rs !! Req_ServiceID req = Some service →
  Date (Req_Date req) ≠ Date (Service_DateTime service) →
  seat_taken rs req seatReq = false.
Proof.
  intros [_ Hday] Hsvc Hoff. apply isSeatBooked_false.
  intros t Hheld (Hid & _ & _ & Hsame).
  destruct (Hday t Hheld) as (service' & Hsvc' & Hday').
  rewrite Hid, Hsvc in Hsvc'. injection Hsvc' as <-. congruence.
Qed.

(** ** Passengers between two stations *)

Lemma stop_index_resolves (r : Route) name (i : Z) :
  resolves r name i → stop_index r name = i.
Proof. intros Hi%GetStopIndex_found. unfold stop_index. by rewrite Hi. Qed.

Lemma stop_index_missing (r : Route) name :
  ¬ on_route r name → stop_index r name = -1.
Proof.
  intros Hno. unfold stop_index.
  destruct (GetStopIndex r name) as [j [|]] eqn:Hget.
  - apply GetStopIndex_found, resolves_on_route in Hget. done.
  - by apply GetStopIndex_missing in Hget as [-> _].
Qed.

Lemma covers_reflect service serviceID date segStart segEnd t :
  String.eqb (Service_ID (Ticket_Service t)) serviceID
  && isSameDate (Service_DateTime (Ticket_Service t)) date
  && coversSegment service t segStart segEnd = true
  ↔ covers service serviceID date segStart segEnd t.
Proof.
  unfold covers, coversSegment, stop_index.
  rewrite !andb_true_iff, String.eqb_eq, isSameDate_true, Z.leb_le, Z.geb_le.
  tauto.
Qed.

Lemma GetPassengersBetweenStations_tickets_spec service serviceID date
    segStart segEnd tickets passengers :
  GetPassengersBetweenStations_tickets service serviceID date segStart segEnd
    tickets passengers
  = passengers
    ++ (Ticket_Passenger
          <$> filter (covers service serviceID date segStart segEnd) tickets).
Proof.
  revert passengers.
  induction tickets as [|t rest IH]; intros passengers; simpl.
  - by rewrite app_nil_r.
  - rewrite IH.
    destruct (decide (covers service serviceID date segStart segEnd t))
      as [Hyes|Hno].
    + rewrite filter_cons_True by done.
      apply covers_reflect, andb_true_iff in Hyes as [-> ->].
      rewrite fmap_cons, <- app_assoc. reflexivity.
    + rewrite filter_cons_False by done. f_equal.
      rewrite <- covers_reflect in Hno.
      destruct (String.eqb _ _ && isSameDate _ _); [|done].
      destruct (coversSegment service t segStart segEnd); [|done].
      by destruct Hno.
Qed.

Lemma GetPassengersBetweenStations_loop_spec service serviceID date
    segStart segEnd order passengers :
  GetPassengersBetweenStations_loop service serviceID date segStart segEnd
    order passengers
  = passengers
    ++ (Ticket_Passenger
          <$> filter (covers service serviceID date segStart segEnd)
                (tickets_of order)).
Proof.
  revert passengers. unfold tickets_of.
  induction order as [|booking rest IH]; intros passengers; simpl.
  - by rewrite app_nil_r.
  - rewrite IH, GetPassengersBetweenStations_tickets_spec.
    by rewrite filter_app, fmap_app, app_assoc.
Qed.

Lemma GetPassengersBetweenStations_resolved order rs serviceID
    station1 station2 date service (i1 i2 : Z) :
  services rs !! serviceID = Some service →
  resolves (Service_Route service) station1 i1 →
  resolves (Service_Route service) station2 i2 →
  GetPassengersBetweenStations_visiting order rs serviceID
    station1 station2 date
  = Ticket_Passenger
      <$> filter (covers service serviceID date (Z.min i1 i2) (Z.max i1 i2))
            (tickets_of order).
Proof.
  intros Hsvc H1%GetStopIndex_found H2%GetStopIndex_found.
  unfold GetPassengersBetweenStations_visiting.
  rewrite Hsvc, H1, H2. simpl.
  destruct (Z.geb_spec i1 i2) as [Hge|Hlt].
  - rewrite GetPassengersBetweenStations_loop_spec. simpl.
    by rewrite Z.min_r, Z.max_l by lia.
  - rewrite GetPassengersBetweenStations_loop_spec. simpl.
    by rewrite Z.min_l, Z.max_r by lia.
Qed.

(** C8.  [GetPassengersBetweenStations] answers the empty list when the
    service is not registered or when one of the two names is not on the
    route of the service.  Otherwise, with the lower of the two stop
    indices as the start of the segment and the higher as its end, it
    answers the passengers of exactly the stored tickets of that service id
    and that day whose origin stop index is at most the start and whose
    destination stop index is at least the end, in the order in which the
    store is visited. *)
Theorem between_stations_semantics order rs serviceID station1 station2 date :
  order ≡ₚ visit rs →
  (services rs !! serviceID = None →
     GetPassengersBetweenStations_visiting order rs serviceID
       station1 station2 date = [])
  ∧ ∀ service, services rs !! serviceID = Some service →
      (¬ on_route (Service_Route service) station1
       ∨ ¬ on_route (Service_Route service) station2 →
       GetPassengersBetweenStations_visiting order rs serviceID
         station1 station2 date = [])
      ∧ ∀ i1 i2 : Z,
          resolves (Service_Route service) station1 i1 →
          resolves (Service_Route service) station2 i2 →
          GetPassengersBetweenStations_visiting order rs serviceID
            station1 station2 date
          = Ticket_Passenger
              <$> filter (covers service serviceID date
                            (Z.min i1 i2) (Z.max i1 i2))
                    (tickets_of order)
          ∧ ∀ p,
              p ∈ GetPassengersBetweenStations_visiting order rs serviceID
                    station1 station2 date
              ↔ ∃ t, holds_ticket rs t
                     ∧ Ticket_Passenger t = p
                     ∧ Service_ID (Ticket_Service t) = serviceID
                     ∧ Date (Service_DateTime (Ticket_Service t)) = Date date
                     ∧ stop_index (Service_Route service)
                         (Station_Name (Ticket_Origin t)) ≤ Z.min i1 i2
                     ∧ Z.max i1 i2
                       ≤ stop_index (Service_Route service)
                           (Station_Name (Ticket_Destination t)).
Proof.
  intros Horder. split.
  - intros Hnone. unfold GetPassengersBetweenStations_visiting.
    by rewrite Hnone.
  - intros service Hsvc. split.
    + intros Hmissing. unfold GetPassengersBetweenStations_visiting.
      rewrite Hsvc.
      destruct (GetStopIndex _ station1) as [i1 [|]] eqn:H1;
        destruct (GetStopIndex _ station2) as [i2 [|]] eqn:H2;
        simpl; try done.
      apply GetStopIndex_found, resolves_on_route in H1, H2. tauto.
    + intros i1 i2 H1 H2.
      rewrite (GetPassengersBetweenStations_resolved order rs serviceID
                 station1 station2 date service i1 i2 Hsvc H1 H2).
      split; [done|]. intros p. rewrite list_elem_of_fmap. split.
      * intros (t & -> & [Hcov Hin]%list_elem_of_filter).
        exists t. split; [by apply (holds_ticket_visit rs order)|].
        split; [done|]. exact Hcov.
      * intros (t & Hheld & <- & Hcov). exists t. split; [done|].
        apply list_elem_of_filter. split; [exact Hcov|].
        by apply (holds_ticket_visit rs order).
Qed.

(** "Passengers between Calais and Amsterdam" of the tests, asked with the
    two stations in either order. *)
Lemma between_stations_semantics_witness :
  GetPassengersBetweenStations bookedA1 "5160" "Amsterdam" "Calais" april1
  = [mkPassenger "John Doe"]
  ∧ GetPassengersBetweenStations bookedA1 "5160" "Calais" "Utrecht" april1
    = [].
Proof.
  destruct (between_stations_semantics (visit bookedA1) bookedA1 "5160"
              "Amsterdam" "Calais" april1 (reflexivity _)) as [_ Hsome].
  destruct (Hsome testService eq_refl) as [_ Hboth].
  destruct (Hboth 2 1) as [Heq _].
  { apply GetStopIndex_found. reflexivity. }
  { apply GetStopIndex_found. reflexivity. }
  destruct (between_stations_semantics (visit bookedA1) bookedA1 "5160"
              "Calais" "Utrecht" april1 (reflexivity _)) as [_ Hsome'].
  destruct (Hsome' testService eq_refl) as [Hmissing _].
  split.
  - unfold GetPassengersBetweenStations. rewrite Heq. vm_compute. reflexivity.
  - unfold GetPassengersBetweenStations. apply Hmissing. right.
    intros Hon. apply on_route_resolves in Hon as [i Hi].
    apply GetStopIndex_found in Hi. discriminate.
Defined.

(** C2, as the code has it.  The answer for a segment contains every
    passenger of the answer for a segment that contains it: when the stop
    interval of (A', B') lies within the stop interval of (A, B), the list
    for (A, B) is included, as a multiset, in the list for (A', B'),
    whatever the orders in which the store is visited.  A ticket qualifies
    when its journey covers the whole segment, so the longer segment has
    the fewer passengers. *)
Theorem segment_coverage_antitone order order' rs serviceID a b a' b' date
    service (ia ib ia' ib' : Z) :
  order ≡ₚ visit rs → order' ≡ₚ visit rs →
  services rs !! serviceID = Some service →
  resolves (Service_Route service) a ia →
  resolves (Service_Route service) b ib →
  resolves (Service_Route service) a' ia' →
  resolves (Service_Route service) b' ib' →
  Z.min ia ib ≤ Z.min ia' ib' → Z.max ia' ib' ≤ Z.max ia ib →
  GetPassengersBetweenStations_visiting order rs serviceID a b date
  ⊆+ GetPassengersBetweenStations_visiting order' rs serviceID a' b' date.
Proof.
  intros Horder Horder' Hsvc Ha Hb Ha' Hb' Hlo Hhi.
  rewrite (GetPassengersBetweenStations_resolved order rs serviceID a b date
             service ia ib Hsvc Ha Hb).
  rewrite (GetPassengersBetweenStations_resolved order' rs serviceID a' b' date
             service ia' ib' Hsvc Ha' Hb').
  apply fmap_submseteq.
  assert (tickets_of order ≡ₚ tickets_of order') as ->.
  { unfold tickets_of. by rewrite Horder, Horder'. }
  rewrite <- (list_filter_filter_l
                (covers service serviceID date (Z.min ia ib) (Z.max ia ib))
                (covers service serviceID date (Z.min ia' ib') (Z.max ia' ib'))).
  - apply sublist_submseteq, sublist_filter.
  - intros t (Hid & Hday & Ho & Hd). unfold covers. repeat split; try done; lia.
Qed.

(** A journey from Calais to Amsterdam: the segment Paris to Amsterdam
    contains the segment Calais to Amsterdam, and its answer, which is
    empty, is included in the answer for Calais to Amsterdam. *)
Lemma segment_coverage_antitone_witness :
  GetPassengersBetweenStations bookedCalaisAmsterdam "5160"
    "Paris" "Amsterdam" april1
  ⊆+ GetPassengersBetweenStations bookedCalaisAmsterdam "5160"
       "Calais" "Amsterdam" april1.
Proof.
  apply (segment_coverage_antitone (visit bookedCalaisAmsterdam)
           (visit bookedCalaisAmsterdam) bookedCalaisAmsterdam "5160"
           "Paris" "Amsterdam" "Calais" "Amsterdam" april1 testService
           0 2 1 2).
  - reflexivity.
  - reflexivity.
  - reflexivity.
  - apply GetStopIndex_found. reflexivity.
  - apply GetStopIndex_found. reflexivity.
  - apply GetStopIndex_found. reflexivity.
  - apply GetStopIndex_found. reflexivity.
  - simpl. lia.
  - simpl. lia.
Defined.

(** C2, as the specification states it, fails: the stop interval of Calais
    to Amsterdam lies within that of Paris to Amsterdam, and the passenger
    who travels from Calais to Amsterdam is in the answer for Calais to
    Amsterdam but not in the answer for Paris to Amsterdam. *)
Lemma segment_coverage_superset_fails :
  resolves testRoute "Paris" 0 ∧ resolves testRoute "Amsterdam" 2
  ∧ resolves testRoute "Calais" 1
  ∧ Z.min 0 2 ≤ Z.min 1 2 ∧ Z.max 1 2 ≤ Z.max 0 2
  ∧ services bookedCalaisAmsterdam !! "5160" = Some testService
  ∧ ¬ (GetPassengersBetweenStations bookedCalaisAmsterdam "5160"
         "Calais" "Amsterdam" april1
       ⊆ GetPassengersBetweenStations bookedCalaisAmsterdam "5160"
           "Paris" "Amsterdam" april1).
Proof.
  split; [apply GetStopIndex_found; reflexivity|].
  split; [apply GetStopIndex_found; reflexivity|].
  split; [apply GetStopIndex_found; reflexivity|].
  split; [simpl; lia|]. split; [simpl; lia|]. split; [reflexivity|].
  intros Hsub.
  assert (mkPassenger "John Doe"
          ∈ GetPassengersBetweenStations bookedCalaisAmsterdam "5160"
              "Paris" "Amsterdam" april1) as Hin.
  { apply Hsub. vm_compute. left. }
  vm_compute in Hin. by apply elem_of_nil in Hin.
Qed.

(** * Further properties of the two packages *)

(** ** Stations and seats *)

Lemma GetStationByName_loop_missing stops name :
  (∀ stop, stop ∈ stops → Station_Name (Stop_Station stop) ≠ name) →
  GetStationByName_loop stops name = (zeroStation, false).
Proof.
  induction stops as [|stop rest IH]; intros Hall; simpl; [done|].
  destruct (String.eqb_spec (Station_Name (Stop_Station stop)) name)
    as [Heq|Hne].
  - destruct (Hall stop); [by left|done].
  - apply IH. intros stop' Hin. apply Hall. by right.
Qed.

(** X1.  [GetStationByName] and [GetStopIndex] find the same stop: when the
    index lookup answers position [i], the station lookup answers the
    station of the stop at position [i], which bears the name asked for;
    when the index lookup answers "not found", with index -1, the station
    lookup answers "not found" too, with the zero station. *)
Theorem GetStationByName_agrees (r : Route) (name : string) :
  (GetStationByName r name).2 = (GetStopIndex r name).2
  ∧ (∀ i, GetStopIndex r name = (i, true) →
       ∃ stop, Route_Stops r !! Z.to_nat i = Some stop
               ∧ Station_Name (Stop_Station stop) = name
               ∧ GetStationByName r name = (Stop_Station stop, true))
  ∧ ((GetStopIndex r name).2 = false →
       GetStopIndex r name = (-1, false)
       ∧ GetStationByName r name = (zeroStation, false)).
Proof.
  destruct (GetStopIndex r name) as [i [|]] eqn:Hget.
  - apply GetStopIndex_found in Hget.
    destruct (GetStationByName_resolved r name i Hget)
      as (stop & Hstop & Hname & Hstation).
    split; [by rewrite Hstation|]. split; [|done].
    intros i' [= <-]. by exists stop.
  - apply GetStopIndex_missing in Hget as [-> Hno].
    assert (GetStationByName r name = (zeroStation, false)) as Hstation.
    { apply GetStationByName_loop_missing. intros stop Hin Hname.
      apply Hno. by exists stop. }
    split; [by rewrite Hstation|]. split; [done|]. done.
Qed.

(** On the route of the tests: Calais is the stop at position 1, Utrecht is
    no stop. *)
Lemma GetStationByName_agrees_witness :
  GetStationByName testRoute "Calais" = (NewStation "Calais", true)
  ∧ GetStationByName testRoute "Utrecht" = (zeroStation, false).
Proof.
  destruct (GetStationByName_agrees testRoute "Calais") as (_ & Hfound & _).
  destruct (Hfound 1 eq_refl) as (stop & Hstop & _ & Hstation).
  injection Hstop as <-.
  destruct (GetStationByName_agrees testRoute "Utrecht") as (_ & _ & Hmissing).
  destruct (Hmissing eq_refl) as [_ Hnone].
  split; [exact Hstation|exact Hnone].
Defined.

Lemma GetSeatByID_seats_Some seats seatNumber seat :
  GetSeatByID_seats seats seatNumber = Some seat →
  seat ∈ seats ∧ Seat_Number seat = seatNumber.
Proof.
  induction seats as [|seat0 rest IH]; simpl; [done|].
  destruct (String.eqb_spec (Seat_Number seat0) seatNumber) as [Heq|Hne].
  - intros [= <-]. split; [by left|done].
  - intros [Hin Hnum]%IH. split; [by right|done].
Qed.

Lemma GetSeatByID_seats_None seats seatNumber :
  GetSeatByID_seats seats seatNumber = None ↔
  ∀ seat, seat ∈ seats → Seat_Number seat ≠ seatNumber.
Proof.
  induction seats as [|seat0 rest IH]; simpl.
  - split; [|done]. intros _ seat Hin. by apply elem_of_nil in Hin.
  - destruct (String.eqb_spec (Seat_Number seat0) seatNumber) as [Heq|Hne].
    + split; [done|]. intros Hall. destruct (Hall seat0); [by left|done].
    + rewrite IH. split.
      * intros Hall seat [->|Hin]%elem_of_cons; auto.
      * intros Hall seat Hin. apply Hall. by right.
Qed.

Lemma GetSeatByID_loop_found carriages carriageID seatNumber seat :
  GetSeatByID_loop carriages carriageID seatNumber = (seat, true) →
  Seat_Number seat = seatNumber
  ∧ ∃ carriage, carriage ∈ carriages ∧ Carriage_ID carriage = carriageID
                ∧ seat ∈ Carriage_Seats carriage.
Proof.
  induction carriages as [|carriage rest IH]; simpl; [done|].
  destruct (String.eqb_spec (Carriage_ID carriage) carriageID) as [Heq|Hne].
  - destruct (GetSeatByID_seats _ _) as [seat'|] eqn:Hseats.
    + intros [= <-]. apply GetSeatByID_seats_Some in Hseats as [Hin Hnum].
      split; [done|]. exists carriage. split; [by left|done].
    + intros (Hnum & carriage' & Hin & Hid & Hseat)%IH.
      split; [done|]. exists carriage'. split; [by right|done].
  - intros (Hnum & carriage' & Hin & Hid & Hseat)%IH.
    split; [done|]. exists carriage'. split; [by right|done].
Qed.

Lemma GetSeatByID_loop_missing carriages carriageID seatNumber seat :
  GetSeatByID_loop carriages carriageID seatNumber = (seat, false) ↔
  seat = zeroSeat
  ∧ ∀ carriage seat', carriage ∈ carriages →
      Carriage_ID carriage = carriageID → seat' ∈ Carriage_Seats carriage →
      Seat_Number seat' ≠ seatNumber.
Proof.
  induction carriages as [|carriage rest IH]; simpl.
  - split.
    + intros [= <-]. split; [done|]. intros c s Hin. by apply elem_of_nil in Hin.
    + by intros [-> _].
  - destruct (String.eqb_spec (Carriage_ID carriage) carriageID) as [Heq|Hne].
    + destruct (GetSeatByID_seats _ _) as [seat'|] eqn:Hseats.
      * split; [done|]. intros [_ Hall].
        apply GetSeatByID_seats_Some in Hseats as [Hin Hnum].
        destruct (Hall carriage seat'); [by left|done|done|done].
      * rewrite IH. split; intros [-> Hall]; (split; [done|]).
        -- intros c s [->|Hin]%elem_of_cons Hid Hs; [|by eapply Hall].
           by eapply GetSeatByID_seats_None.
        -- intros c s Hin. apply Hall. by right.
    + rewrite IH. split; intros [-> Hall]; (split; [done|]).
      * intros c s [->|Hin]%elem_of_cons Hid Hs; [done|by eapply Hall].
      * intros c s Hin. apply Hall. by right.
Qed.

(** X2.  [GetSeatByID] finds a seat exactly when some carriage of the
    service with the id asked for holds a seat with the number asked for.
    The seat it finds has that number and lies in a carriage with that id;
    when it finds none it hands back the zero seat. *)
Theorem GetSeatByID_spec (service : Service) (carriageID seatNumber : string) :
  ((GetSeatByID service carriageID seatNumber).2 = true ↔
   ∃ carriage seat,
     carriage ∈ Service_Carriages service
     ∧ Carriage_ID carriage = carriageID
     ∧ seat ∈ Carriage_Seats carriage ∧ Seat_Number seat = seatNumber)
  ∧ (∀ seat, GetSeatByID service carriageID seatNumber = (seat, true) →
       Seat_Number seat = seatNumber
       ∧ ∃ carriage, carriage ∈ Service_Carriages service
                     ∧ Carriage_ID carriage = carriageID
                     ∧ seat ∈ Carriage_Seats carriage)
  ∧ ((GetSeatByID service carriageID seatNumber).2 = false →
       (GetSeatByID service carriageID seatNumber).1 = zeroSeat).
Proof.
  unfold GetSeatByID.
  destruct (GetSeatByID_loop _ _ _) as [seat [|]] eqn:Hget; simpl.
  - pose proof (GetSeatByID_loop_found _ _ _ _ Hget)
      as (Hnum & carriage & Hin & Hid & Hseat).
    split; [|split; [|done]].
    + split; [|done]. intros _. by exists carriage, seat.
    + intros seat' [= <-]. split; [done|]. by exists carriage.
  - apply GetSeatByID_loop_missing in Hget as [-> Hall].
    split; [|split; [done|done]].
    split; [done|]. intros (carriage & seat & Hin & Hid & Hseat & Hnum).
    by destruct (Hall carriage seat).
Qed.

(** Seat A1 of carriage A of service 5160 is found; there is no carriage Z. *)
Lemma GetSeatByID_spec_witness :
  Seat_Number (GetSeatByID testService "A" "A1").1 = "A1"
  ∧ (GetSeatByID testService "Z" "A1").1 = zeroSeat.
Proof.
  destruct (GetSeatByID_spec testService "A" "A1") as (_ & Hfound & _).
  destruct (Hfound (mkSeat "A1" FirstClass "A") eq_refl) as [Hnum _].
  destruct (GetSeatByID_spec testService "Z" "A1") as (_ & _ & Hmissing).
  split; [exact Hnum|exact (Hmissing eq_refl)].
Defined.

Lemma NewRoute_Return_inv id name stations distances r :
  NewRoute id name stations distances = Return r →
  length stations = length distances
  ∧ r = mkRoute id name (buildStops stations distances 0).
Proof.
  unfold NewRoute.
  destruct (Nat.eqb_spec (length stations) (length distances)) as [Hlen|Hlen];
    simpl; [|done].
  rewrite (NewRoute_loop_spec stations distances 0)
    by (rewrite ?length_replicate; simpl; lia).
  simpl. by intros [= <-].
Qed.

(** X3.  Looking a station up on a route that [NewRoute] built gives back
    what went in: for the first station of the input bearing a name, at
    position [i], [GetStopIndex] answers [i], [GetStationByName] answers
    that station, and the stop at [i] has stop order [i] and distance [i]
    of the input. *)
Theorem NewRoute_lookup id name stations distances r (i : nat) station :
  NewRoute id name stations distances = Return r →
  stations !! i = Some station →
  (∀ (j : nat) station', (j < i)%nat → stations !! j = Some station' →
     Station_Name station' ≠ Station_Name station) →
  GetStopIndex r (Station_Name station) = (Z.of_nat i, true)
  ∧ GetStationByName r (Station_Name station) = (station, true)
  ∧ ∃ d, distances !! i = Some d
         ∧ Route_Stops r !! i = Some (mkStop station d (Z.of_nat i)).
Proof.
  intros [Hlen ->]%NewRoute_Return_inv Hi Hfirst.
  destruct (lookup_lt_is_Some_2 distances i) as [d Hd];
    [rewrite <- Hlen; by apply lookup_lt_Some in Hi|].
  pose proof (buildStops_lookup stations distances 0 i station d Hi Hd)
    as Hstop.
  rewrite Z.add_0_l in Hstop.
  assert (resolves (mkRoute id name (buildStops stations distances 0))
            (Station_Name station) (Z.of_nat i)) as Hres.
  { split; [lia|]. rewrite Nat2Z.id. simpl. split.
    - by eexists.
    - intros j stop Hj Hstopj.
      destruct (lookup_lt_is_Some_2 stations j) as [sj Hsj];
        [apply lookup_lt_Some in Hi; lia|].
      destruct (lookup_lt_is_Some_2 distances j) as [dj Hdj];
        [apply lookup_lt_Some in Hd; lia|].
      rewrite (buildStops_lookup stations distances 0 j sj dj Hsj Hdj)
        in Hstopj.
      injection Hstopj as <-. simpl. by apply (Hfirst j). }
  split; [by apply GetStopIndex_found|]. split; [|by exists d].
  destruct (GetStationByName_resolved _ _ _ Hres)
    as (stop & Hstop' & _ & Hstation).
  rewrite Nat2Z.id in Hstop'. simpl in Hstop'.
  rewrite Hstop in Hstop'. by injection Hstop' as <-.
Qed.

(** The route of the tests, built from Paris, Calais and Amsterdam. *)
Lemma NewRoute_lookup_witness :
  GetStopIndex testRoute "Amsterdam" = (2, true)
  ∧ GetStationByName testRoute "Amsterdam" = (NewStation "Amsterdam", true).
Proof.
  destruct (NewRoute_lookup "R002" "Paris-Amsterdam"
              [NewStation "Paris"; NewStation "Calais"; NewStation "Amsterdam"]
              [0; 300; 520] testRoute 2 (NewStation "Amsterdam"))
    as (Hindex & Hstation & _).
  - reflexivity.
  - reflexivity.
  - intros [|[|j]] station' Hj Hst; [| |lia].
    + injection Hst as <-. discriminate.
    + injection Hst as <-. discriminate.
  - split; [exact Hindex|exact Hstation].
Defined.

(** X4.  On every route [IsValidOriginDestination] is a strict order on
    station names: no name is a valid pair with itself, a valid pair is
    not valid in reverse, and valid pairs chain. *)
Theorem IsValidOriginDestination_strict_order (r : Route) :
  (∀ a, IsValidOriginDestination r a a = false)
  ∧ (∀ a b, IsValidOriginDestination r a b = true →
       IsValidOriginDestination r b a = false)
  ∧ ∀ a b c, IsValidOriginDestination r a b = true →
      IsValidOriginDestination r b c = true →
      IsValidOriginDestination r a c = true.
Proof.
  split; [|split].
  - intros a. apply not_true_iff_false.
    intros (i & j & Hi & Hj & Hlt)%IsValidOriginDestination_true.
    rewrite (resolves_functional _ _ _ _ Hi Hj) in Hlt. lia.
  - intros a b (i & j & Hi & Hj & Hlt)%IsValidOriginDestination_true.
    apply not_true_iff_false.
    intros (j' & i' & Hj' & Hi' & Hlt')%IsValidOriginDestination_true.
    rewrite (resolves_functional _ _ _ _ Hi Hi') in Hlt.
    rewrite (resolves_functional _ _ _ _ Hj Hj') in Hlt. lia.
  - intros a b c (i & j & Hi & Hj & Hlt)%IsValidOriginDestination_true
      (j' & k & Hj' & Hk & Hlt')%IsValidOriginDestination_true.
    apply IsValidOriginDestination_true. exists i, k.
    rewrite (resolves_functional _ _ _ _ Hj Hj') in Hlt.
    split; [done|]. split; [done|lia].
Qed.

(** Paris to Calais and Calais to Amsterdam give Paris to Amsterdam. *)
Lemma IsValidOriginDestination_strict_order_witness :
  IsValidOriginDestination testRoute "Paris" "Amsterdam" = true
  ∧ IsValidOriginDestination testRoute "Calais" "Paris" = false.
Proof.
  destruct (IsValidOriginDestination_strict_order testRoute)
    as (_ & Hasym & Htrans).
  split.
  - exact (Htrans "Paris" "Calais" "Amsterdam" eq_refl eq_refl).
  - exact (Hasym "Paris" "Calais" eq_refl).
Defined.

(** ** Registering routes and services *)

Lemma firstSeatError_bookings rs rs' service req seatReqs :
  bookings rs = bookings rs' →
  firstSeatError rs service req seatReqs
  = firstSeatError rs' service req seatReqs.
Proof.
  intros Hsame. induction seatReqs as [|seatReq rest IH]; simpl; [done|].
  rewrite IH. unfold seatError, seat_taken, isSeatBooked, visit.
  by rewrite Hsame.
Qed.

(** X5.  The route registry is written by [AddRoute] and read by nothing:
    registering a route changes neither the outcome of a reservation nor
    the answer of any query, and a reservation keeps the registered
    route. *)
Theorem AddRoute_invisible (rs : System) (route : Route) :
  (∀ req now,
     MakeReservation (AddRoute rs route) req now
     = match MakeReservation rs req now with
       | Return (res, rs') => Return (res, AddRoute rs' route)
       | Panic msg => Panic msg
       end)
  ∧ (∀ serviceID station1 station2 date,
       GetPassengersBetweenStations (AddRoute rs route)
         serviceID station1 station2 date
       = GetPassengersBetweenStations rs serviceID station1 station2 date)
  ∧ (∀ serviceID stationName date,
       GetPassengersBoardingAt (AddRoute rs route) serviceID stationName date
       = GetPassengersBoardingAt rs serviceID stationName date
       ∧ GetPassengersAlightingAt (AddRoute rs route)
           serviceID stationName date
         = GetPassengersAlightingAt rs serviceID stationName date)
  ∧ (∀ serviceID carriageID seatNumber date,
       GetPassengerOnSeat (AddRoute rs route)
         serviceID carriageID seatNumber date
       = GetPassengerOnSeat rs serviceID carriageID seatNumber date)
  ∧ ∀ id, GetBooking (AddRoute rs route) id = GetBooking rs id.
Proof.
  split; [|done].
  intros req now. rewrite !MakeReservation_spec. simpl.
  destruct (services rs !! Req_ServiceID req) as [service|]; [|done].
  destruct (negb (IsValidOriginDestination _ _ _)); [done|].
  destruct (negb (_ =? _)%nat); [done|].
  rewrite (firstSeatError_bookings (AddRoute rs route) rs) by done.
  by destruct (firstSeatError rs service req _).
Qed.

(** X6.  [AddService] registers the service under its own id, replacing a
    service registered under that id before, and does not touch requests
    for other services: such a request has the outcome it would have had
    without the registration. *)
Theorem AddService_frame (rs : System) (service : Service) :
  services (AddService rs service) !! Service_ID service = Some service
  ∧ (∀ service', Service_ID service' = Service_ID service →
       AddService (AddService rs service) service' = AddService rs service')
  ∧ ∀ req now, Req_ServiceID req ≠ Service_ID service →
      MakeReservation (AddService rs service) req now
      = match MakeReservation rs req now with
        | Return (res, rs') => Return (res, AddService rs' service)
        | Panic msg => Panic msg
        end.
Proof.
  split; [simpl; by rewrite lookup_insert_eq|]. split.
  - intros service' Hid. unfold AddService. simpl.
    by rewrite Hid, insert_insert_eq.
  - intros req now Hother. rewrite !MakeReservation_spec. simpl.
    rewrite lookup_insert_ne by done.
    destruct (services rs !! Req_ServiceID req) as [service'|]; [|done].
    destruct (negb (IsValidOriginDestination _ _ _)); [done|].
    destruct (negb (_ =? _)%nat); [done|].
    rewrite (firstSeatError_bookings (AddService rs service) rs) by done.
    by destruct (firstSeatError rs service' req _).
Qed.

(** Registering a service 9999 on the engine of the tests: the reservation
    of seat A1 on service 5160 goes through as before. *)
Lemma AddService_frame_witness :
  ∃ booking rs',
    MakeReservation
      (AddService setupTestSystem
         (NewService "9999" testRoute april1 testCarriages))
      requestA1 testNow
    = Return (Ok booking, rs')
    ∧ Booking_ID booking = "B0001".
Proof.
  destruct (AddService_frame setupTestSystem
              (NewService "9999" testRoute april1 testCarriages))
    as (_ & _ & Hframe).
  rewrite (Hframe requestA1 testNow) by discriminate.
  rewrite MakeReservation_spec. simpl.
  do 2 eexists. split; reflexivity.
Defined.

(** ** Booking ids *)

Lemma digit_value_pretty (d : N) :
  (d < 10)%N → digit_value (pretty_N_char d) = d.
Proof.
  intros Hd.
  assert (d = 0 ∨ d = 1 ∨ d = 2 ∨ d = 3 ∨ d = 4 ∨ d = 5 ∨ d = 6 ∨ d = 7
          ∨ d = 8 ∨ d = 9)%N as Hcases by lia.
  repeat (destruct Hcases as [->|Hcases]; [reflexivity|]). by subst d.
Qed.

Lemma parse_decimal_pretty_go (x : N) (s : string) :
  parse_decimal 0 (pretty_N_go x s) = parse_decimal x s.
Proof.
  revert s. induction (N.lt_wf_0 x) as [x _ IH]; intros s.
  assert (x = 0 ∨ 0 < x)%N as [->|Hpos] by lia.
  - by rewrite pretty_N_go_0.
  - rewrite pretty_N_go_step by done.
    rewrite IH by (by apply N.div_lt). simpl.
    rewrite digit_value_pretty by (by apply N.mod_lt).
    f_equal. rewrite (N.div_mod x 10) at 3 by done. lia.
Qed.

Lemma parse_decimal_pretty (n : N) : parse_decimal 0 (pretty n) = n.
Proof.
  unfold pretty, pretty_N. case_decide as Hn.
  - by subst n.
  - by rewrite parse_decimal_pretty_go.
Qed.

Lemma parse_decimal_zeros (m : nat) (s : string) :
  parse_decimal 0 (zeros m +:+ s) = parse_decimal 0 s.
Proof. induction m as [|m IH]; [done|]. simpl. exact IH. Qed.

Lemma parse_decimal_Sprintf_04d (n : Z) :
  0 ≤ n → parse_decimal 0 (Sprintf_04d n) = Z.to_N n.
Proof.
  intros Hn. unfold Sprintf_04d, zero_pad.
  rewrite (proj2 (Z.ltb_ge _ _) Hn).
  by rewrite parse_decimal_zeros, parse_decimal_pretty.
Qed.

Lemma bookingID_inj (m n : Z) :
  0 ≤ m → 0 ≤ n → bookingID m = bookingID n → m = n.
Proof.
  intros Hm Hn Heq.
  apply (f_equal (λ s, match s with
                       | String _ digits => parse_decimal 0 digits
                       | EmptyString => 0%N
                       end)) in Heq.
  change (parse_decimal 0 (Sprintf_04d m) = parse_decimal 0 (Sprintf_04d n))
    in Heq.
  rewrite !parse_decimal_Sprintf_04d in Heq by done. lia.
Qed.

(** X7.  The booking number can be read back from a booking id: the digits
    after the letter B, leading zeros included, are the decimal numeral of
    the number.  So two booking numbers that are not negative and differ
    have different ids. *)
Theorem bookingID_readback (m n : Z) :
  0 ≤ m → 0 ≤ n →
  parse_decimal 0 (Sprintf_04d n) = Z.to_N n
  ∧ (bookingID m = bookingID n → m = n).
Proof.
  intros Hm Hn.
  split; [by apply parse_decimal_Sprintf_04d|by apply bookingID_inj].
Qed.

(** Booking numbers 7 and 12345: B0007 and B12345. *)
Lemma bookingID_readback_witness :
  parse_decimal 0 "0007" = 7%N ∧ bookingID 12345 ≠ bookingID 7.
Proof.
  destruct (bookingID_readback 12345 7) as (Hparse & Hinj); [lia|lia|].
  split; [exact Hparse|].
  intros Heq. apply Hinj in Heq. discriminate.
Defined.

(** ** The booking store over time *)

Lemma MakeReservation_Ok_inv_strong rs req now booking rs' :
  MakeReservation rs req now = Return (Ok booking, rs') →
  ∃ service,
    services rs !! Req_ServiceID req = Some service
    ∧ IsValidOriginDestination (Service_Route service)
        (Req_Origin req) (Req_Destination req) = true
    ∧ length (Req_Passengers req) = length (Req_SeatRequests req)
    ∧ firstSeatError rs service req (Req_SeatRequests req) = None
    ∧ booking = bookingOf rs service req now
    ∧ rs' = booked rs booking.
Proof.
  rewrite MakeReservation_spec. intros Hrun. injection Hrun as Hrun.
  destruct (services rs !! Req_ServiceID req) as [service|]; [|done].
  destruct (IsValidOriginDestination _ _ _) eqn:Hvalid; [|done].
  destruct (Nat.eqb_spec (length (Req_Passengers req))
              (length (Req_SeatRequests req))) as [Hlen|Hlen]; [|done].
  simpl in Hrun.
  destruct (firstSeatError rs service req _) eqn:Hseats; [done|].
  injection Hrun as <- <-. by exists service.
Qed.

Lemma int_wrap_small (z : Z) : - 2 ^ 63 ≤ z < 2 ^ 63 → int_wrap z = z.
Proof. intros Hz. unfold int_wrap. rewrite Z.mod_small; lia. Qed.

Lemma GetBooking_found rs id :
  (GetBooking rs id).2 = true ↔ is_Some (bookings rs !! id).
Proof.
  unfold GetBooking. destruct (bookings rs !! id) as [b|]; simpl.
  - split; [by eexists|done].
  - split; [done|]. by intros [b Hb].
Qed.

Lemma sequential_fresh rs :
  sequential rs → bookings rs !! bookingID (nextBookingID rs) = None.
Proof.
  intros (Hnext & Hids & _).
  destruct (bookings rs !! bookingID (nextBookingID rs)) as [b|] eqn:Hl;
    [|done].
  destruct (proj1 (Hids _) (mk_is_Some _ _ Hl)) as (k & Hk & Heq).
  apply bookingID_inj in Heq; lia.
Qed.

Lemma sequential_booked rs booking :
  sequential rs → Booking_ID booking = bookingID (nextBookingID rs) →
  nextBookingID rs < 2 ^ 63 - 1 →
  sequential (booked rs booking).
Proof.
  intros Hseq Hid Hroom. pose proof (sequential_fresh rs Hseq) as Hfresh.
  destruct Hseq as (Hnext & Hids & Hkeyed).
  unfold sequential, booked. simpl. rewrite Hid.
  rewrite map_size_insert_None by done.
  rewrite int_wrap_small by lia.
  split; [lia|]. split.
  - intros id. rewrite lookup_insert_is_Some'. split.
    + intros [<-|Hsome].
      * exists (nextBookingID rs). split; [lia|done].
      * apply Hids in Hsome as (k & Hk & ->). exists k. split; [lia|done].
    + intros (k & Hk & ->).
      destruct (decide (k = nextBookingID rs)) as [->|Hne]; [by left|].
      right. apply Hids. exists k. split; [lia|done].
  - intros id b [[<- <-]|[_ Hl]]%lookup_insert_Some; [done|].
    by apply Hkeyed.
Qed.

Lemma reachable_sequential_or_full rs :
  reachable rs →
  sequential rs ∨ 2 ^ 63 - 1 ≤ Z.of_nat (size (bookings rs)).
Proof.
  induction 1 as [|rs route _ IH|rs service _ IH|rs req now res rs' _ IH Hrun].
  - left. unfold sequential. simpl. rewrite map_size_empty.
    split; [done|]. split.
    + intros id. rewrite lookup_empty. split.
      * by intros [b Hb].
      * intros (k & Hk & _). lia.
    + intros id b Hl. by rewrite lookup_empty in Hl.
  - exact IH.
  - exact IH.
  - destruct res as [booking|err].
    + apply MakeReservation_Ok_inv in Hrun as (service & _ & -> & ->).
      destruct IH as [Hseq|Hfull].
      * pose proof (sequential_fresh rs Hseq) as Hfresh.
        destruct (decide (nextBookingID rs < 2 ^ 63 - 1)) as [Hroom|Hlast].
        -- left. by apply sequential_booked.
        -- right. destruct Hseq as (Hnext & _). simpl.
           rewrite map_size_insert_None by done. lia.
      * right. simpl. rewrite map_size_insert.
        destruct (bookings rs !! _); simpl; lia.
    + by rewrite (MakeReservation_Err_inv rs req now err rs' Hrun).
Qed.

Lemma reachable_sequential rs :
  reachable rs → Z.of_nat (size (bookings rs)) < 2 ^ 63 - 1 → sequential rs.
Proof.
  intros [Hseq|Hfull]%reachable_sequential_or_full Hroom; [done|lia].
Qed.

(** X8.  Every engine that the operations can produce and that stores
    fewer than 2^63 - 1 bookings numbers its bookings in sequence: the next
    booking number is one more than the number of bookings stored,
    [GetBooking] finds exactly the ids of the numbers 1 to that count, and
    the booking it finds carries the id it was asked for. *)
Theorem booking_ids_sequential (rs : System) :
  reachable rs → Z.of_nat (size (bookings rs)) < 2 ^ 63 - 1 →
  nextBookingID rs = 1 + Z.of_nat (size (bookings rs))
  ∧ (∀ id, (GetBooking rs id).2 = true ↔
       ∃ k, 1 ≤ k ≤ Z.of_nat (size (bookings rs)) ∧ id = bookingID k)
  ∧ ∀ id, (GetBooking rs id).2 = true → Booking_ID (GetBooking rs id).1 = id.
Proof.
  intros Hreach Hroom.
  destruct (reachable_sequential rs Hreach Hroom) as (Hnext & Hids & Hkeyed).
  split; [done|]. split.
  - intros id. rewrite GetBooking_found, Hids. split.
    + intros (k & Hk & ->). exists k. split; [lia|done].
    + intros (k & Hk & ->). exists k. split; [lia|done].
  - intros id. unfold GetBooking.
    destruct (bookings rs !! id) as [b|] eqn:Hl; [|done].
    intros _. by apply Hkeyed.
Qed.

(** After "Valid first booking" of the tests the next number is 2 and the
    one booking is found under B0001. *)
Lemma booking_ids_sequential_witness :
  nextBookingID bookedA1 = 2
  ∧ Booking_ID (GetBooking bookedA1 "B0001").1 = "B0001".
Proof.
  destruct (booking_ids_sequential bookedA1) as (Hnext & _ & Hkeyed).
  - apply (reachable_reserve setupTestSystem requestA1 testNow
             (Ok (bookingOf setupTestSystem testService requestA1 testNow))).
    + apply reachable_service, reachable_route, reachable_new.
    + vm_compute. reflexivity.
  - vm_compute. reflexivity.
  - split; [exact Hnext|]. apply Hkeyed. vm_compute. reflexivity.
Defined.

(** X9.  On such an engine a reservation that succeeds only adds: the id
    it takes was not in use, the store grows by exactly one booking, the
    new booking is found under its id, and every booking and every ticket
    that was stored before is stored still. *)
Theorem bookings_append_only rs req now booking rs' :
  reachable rs → Z.of_nat (size (bookings rs)) < 2 ^ 63 - 1 →
  MakeReservation rs req now = Return (Ok booking, rs') →
  (GetBooking rs (Booking_ID booking)).2 = false
  ∧ size (bookings rs') = S (size (bookings rs))
  ∧ GetBooking rs' (Booking_ID booking) = (booking, true)
  ∧ (∀ id b, GetBooking rs id = (b, true) → GetBooking rs' id = (b, true))
  ∧ ∀ t, holds_ticket rs t → holds_ticket rs' t.
Proof.
  intros Hreach Hroom Hrun.
  pose proof (sequential_fresh rs (reachable_sequential rs Hreach Hroom))
    as Hfresh.
  apply MakeReservation_Ok_inv in Hrun as (service & _ & -> & ->).
  change (Booking_ID (bookingOf rs service req now))
    with (bookingID (nextBookingID rs)) in *.
  assert (∀ id b, bookings rs !! id = Some b →
            bookings (booked rs (bookingOf rs service req now)) !! id = Some b)
    as Hkept.
  { intros id b Hl. simpl.
    change (Booking_ID (bookingOf rs service req now))
      with (bookingID (nextBookingID rs)).
    rewrite lookup_insert_ne; [done|]. intros Heq.
    assert (Some b = None) as Habsurd; [|done].
    rewrite <- Hl, <- Heq. exact Hfresh. }
  split; [unfold GetBooking; by rewrite Hfresh|]. split.
  { simpl. by rewrite map_size_insert_None. }
  split.
  { unfold GetBooking. simpl.
    change (Booking_ID (bookingOf rs service req now))
      with (bookingID (nextBookingID rs)).
    by rewrite lookup_insert_eq. }
  split.
  - intros id b. unfold GetBooking.
    destruct (bookings rs !! id) as [b0|] eqn:Hl; [|done].
    intros [= <-]. by rewrite (Hkept id b0 Hl).
  - intros t (id & b & Hl & Ht). exists id, b. split; [by apply Hkept|done].
Qed.

(** A second reservation on the engine of the tests, of seat A2, leaves
    booking B0001 in place. *)
Lemma bookings_append_only_witness :
  ∃ booking rs',
    MakeReservation bookedA1
      (testRequest "Paris" "Amsterdam" ["Bob Wilson"] ["A2"] april1) testNow
    = Return (Ok booking, rs')
    ∧ size (bookings rs') = 2%nat
    ∧ (GetBooking rs' "B0001").2 = true.
Proof.
  pose (req := testRequest "Paris" "Amsterdam" ["Bob Wilson"] ["A2"] april1).
  pose (booking := bookingOf bookedA1 testService req testNow).
  assert (MakeReservation bookedA1 req testNow
          = Return (Ok booking, booked bookedA1 booking)) as Hrun
    by (vm_compute; reflexivity).
  destruct (bookings_append_only bookedA1 req testNow booking
              (booked bookedA1 booking)) as (_ & Hsize & _ & Hkept & _).
  - apply (reachable_reserve setupTestSystem requestA1 testNow
             (Ok (bookingOf setupTestSystem testService requestA1 testNow))).
    + apply reachable_service, reachable_route, reachable_new.
    + vm_compute. reflexivity.
  - vm_compute. reflexivity.
  - exact Hrun.
  - exists booking, (booked bookedA1 booking).
    split; [exact Hrun|]. split; [exact Hsize|].
    by rewrite (Hkept "B0001"
                  (bookingOf setupTestSystem testService requestA1 testNow)
                  eq_refl).
Defined.

(** X10.  [MakeReservation] never writes to the registries: whatever it
    returns, the services and the routes of the engine are those it was
    given, and the store is either the one it was given or that store with
    the returned booking put under its id. *)
Theorem MakeReservation_keeps_registries rs req now res rs' :
  MakeReservation rs req now = Return (res, rs') →
  services rs' = services rs
  ∧ routes rs' = routes rs
  ∧ (bookings rs' = bookings rs ∧ nextBookingID rs' = nextBookingID rs
     ∨ ∃ booking, res = Ok booking
                  ∧ bookings rs'
                    = <[Booking_ID booking := booking]> (bookings rs)
                  ∧ nextBookingID rs' = int_wrap (nextBookingID rs + 1)).
Proof.
  intros Hrun. destruct res as [booking|err].
  - apply MakeReservation_Ok_inv in Hrun as (service & _ & -> & ->).
    split; [done|]. split; [done|]. right. by eexists.
  - rewrite (MakeReservation_Err_inv rs req now err rs' Hrun).
    split; [done|]. split; [done|]. by left.
Qed.

(** "Valid first booking" of the tests keeps service 5160 registered. *)
Lemma MakeReservation_keeps_registries_witness :
  services bookedA1 !! "5160" = Some testService
  ∧ routes bookedA1 !! "R002" = Some testRoute.
Proof.
  destruct (MakeReservation_keeps_registries setupTestSystem requestA1 testNow
              (Ok (bookingOf setupTestSystem testService requestA1 testNow))
              bookedA1) as (Hsvc & Hroutes & _).
  - vm_compute. reflexivity.
  - rewrite Hsvc, Hroutes. split; reflexivity.
Defined.

(** X11.  A request without passengers and without seat requests, on a
    registered service and a valid pair of stations, is not refused: it
    succeeds, takes a booking number, and stores a booking with no
    passenger and no ticket. *)
Theorem empty_request_is_booked rs req now service :
  services rs !! Req_ServiceID req = Some service →
  IsValidOriginDestination (Service_Route service)
    (Req_Origin req) (Req_Destination req) = true →
  Req_Passengers req = [] → Req_SeatRequests req = [] →
  ∃ rs',
    MakeReservation rs req now
    = Return (Ok (mkBooking (bookingID (nextBookingID rs)) [] [] now), rs')
    ∧ bookings rs' !! bookingID (nextBookingID rs)
      = Some (mkBooking (bookingID (nextBookingID rs)) [] [] now)
    ∧ nextBookingID rs' = int_wrap (nextBookingID rs + 1).
Proof.
  intros Hsvc Hvalid Hp Hs.
  rewrite MakeReservation_spec, Hsvc, Hvalid, Hp, Hs. simpl.
  eexists. split.
  - unfold bookingOf, NewBooking. rewrite Hp, Hs. reflexivity.
  - split; [|done]. apply lookup_insert_eq.
Qed.

(** An empty request from Paris to Amsterdam on service 5160 takes booking
    number 1. *)
Lemma empty_request_is_booked_witness :
  ∃ rs',
    MakeReservation setupTestSystem
      (testRequest "Paris" "Amsterdam" [] [] april1) testNow
    = Return (Ok (mkBooking "B0001" [] [] testNow), rs')
    ∧ nextBookingID rs' = 2.
Proof.
  destruct (empty_request_is_booked setupTestSystem
              (testRequest "Paris" "Amsterdam" [] [] april1) testNow
              testService eq_refl eq_refl eq_refl eq_refl)
    as (rs' & Hrun & _ & Hnext).
  exists rs'. split; [exact Hrun|exact Hnext].
Defined.

(** X12.  The text of a booking that [MakeReservation] returned names its
    id and one count, that of the passengers of the request, twice: an
    engine-made booking has as many tickets as passengers. *)
Theorem Booking_String_reserved rs req now booking rs' :
  MakeReservation rs req now = Return (Ok booking, rs') →
  Booking_String booking
  = "Booking " +:+ bookingID (nextBookingID rs) +:+ ": "
      +:+ pretty (N.of_nat (length (Req_Passengers req)))
      +:+ " passengers, "
      +:+ pretty (N.of_nat (length (Req_Passengers req)))
      +:+ " tickets".
Proof.
  intros (service & _ & _ & Hlen & _ & -> & _)%MakeReservation_Ok_inv_strong.
  unfold Booking_String, bookingOf, NewBooking. simpl.
  rewrite length_zip_with_r_eq by done.
  unfold Sprintf_d.
  rewrite (proj2 (Z.ltb_ge _ _) (Nat2Z.is_nonneg _)).
  by rewrite <- nat_N_Z, N2Z.id.
Qed.

(** "Valid first booking" of the tests. *)
Lemma Booking_String_reserved_witness :
  Booking_String (bookingOf setupTestSystem testService requestA1 testNow)
  = "Booking B0001: 1 passengers, 1 tickets".
Proof.
  rewrite (Booking_String_reserved setupTestSystem requestA1 testNow
             (bookingOf setupTestSystem testService requestA1 testNow)
             bookedA1).
  - reflexivity.
  - vm_compute. reflexivity.
Defined.

(** ** Conductor queries *)

Lemma GetAllBookings_loop_spec order bookings :
  GetAllBookings_loop order bookings = bookings ++ order.
Proof.
  revert bookings. induction order as [|booking rest IH]; intros bookings;
    simpl.
  - by rewrite app_nil_r.
  - rewrite IH, <- app_assoc. reflexivity.
Qed.

(** X13.  [GetAllBookings] hands back every stored booking once: the list
    has the size of the store, a booking is in it exactly when it is stored
    under some id, and when every booking is stored under its own id no
    booking occurs twice. *)
Theorem GetAllBookings_snapshot (order : list Booking) (rs : System) :
  order ≡ₚ visit rs →
  length (GetAllBookings_visiting order) = size (bookings rs)
  ∧ (∀ booking, booking ∈ GetAllBookings_visiting order ↔
       ∃ id, bookings rs !! id = Some booking)
  ∧ ((∀ id booking, bookings rs !! id = Some booking →
        Booking_ID booking = id) →
     NoDup (GetAllBookings_visiting order)).
Proof.
  intros Horder. unfold GetAllBookings_visiting.
  rewrite GetAllBookings_loop_spec. simpl.
  split; [|split].
  - rewrite Horder. unfold visit. by rewrite length_fmap, length_map_to_list.
  - intros booking. rewrite Horder. apply elem_of_visit.
  - intros Hkeyed. rewrite Horder. unfold visit.
    apply NoDup_fmap_2_strong; [|apply NoDup_map_to_list].
    intros [id1 b1] [id2 b2] H1%elem_of_map_to_list H2%elem_of_map_to_list.
    simpl. intros <-.
    by rewrite <- (Hkeyed id1 b1 H1), <- (Hkeyed id2 b1 H2).
Qed.

(** After "Valid first booking" of the tests the list has one booking. *)
Lemma GetAllBookings_snapshot_witness :
  length (GetAllBookings bookedA1) = 1%nat.
Proof.
  destruct (GetAllBookings_snapshot (visit bookedA1) bookedA1 (reflexivity _))
    as [Hlen _].
  unfold GetAllBookings. rewrite Hlen. vm_compute. reflexivity.
Defined.

Lemma boards_reflect serviceID stationName date t :
  String.eqb (Service_ID (Ticket_Service t)) serviceID
  && String.eqb (Station_Name (Ticket_Origin t)) stationName
  && isSameDate (Service_DateTime (Ticket_Service t)) date = true
  ↔ boards serviceID stationName date t.
Proof.
  unfold boards. rewrite !andb_true_iff, !String.eqb_eq, isSameDate_true.
  tauto.
Qed.

Lemma alights_reflect serviceID stationName date t :
  String.eqb (Service_ID (Ticket_Service t)) serviceID
  && String.eqb (Station_Name (Ticket_Destination t)) stationName
  && isSameDate (Service_DateTime (Ticket_Service t)) date = true
  ↔ alights serviceID stationName date t.
Proof.
  unfold alights. rewrite !andb_true_iff, !String.eqb_eq, isSameDate_true.
  tauto.
Qed.

Lemma GetPassengersBoardingAt_tickets_spec serviceID stationName date
    tickets passengers :
  GetPassengersBoardingAt_tickets serviceID stationName date tickets passengers
  = passengers
    ++ (Ticket_Passenger <$> filter (boards serviceID stationName date) tickets).
Proof.
  revert passengers.
  induction tickets as [|t rest IH]; intros passengers; simpl.
  - by rewrite app_nil_r.
  - rewrite IH.
    destruct (decide (boards serviceID stationName date t)) as [Hyes|Hno].
    + rewrite filter_cons_True by done.
      apply boards_reflect in Hyes as ->.
      rewrite fmap_cons, <- app_assoc. reflexivity.
    + rewrite filter_cons_False by done. f_equal.
      rewrite <- boards_reflect in Hno.
      by destruct (_ && _ && _).
Qed.

Lemma GetPassengersBoardingAt_visiting_spec order serviceID stationName date :
  GetPassengersBoardingAt_visiting order serviceID stationName date
  = Ticket_Passenger
      <$> filter (boards serviceID stationName date) (tickets_of order).
Proof.
  unfold GetPassengersBoardingAt_visiting, tickets_of.
  rewrite <- (app_nil_l (_ <$> _)). generalize (@nil Passenger).
  induction order as [|booking rest IH]; intros passengers; simpl.
  - by rewrite app_nil_r.
  - rewrite IH, GetPassengersBoardingAt_tickets_spec.
    by rewrite filter_app, fmap_app, app_assoc.
Qed.

Lemma GetPassengersAlightingAt_tickets_spec serviceID stationName date
    tickets passengers :
  GetPassengersAlightingAt_tickets serviceID stationName date tickets passengers
  = passengers
    ++ (Ticket_Passenger
          <$> filter (alights serviceID stationName date) tickets).
Proof.
  revert passengers.
  induction tickets as [|t rest IH]; intros passengers; simpl.
  - by rewrite app_nil_r.
  - rewrite IH.
    destruct (decide (alights serviceID stationName date t)) as [Hyes|Hno].
    + rewrite filter_cons_True by done.
      apply alights_reflect in Hyes as ->.
      rewrite fmap_cons, <- app_assoc. reflexivity.
    + rewrite filter_cons_False by done. f_equal.
      rewrite <- alights_reflect in Hno.
      by destruct (_ && _ && _).
Qed.

Lemma GetPassengersAlightingAt_visiting_spec order serviceID stationName date :
  GetPassengersAlightingAt_visiting order serviceID stationName date
  = Ticket_Passenger
      <$> filter (alights serviceID stationName date) (tickets_of order).
Proof.
  unfold GetPassengersAlightingAt_visiting, tickets_of.
  rewrite <- (app_nil_l (_ <$> _)). generalize (@nil Passenger).
  induction order as [|booking rest IH]; intros passengers; simpl.
  - by rewrite app_nil_r.
  - rewrite IH, GetPassengersAlightingAt_tickets_spec.
    by rewrite filter_app, fmap_app, app_assoc.
Qed.

(** X14.  [GetPassengersBoardingAt] answers the passengers of exactly the
    stored tickets of that service id whose origin station bears that name
    and whose service runs on the day of the date asked, in the order of
    visit; it consults no registry, so an unknown service or station gives
    the empty list when no ticket matches. *)
Theorem boarding_semantics order rs serviceID stationName date :
  order ≡ₚ visit rs →
  GetPassengersBoardingAt_visiting order serviceID stationName date
  = Ticket_Passenger
      <$> filter (boards serviceID stationName date) (tickets_of order)
  ∧ ∀ p, p ∈ GetPassengersBoardingAt_visiting order serviceID stationName date
      ↔ ∃ t, holds_ticket rs t ∧ Ticket_Passenger t = p
             ∧ Service_ID (Ticket_Service t) = serviceID
             ∧ Station_Name (Ticket_Origin t) = stationName
             ∧ Date (Service_DateTime (Ticket_Service t)) = Date date.
Proof.
  intros Horder. rewrite GetPassengersBoardingAt_visiting_spec.
  split; [done|]. intros p. rewrite list_elem_of_fmap. split.
  - intros (t & -> & [Hb Hin]%list_elem_of_filter). exists t.
    split; [by apply (holds_ticket_visit rs order)|]. split; [done|exact Hb].
  - intros (t & Hheld & <- & Hb). exists t. split; [done|].
    apply list_elem_of_filter. split; [exact Hb|].
    by apply (holds_ticket_visit rs order).
Qed.

(** The boarding test: John Doe boards at Paris, nobody at Amsterdam. *)
Lemma boarding_semantics_witness :
  GetPassengersBoardingAt bookedA1 "5160" "Paris" april1
  = [mkPassenger "John Doe"]
  ∧ GetPassengersBoardingAt bookedA1 "5160" "Amsterdam" april1 = [].
Proof.
  destruct (boarding_semantics (visit bookedA1) bookedA1 "5160" "Paris" april1
              (reflexivity _)) as [Hparis _].
  destruct (boarding_semantics (visit bookedA1) bookedA1 "5160" "Amsterdam"
              april1 (reflexivity _)) as [Hamsterdam _].
  unfold GetPassengersBoardingAt. rewrite Hparis, Hamsterdam.
  split; vm_compute; reflexivity.
Defined.

(** X15.  [GetPassengersAlightingAt] answers the passengers of exactly the
    stored tickets of that service id whose destination station bears that
    name and whose service runs on the day of the date asked, in the order
    of visit. *)
Theorem alighting_semantics order rs serviceID stationName date :
  order ≡ₚ visit rs →
  GetPassengersAlightingAt_visiting order serviceID stationName date
  = Ticket_Passenger
      <$> filter (alights serviceID stationName date) (tickets_of order)
  ∧ ∀ p, p ∈ GetPassengersAlightingAt_visiting order serviceID stationName date
      ↔ ∃ t, holds_ticket rs t ∧ Ticket_Passenger t = p
             ∧ Service_ID (Ticket_Service t) = serviceID
             ∧ Station_Name (Ticket_Destination t) = stationName
             ∧ Date (Service_DateTime (Ticket_Service t)) = Date date.
Proof.
  intros Horder. rewrite GetPassengersAlightingAt_visiting_spec.
  split; [done|]. intros p. rewrite list_elem_of_fmap. split.
  - intros (t & -> & [Hb Hin]%list_elem_of_filter). exists t.
    split; [by apply (holds_ticket_visit rs order)|]. split; [done|exact Hb].
  - intros (t & Hheld & <- & Hb). exists t. split; [done|].
    apply list_elem_of_filter. split; [exact Hb|].
    by apply (holds_ticket_visit rs order).
Qed.

(** The alighting test: John Doe alights at Amsterdam, nobody at Paris. *)
Lemma alighting_semantics_witness :
  GetPassengersAlightingAt bookedA1 "5160" "Amsterdam" april1
  = [mkPassenger "John Doe"]
  ∧ GetPassengersAlightingAt bookedA1 "5160" "Paris" april1 = [].
Proof.
  destruct (alighting_semantics (visit bookedA1) bookedA1 "5160" "Amsterdam"
              april1 (reflexivity _)) as [Hamsterdam _].
  destruct (alighting_semantics (visit bookedA1) bookedA1 "5160" "Paris" april1
              (reflexivity _)) as [Hparis _].
  unfold GetPassengersAlightingAt. rewrite Hparis, Hamsterdam.
  split; vm_compute; reflexivity.
Defined.

Lemma GetPassengerOnSeat_tickets_Some tickets serviceID carriageID seatNumber
    date p :
  GetPassengerOnSeat_tickets tickets serviceID carriageID seatNumber date
  = Some p →
  ∃ t, t ∈ tickets
       ∧ seatMatches t serviceID carriageID seatNumber date = true
       ∧ Ticket_Passenger t = p.
Proof.
  induction tickets as [|ticket rest IH]; simpl; [done|].
  destruct (seatMatches ticket _ _ _ _) eqn:Hm.
  - intros [= <-]. exists ticket. split; [by left|done].
  - intros (t & Hin & Ht)%IH. exists t. split; [by right|done].
Qed.

Lemma GetPassengerOnSeat_tickets_booked tickets serviceID carriageID seatNumber
    date :
  is_Some (GetPassengerOnSeat_tickets tickets serviceID carriageID seatNumber
             date)
  ↔ isSeatBooked_tickets tickets serviceID carriageID seatNumber date = true.
Proof.
  induction tickets as [|ticket rest IH]; simpl.
  - split; [by intros [p Hp]|done].
  - destruct (seatMatches ticket _ _ _ _); [|exact IH].
    split; [done|]. intros _. by eexists.
Qed.

Lemma GetPassengerOnSeat_visiting_found order serviceID carriageID seatNumber
    date :
  (GetPassengerOnSeat_visiting order serviceID carriageID seatNumber date).2
  = isSeatBooked_visiting order serviceID carriageID seatNumber date.
Proof.
  induction order as [|booking rest IH]; simpl; [done|].
  pose proof (GetPassengerOnSeat_tickets_booked (Booking_Tickets booking)
                serviceID carriageID seatNumber date) as Hiff.
  destruct (GetPassengerOnSeat_tickets _ _ _ _ _) as [p|].
  - by rewrite (proj1 Hiff (mk_is_Some _ _ eq_refl)).
  - destruct (isSeatBooked_tickets _ _ _ _ _); [|exact IH].
    by destruct (proj2 Hiff eq_refl).
Qed.

Lemma GetPassengerOnSeat_visiting_Some order serviceID carriageID seatNumber
    date p :
  (GetPassengerOnSeat_visiting order serviceID carriageID seatNumber date).1
  = Some p →
  ∃ t, t ∈ tickets_of order
       ∧ seatMatches t serviceID carriageID seatNumber date = true
       ∧ Ticket_Passenger t = p.
Proof.
  unfold tickets_of. induction order as [|booking rest IH]; simpl; [done|].
  destruct (GetPassengerOnSeat_tickets _ _ _ _ _) as [p'|] eqn:Hb; simpl.
  - intros [= <-].
    apply GetPassengerOnSeat_tickets_Some in Hb as (t & Hin & Ht).
    exists t. split; [|done]. apply elem_of_app. by left.
  - intros (t & Hin & Ht)%IH. exists t. split; [|done].
    apply elem_of_app. by right.
Qed.

Lemma GetPassengerOnSeat_visiting_None order serviceID carriageID seatNumber
    date :
  (GetPassengerOnSeat_visiting order serviceID carriageID seatNumber date).1
  = None
  ↔ (GetPassengerOnSeat_visiting order serviceID carriageID seatNumber date).2
    = false.
Proof.
  induction order as [|booking rest IH]; simpl; [done|].
  by destruct (GetPassengerOnSeat_tickets _ _ _ _ _).
Qed.

(** X16.  [GetPassengerOnSeat] finds a passenger exactly when
    [MakeReservation] would find the seat booked for that date.  The
    passenger it finds is that of a stored ticket for that seat of that
    service on that day; the pointer is nil exactly when nothing is found;
    and when all the stored tickets for the seat carry one passenger, that
    passenger is the answer whatever the order of visit. *)
Theorem GetPassengerOnSeat_spec order rs serviceID carriageID seatNumber date :
  order ≡ₚ visit rs →
  (GetPassengerOnSeat_visiting order serviceID carriageID seatNumber date).2
  = isSeatBooked rs serviceID carriageID seatNumber date
  ∧ ((GetPassengerOnSeat_visiting order serviceID carriageID seatNumber date).1
     = None
     ↔ (GetPassengerOnSeat_visiting order serviceID carriageID seatNumber
          date).2 = false)
  ∧ (∀ p,
       (GetPassengerOnSeat_visiting order serviceID carriageID seatNumber
          date).1 = Some p →
       ∃ t, holds_ticket rs t
            ∧ occupies serviceID carriageID seatNumber date t
            ∧ Ticket_Passenger t = p)
  ∧ ∀ p,
      (∀ t, holds_ticket rs t →
         occupies serviceID carriageID seatNumber date t →
         Ticket_Passenger t = p) →
      isSeatBooked rs serviceID carriageID seatNumber date = true →
      GetPassengerOnSeat_visiting order serviceID carriageID seatNumber date
      = (Some p, true).
Proof.
  intros Horder.
  assert (∀ p,
            (GetPassengerOnSeat_visiting order serviceID carriageID seatNumber
               date).1 = Some p →
            ∃ t, holds_ticket rs t
                 ∧ occupies serviceID carriageID seatNumber date t
                 ∧ Ticket_Passenger t = p) as Hsome.
  { intros p (t & Hin & Hm & Hp)%GetPassengerOnSeat_visiting_Some.
    exists t. split; [by apply (holds_ticket_visit rs order)|].
    split; [by apply seatMatches_true|done]. }
  rewrite GetPassengerOnSeat_visiting_found.
  rewrite (isSeatBooked_any_order rs order) by done.
  split; [done|]. split.
  { rewrite GetPassengerOnSeat_visiting_None.
    rewrite GetPassengerOnSeat_visiting_found.
    by rewrite (isSeatBooked_any_order rs order). }
  split; [exact Hsome|].
  intros p Hone Hbooked.
  pose proof (GetPassengerOnSeat_visiting_found order serviceID carriageID
                seatNumber date) as Hfound.
  rewrite (isSeatBooked_any_order rs order), Hbooked in Hfound by done.
  pose proof (GetPassengerOnSeat_visiting_None order serviceID carriageID
                seatNumber date) as Hnone.
  destruct (GetPassengerOnSeat_visiting order serviceID carriageID seatNumber
              date) as [[p'|] found] eqn:Hget; simpl in *; subst found.
  - destruct (Hsome p' eq_refl) as (t & Hheld & Hocc & <-).
    rewrite (Hone t Hheld Hocc). reflexivity.
  - pose proof (proj1 Hnone eq_refl) as Habsurd. discriminate.
Qed.

(** The seat test: seat A1 is occupied, seat A9 is not. *)
Lemma GetPassengerOnSeat_spec_witness :
  (GetPassengerOnSeat bookedA1 "5160" "A" "A1" april1).2 = true
  ∧ GetPassengerOnSeat bookedA1 "5160" "A" "A9" april1 = (None, false).
Proof.
  destruct (GetPassengerOnSeat_spec (visit bookedA1) bookedA1 "5160" "A" "A1"
              april1 (reflexivity _)) as (Hfound1 & _).
  destruct (GetPassengerOnSeat_spec (visit bookedA1) bookedA1 "5160" "A" "A9"
              april1 (reflexivity _)) as (Hfound & Hnone & _).
  unfold GetPassengerOnSeat. split.
  - rewrite Hfound1. vm_compute. reflexivity.
  - destruct (GetPassengerOnSeat_visiting (visit bookedA1) "5160" "A" "A9"
                april1) as [p found].
    simpl in Hfound, Hnone.
    assert (found = false) as -> by (rewrite Hfound; vm_compute; reflexivity).
    by rewrite (proj2 Hnone eq_refl).
Defined.

(** ** Reservations seen through the queries *)

Lemma reserved_ticket rs req now service (i : nat) seatReq passenger :
  length (Req_Passengers req) = length (Req_SeatRequests req) →
  Req_SeatRequests req !! i = Some seatReq →
  Req_Passengers req !! i = Some passenger →
  holds_ticket (booked rs (bookingOf rs service req now))
    (ticketFor service
       (GetStationByName (Service_Route service) (Req_Origin req)).1
       (GetStationByName (Service_Route service) (Req_Destination req)).1
       seatReq passenger).
Proof.
  intros Hlen Hs Hp. apply holds_ticket_inserted.
  eapply list_elem_of_lookup_2. by apply bookingOf_ticket.
Qed.

(** X17.  After a reservation that succeeded, on a service registered under
    its own id, every passenger of the request is listed as boarding at the
    origin of the request, as alighting at its destination, and as
    travelling between the two, for every date on the day of the service -
    the date that the request itself carried plays no part. *)
Theorem reserved_passengers_listed rs req now service booking rs' order
    date p :
  services rs !! Req_ServiceID req = Some service →
  Service_ID service = Req_ServiceID req →
  MakeReservation rs req now = Return (Ok booking, rs') →
  order ≡ₚ visit rs' →
  Date date = Date (Service_DateTime service) →
  p ∈ Req_Passengers req →
  p ∈ GetPassengersBoardingAt_visiting order (Req_ServiceID req)
        (Req_Origin req) date
  ∧ p ∈ GetPassengersAlightingAt_visiting order (Req_ServiceID req)
          (Req_Destination req) date
  ∧ p ∈ GetPassengersBetweenStations_visiting order rs' (Req_ServiceID req)
          (Req_Origin req) (Req_Destination req) date.
Proof.
  intros Hsvc Hid Hrun Horder Hday Hp.
  apply MakeReservation_Ok_inv_strong in Hrun
    as (service' & Hsvc' & Hvalid & Hlen & _ & -> & ->).
  rewrite Hsvc in Hsvc'. injection Hsvc' as <-.
  apply IsValidOriginDestination_true in Hvalid as (io & jo & Hio & Hjo & Hlt).
  destruct (GetStationByName_resolved _ _ _ Hio) as (so & _ & Hno & Hso).
  destruct (GetStationByName_resolved _ _ _ Hjo) as (sd & _ & Hnd & Hsd).
  apply list_elem_of_lookup_1 in Hp as [i Hi].
  destruct (lookup_lt_is_Some_2 (Req_SeatRequests req) i) as [seatReq Hs];
    [rewrite <- Hlen; by apply lookup_lt_Some in Hi|].
  pose proof (reserved_ticket rs req now service i seatReq p Hlen Hs Hi)
    as Hheld.
  apply (holds_ticket_visit _ order) in Hheld; [|done].
  rewrite Hso, Hsd in Hheld. simpl in Hheld.
  set (t := ticketFor service (Stop_Station so) (Stop_Station sd) seatReq p)
    in Hheld.
  split; [|split].
  - rewrite GetPassengersBoardingAt_visiting_spec.
    apply list_elem_of_fmap. exists t. split; [done|].
    apply list_elem_of_filter. split; [|done]. by repeat split.
  - rewrite GetPassengersAlightingAt_visiting_spec.
    apply list_elem_of_fmap. exists t. split; [done|].
    apply list_elem_of_filter. split; [|done]. by repeat split.
  - rewrite (GetPassengersBetweenStations_resolved order
               (booked rs (bookingOf rs service req now)) (Req_ServiceID req)
               (Req_Origin req) (Req_Destination req) date service io jo
               Hsvc Hio Hjo).
    apply list_elem_of_fmap. exists t. split; [done|].
    apply list_elem_of_filter. split; [|done].
    unfold covers. simpl. rewrite Hno, Hnd.
    rewrite (stop_index_resolves _ _ _ Hio), (stop_index_resolves _ _ _ Hjo).
    repeat split; try done; lia.
Qed.

(** Scenario 1 of the demo: booked for 2025-09-01, John Doe is listed for
    2021-04-01, the day of service 5160. *)
Lemma reserved_passengers_listed_witness :
  mkPassenger "John Doe"
  ∈ GetPassengersBoardingAt
      (booked setupTestSystem
         (bookingOf setupTestSystem testService requestOffSchedule testNow))
      "5160" "Paris" april1.
Proof.
  pose (booking :=
          bookingOf setupTestSystem testService requestOffSchedule testNow).
  destruct (reserved_passengers_listed setupTestSystem requestOffSchedule
              testNow testService booking (booked setupTestSystem booking)
              (visit (booked setupTestSystem booking)) april1
              (mkPassenger "John Doe")) as (Hboard & _).
  - reflexivity.
  - reflexivity.
  - vm_compute. reflexivity.
  - reflexivity.
  - reflexivity.
  - left.
  - exact Hboard.
Defined.

(** X18.  On a service registered under its own id whose seats record the
    carriage they are in, a seat booked by one request is refused to every
    later request: a later request that names the same service and one of
    the seats of the first request, is otherwise valid, and is dated on the
    day of the service fails with SEAT_ALREADY_BOOKED and changes nothing,
    whatever the date of the first request. *)
Theorem booked_seat_refused rs req now service booking rs' req' now' seatReq :
  services rs !! Req_ServiceID req = Some service →
  Service_ID service = Req_ServiceID req →
  inventory_ok service →
  MakeReservation rs req now = Return (Ok booking, rs') →
  Req_ServiceID req' = Req_ServiceID req →
  IsValidOriginDestination (Service_Route service)
    (Req_Origin req') (Req_Destination req') = true →
  length (Req_Passengers req') = length (Req_SeatRequests req') →
  (∀ sr, sr ∈ Req_SeatRequests req' → seat_exists service sr = true) →
  seatReq ∈ Req_SeatRequests req → seatReq ∈ Req_SeatRequests req' →
  Date (Req_Date req') = Date (Service_DateTime service) →
  ∃ err, MakeReservation rs' req' now' = Return (Err err, rs')
         ∧ Code err = "SEAT_ALREADY_BOOKED".
Proof.
  intros Hsvc Hid Hinv Hrun Hsame Hvalid' Hlen' Hexist' Hin Hin' Hday.
  apply MakeReservation_Ok_inv_strong in Hrun
    as (service' & Hsvc' & _ & Hlen & Hseats & -> & ->).
  rewrite Hsvc in Hsvc'. injection Hsvc' as <-.
  apply list_elem_of_lookup_1 in Hin as [i Hs].
  destruct (lookup_lt_is_Some_2 (Req_Passengers req) i) as [p Hp];
    [rewrite Hlen; by apply lookup_lt_Some in Hs|].
  pose proof (reserved_ticket rs req now service i seatReq p Hlen Hs Hp)
    as Hheld.
  assert (seat_taken (booked rs (bookingOf rs service req now)) req' seatReq
          = true) as Htaken.
  { apply isSeatBooked_true. eexists. split; [exact Hheld|].
    unfold ticketFor. simpl.
    destruct (proj1 (firstSeatError_None rs service req _) Hseats seatReq)
      as [Hex _]; [by apply list_elem_of_lookup_2 in Hs|].
    unfold seat_exists, GetSeatByID in *.
    destruct (GetSeatByID_loop _ _ _) as [seat found] eqn:Hget.
    simpl in Hex. subst found. simpl.
    apply GetSeatByID_loop_found in Hget
      as (Hnum & carriage & Hcar & Hcid & Hseat).
    rewrite (Hinv carriage seat Hcar Hseat).
    repeat split; try done. by rewrite Hsame. }
  rewrite MakeReservation_spec. simpl. rewrite Hsame, Hsvc, Hvalid'.
  rewrite (proj2 (Nat.eqb_eq _ _) Hlen'). simpl.
  destruct (firstSeatError_taken _ service req' _ seatReq Hin' Hexist' Htaken)
    as (sr & _ & ->).
  by eexists.
Qed.

(** Scenarios 1 and 2 of the demo: seats booked for 2025-09-01 are refused
    to a request for 2021-04-01, the day of service 5160. *)
Lemma booked_seat_refused_witness :
  ∃ err,
    MakeReservation
      (booked setupTestSystem
         (bookingOf setupTestSystem testService requestOffSchedule testNow))
      (testRequest "Paris" "Amsterdam" ["Bob Wilson"; "Alice Brown"]
         ["A7"; "A8"] april1) testNow
    = Return (Err err,
              booked setupTestSystem
                (bookingOf setupTestSystem testService requestOffSchedule
                   testNow))
    ∧ Code err = "SEAT_ALREADY_BOOKED".
Proof.
  apply (booked_seat_refused setupTestSystem requestOffSchedule testNow
           testService
           (bookingOf setupTestSystem testService requestOffSchedule testNow)
           _ _ testNow (mkSeatRequest "A" "A7")).
  - reflexivity.
  - reflexivity.
  - intros carriage seat Hc Hs.
    apply list_elem_of_singleton in Hc as ->.
    simpl in Hs.
    repeat (apply elem_of_cons in Hs as [->|Hs]; [reflexivity|]).
    by apply elem_of_nil in Hs.
  - vm_compute. reflexivity.
  - reflexivity.
  - reflexivity.
  - reflexivity.
  - intros sr Hsr.
    apply elem_of_cons in Hsr as [->|Hsr]; [reflexivity|].
    apply list_elem_of_singleton in Hsr as ->. reflexivity.
  - left.
  - left.
  - reflexivity.
Defined.

(** X19.  Go does not fix the order in which a map is visited, and the
    answers do not depend on it beyond the order of their entries: for two
    orders of visit of the same store the three passenger lists and the
    list of all bookings are permutations of each other, and the
    availability check and the "found" of the seat lookup are the same. *)
Theorem queries_order_insensitive order order' rs :
  order ≡ₚ order' →
  (∀ serviceID stationName date,
     GetPassengersBoardingAt_visiting order serviceID stationName date
     ≡ₚ GetPassengersBoardingAt_visiting order' serviceID stationName date)
  ∧ (∀ serviceID stationName date,
       GetPassengersAlightingAt_visiting order serviceID stationName date
       ≡ₚ GetPassengersAlightingAt_visiting order' serviceID stationName date)
  ∧ (∀ serviceID station1 station2 date,
       GetPassengersBetweenStations_visiting order rs
         serviceID station1 station2 date
       ≡ₚ GetPassengersBetweenStations_visiting order' rs
            serviceID station1 station2 date)
  ∧ GetAllBookings_visiting order ≡ₚ GetAllBookings_visiting order'
  ∧ ∀ serviceID carriageID seatNumber date,
      isSeatBooked_visiting order serviceID carriageID seatNumber date
      = isSeatBooked_visiting order' serviceID carriageID seatNumber date
      ∧ (GetPassengerOnSeat_visiting order serviceID carriageID seatNumber
           date).2
        = (GetPassengerOnSeat_visiting order' serviceID carriageID seatNumber
             date).2.
Proof.
  intros Horder.
  assert (tickets_of order ≡ₚ tickets_of order') as Htickets
    by (unfold tickets_of; by rewrite Horder).
  split; [|split; [|split; [|split]]].
  - intros. rewrite !GetPassengersBoardingAt_visiting_spec.
    by rewrite Htickets.
  - intros. rewrite !GetPassengersAlightingAt_visiting_spec.
    by rewrite Htickets.
  - intros. unfold GetPassengersBetweenStations_visiting.
    destruct (services rs !! serviceID) as [service|]; [|done].
    destruct (GetStopIndex _ station1) as [i1 f1].
    destruct (GetStopIndex _ station2) as [i2 f2].
    destruct (negb f1 || negb f2); [done|].
    destruct (i1 >=? i2); rewrite !GetPassengersBetweenStations_loop_spec;
      simpl; by rewrite Htickets.
  - unfold GetAllBookings_visiting.
    by rewrite !GetAllBookings_loop_spec.
  - intros.
    assert (isSeatBooked_visiting order serviceID carriageID seatNumber date
            = isSeatBooked_visiting order' serviceID carriageID seatNumber
                date) as Hsame.
    { apply eq_true_iff_eq. rewrite !isSeatBooked_visiting_true.
      split; intros (t & Hin & Ht); exists t; (split; [|done]).
      - by rewrite <- Htickets.
      - by rewrite Htickets. }
    split; [done|]. by rewrite !GetPassengerOnSeat_visiting_found.
Qed.

(** Two bookings visited in either order. *)
Lemma queries_order_insensitive_witness :
  GetAllBookings_visiting
    [bookingOf setupTestSystem testService requestA1 testNow;
     bookingOf bookedA1 testService requestA3_twice testNow]
  ≡ₚ GetAllBookings_visiting
       [bookingOf bookedA1 testService requestA3_twice testNow;
        bookingOf setupTestSystem testService requestA1 testNow].
Proof.
  destruct (queries_order_insensitive
              [bookingOf setupTestSystem testService requestA1 testNow;
               bookingOf bookedA1 testService requestA3_twice testNow]
              [bookingOf bookedA1 testService requestA3_twice testNow;
               bookingOf setupTestSystem testService requestA1 testNow]
              setupTestSystem) as (_ & _ & _ & Hall & _).
  - apply Permutation_swap.
  - exact Hall.
Defined.

(** ** No seat is booked twice *)

Lemma reserved_seat rs service req seatReq :
  inventory_ok service →
  firstSeatError rs service req (Req_SeatRequests req) = None →
  seatReq ∈ Req_SeatRequests req →
  ∃ seat,
    GetSeatByID service (SeatRequest_CarriageID seatReq)
      (SeatRequest_SeatNumber seatReq) = (seat, true)
    ∧ Seat_CarriageID seat = SeatRequest_CarriageID seatReq
    ∧ Seat_Number seat = SeatRequest_SeatNumber seatReq
    ∧ ∃ carriage, carriage ∈ Service_Carriages service
                  ∧ seat ∈ Carriage_Seats carriage.
Proof.
  intros Hinv Hseats Hin.
  destruct (proj1 (firstSeatError_None rs service req _) Hseats seatReq Hin)
    as [Hex _].
  unfold seat_exists, GetSeatByID in *.
  destruct (GetSeatByID_loop _ _ _) as [seat found] eqn:Hget.
  simpl in Hex. subst found.
  apply GetSeatByID_loop_found in Hget as (Hnum & carriage & Hcar & Hcid & Hs).
  exists seat. split; [done|]. split; [by rewrite (Hinv carriage seat)|].
  split; [done|]. by exists carriage.
Qed.

Lemma punctual_invariant rs : punctual rs → registry_ok rs ∧ exclusive rs.
Proof.
  induction 1 as [|rs route _ IH|rs service _ IH Hinv
                  |rs req now res rs' _ IH Hrun Hday Hnodup].
  - split.
    + intros id service Hl. simpl in Hl. by rewrite lookup_empty in Hl.
    + intros id1 b1 i1 t1 id2 b2 i2 t2 Hl. simpl in Hl.
      by rewrite lookup_empty in Hl.
  - exact IH.
  - destruct IH as [Hreg Hexcl]. split; [|exact Hexcl].
    intros id service' Hl. simpl in Hl.
    apply lookup_insert_Some in Hl as [[<- <-]|[_ Hl]]; [done|].
    by apply Hreg.
  - destruct res as [booking|err];
      [|by rewrite (MakeReservation_Err_inv rs req now err rs' Hrun)].
    apply MakeReservation_Ok_inv_strong in Hrun
      as (service & Hsvc & _ & Hlen & Hseats & -> & ->).
    destruct IH as [Hreg Hexcl]. split; [exact Hreg|].
    destruct (Hreg _ _ Hsvc) as [Hid Hinv].
    specialize (Hday service Hsvc).
    assert (∀ (i : nat) t,
              Booking_Tickets (bookingOf rs service req now) !! i = Some t →
              ∃ seatReq, Req_SeatRequests req !! i = Some seatReq
                ∧ Ticket_Service t = service
                ∧ Seat_CarriageID (Ticket_Seat t)
                  = SeatRequest_CarriageID seatReq
                ∧ Seat_Number (Ticket_Seat t) = SeatRequest_SeatNumber seatReq)
      as Hnew.
    { intros i t Ht. unfold bookingOf in Ht. simpl in Ht.
      apply lookup_zip_with_Some in Ht as (seatReq & p & -> & Hs & _).
      exists seatReq. split; [done|]. split; [done|].
      destruct (reserved_seat rs service req seatReq Hinv Hseats)
        as (seat & Hget & Hcid & Hnum & _);
        [by apply list_elem_of_lookup_2 in Hs|].
      unfold ticketFor. simpl. by rewrite Hget. }
    assert (∀ (i : nat) t id b (j : nat) t',
              Booking_Tickets (bookingOf rs service req now) !! i = Some t →
              bookings rs !! id = Some b → Booking_Tickets b !! j = Some t' →
              ¬ same_seat t t') as Hmixed.
    { intros i t id b j t' Ht Hb Ht' (Hsid & Hcid & Hnum & Hsame).
      destruct (Hnew i t Ht) as (seatReq & Hs & Hts & Hc & Hn).
      destruct (proj1 (firstSeatError_None rs service req _) Hseats seatReq)
        as [_ Hfree]; [by apply list_elem_of_lookup_2 in Hs|].
      apply not_true_iff_false in Hfree. apply Hfree.
      apply isSeatBooked_true. exists t'. split.
      { exists id, b. split; [done|]. by apply list_elem_of_lookup_2 in Ht'. }
      rewrite Hts in Hsid, Hsame.
      rewrite <- Hsid, <- Hcid, <- Hnum, <- Hsame, Hc, Hn.
      by rewrite Hid, Hday. }
    intros id1 b1 i1 t1 id2 b2 i2 t2 Hl1 Ht1 Hl2 Ht2 Hsame.
    simpl in Hl1, Hl2.
    apply lookup_insert_Some in Hl1 as [[<- <-]|[Hne1 Hl1]];
      apply lookup_insert_Some in Hl2 as [[<- <-]|[Hne2 Hl2]].
    + split; [done|].
      destruct (Hnew i1 t1 Ht1) as (sr1 & Hs1 & _ & Hc1 & Hn1).
      destruct (Hnew i2 t2 Ht2) as (sr2 & Hs2 & _ & Hc2 & Hn2).
      destruct Hsame as (_ & Hcid & Hnum & _).
      assert (sr1 = sr2) as ->.
      { destruct sr1, sr2. simpl in *. congruence. }
      by apply (NoDup_lookup _ i1 i2 sr2 Hnodup).
    + by destruct (Hmixed i1 t1 id2 b2 i2 t2).
    + destruct (Hmixed i2 t2 id1 b1 i1 t1); try done.
      destruct Hsame as (? & ? & ? & ?). by repeat split.
    + by apply (Hexcl id1 b1 i1 t1 id2 b2 i2 t2).
Qed.

(** X20.  The promise of the engine, under the conditions its code needs:
    when the seats of every registered service record their carriage, and
    every request was dated on the day of the service it named and named no
    seat twice, no seat of a service is held by two stored tickets for one
    day - and every service is registered under its own id. *)
Theorem no_double_booking (rs : System) :
  punctual rs →
  (∀ id service, services rs !! id = Some service → Service_ID service = id)
  ∧ ∀ id1 b1 (i1 : nat) t1 id2 b2 (i2 : nat) t2,
      bookings rs !! id1 = Some b1 → Booking_Tickets b1 !! i1 = Some t1 →
      bookings rs !! id2 = Some b2 → Booking_Tickets b2 !! i2 = Some t2 →
      same_seat t1 t2 → id1 = id2 ∧ i1 = i2.
Proof.
  intros [Hreg Hexcl]%punctual_invariant. split; [|exact Hexcl].
  intros id service Hl. by destruct (Hreg id service Hl).
Qed.

(** The engine of the tests after "Valid first booking" is such an engine:
    the ticket for seat A1 and any stored ticket for the same seat are one
    ticket. *)
Lemma no_double_booking_witness :
  punctual bookedA1
  ∧ ((∃ id b (i : nat) t,
        bookings bookedA1 !! id = Some b ∧ Booking_Tickets b !! i = Some t
        ∧ same_seat t
            (ticketFor testService (NewStation "Paris")
               (NewStation "Amsterdam") (mkSeatRequest "A" "A1")
               (mkPassenger "John Doe"))
        ∧ ¬ (id = "B0001" ∧ i = 0%nat))
     → False).
Proof.
  assert (punctual bookedA1) as Hpunctual.
  { apply (punctual_reserve setupTestSystem requestA1 testNow
             (Ok (bookingOf setupTestSystem testService requestA1 testNow))).
    - apply punctual_service; [apply punctual_route, punctual_new|].
      intros carriage seat Hc Hs.
      apply list_elem_of_singleton in Hc as ->. simpl in Hs.
      repeat (apply elem_of_cons in Hs as [->|Hs]; [reflexivity|]).
      by apply elem_of_nil in Hs.
    - vm_compute. reflexivity.
    - intros service Hl.
      assert (service = testService) as ->; [|reflexivity].
      change (Some testService = Some service) in Hl. by injection Hl.
    - apply NoDup_singleton. }
  split; [exact Hpunctual|].
  intros (id & b & i & t & Hb & Ht & Hsame & Hother).
  destruct (no_double_booking bookedA1 Hpunctual) as [_ Hexcl].
  apply Hother.
  apply (Hexcl id b i t "B0001"
           (bookingOf setupTestSystem testService requestA1 testNow) 0%nat
           (ticketFor testService (NewStation "Paris") (NewStation "Amsterdam")
              (mkSeatRequest "A" "A1") (mkPassenger "John Doe"))
           Hb Ht); [vm_compute; reflexivity|reflexivity|exact Hsame].
Defined.

(** ** Stored tickets *)

Lemma operating_invariant rs :
  operating rs →
  (∀ id service, services rs !! id = Some service → Service_ID service = id)
  ∧ ∀ t, holds_ticket rs t → ticket_ok rs t.
Proof.
  induction 1 as [|rs route _ IH|rs service _ IH Hempty
                  |rs req now res rs' _ IH Hrun].
  - split.
    + intros id service Hl. simpl in Hl. by rewrite lookup_empty in Hl.
    + intros t (id & b & Hl & _). simpl in Hl. by rewrite lookup_empty in Hl.
  - exact IH.
  - destruct IH as [Hkeyed _]. split.
    + intros id service' Hl. simpl in Hl.
      apply lookup_insert_Some in Hl as [[<- <-]|[_ Hl]]; [done|].
      by apply Hkeyed.
    + intros t (id & b & Hl & _). simpl in Hl.
      by rewrite Hempty, lookup_empty in Hl.
  - destruct res as [booking|err];
      [|by rewrite (MakeReservation_Err_inv rs req now err rs' Hrun)].
    apply MakeReservation_Ok_inv_strong in Hrun
      as (service & Hsvc & Hvalid & Hlen & Hseats & -> & ->).
    destruct IH as [Hkeyed Hok]. split; [exact Hkeyed|].
    intros t [Hnew|Hold]%holds_ticket_insert; [|exact (Hok t Hold)].
    unfold bookingOf in Hnew. simpl in Hnew.
    apply elem_of_zip_with in Hnew as (seatReq & p & -> & Hs & _).
    unfold ticket_ok, ticketFor. simpl.
    rewrite (Hkeyed _ _ Hsvc). split; [done|]. split.
    + pose proof Hvalid as (io & jo & Hio & Hjo & _)%IsValidOriginDestination_true.
      destruct (GetStationByName_resolved _ _ _ Hio) as (so & _ & Hno & ->).
      destruct (GetStationByName_resolved _ _ _ Hjo) as (sd & _ & Hnd & ->).
      simpl. by rewrite Hno, Hnd.
    + destruct (proj1 (firstSeatError_None rs service req _) Hseats seatReq Hs)
        as [Hex _].
      unfold seat_exists, GetSeatByID in *.
      destruct (GetSeatByID_loop _ _ _) as [seat found] eqn:Hget.
      simpl in Hex. subst found. simpl.
      apply GetSeatByID_loop_found in Hget as (_ & carriage & Hcar & _ & Hseat).
      by exists carriage.
Qed.

(** X21.  On an engine whose services were registered while its store was
    empty, every stored ticket is well formed: it carries the service that
    is registered under its service id, its seat is a seat of that service,
    and its origin and destination resolve to stops of the route of that
    service with the origin strictly first - so the stop indices that
    [GetPassengersBetweenStations] computes for it are never -1. *)
Theorem stored_tickets_well_formed rs t :
  operating rs → holds_ticket rs t →
  services rs !! Service_ID (Ticket_Service t) = Some (Ticket_Service t)
  ∧ (∃ carriage, carriage ∈ Service_Carriages (Ticket_Service t)
                 ∧ Ticket_Seat t ∈ Carriage_Seats carriage)
  ∧ 0 ≤ stop_index (Service_Route (Ticket_Service t))
          (Station_Name (Ticket_Origin t))
    < stop_index (Service_Route (Ticket_Service t))
        (Station_Name (Ticket_Destination t)).
Proof.
  intros [_ Hok]%operating_invariant Hheld.
  destruct (Hok t Hheld) as (Hsvc & Hvalid & Hseat).
  split; [done|]. split; [done|].
  apply IsValidOriginDestination_true in Hvalid as (i & j & Hi & Hj & Hlt).
  rewrite (stop_index_resolves _ _ _ Hi), (stop_index_resolves _ _ _ Hj).
  destruct Hi as [Hi _]. lia.
Qed.

(** The ticket of "Valid first booking" of the tests. *)
Lemma stored_tickets_well_formed_witness :
  services bookedA1 !! "5160" = Some testService
  ∧ 0 ≤ stop_index testRoute "Paris" < stop_index testRoute "Amsterdam".
Proof.
  destruct (stored_tickets_well_formed bookedA1
              (ticketFor testService (NewStation "Paris")
                 (NewStation "Amsterdam") (mkSeatRequest "A" "A1")
                 (mkPassenger "John Doe"))) as (Hsvc & _ & Hidx).
  - apply (operating_reserve setupTestSystem requestA1 testNow
             (Ok (bookingOf setupTestSystem testService requestA1 testNow))).
    + apply operating_service; [apply operating_route, operating_new|].
      reflexivity.
    + vm_compute. reflexivity.
  - exists "B0001", (bookingOf setupTestSystem testService requestA1 testNow).
    split; [vm_compute; reflexivity|left].
  - split; [exact Hsvc|exact Hidx].
Defined.

(** ** The date of a request and the day of a ticket *)

Lemma Sprintf_04d_inj (m n : Z) : Sprintf_04d m = Sprintf_04d n → m = n.
Proof.
  assert (∀ a b : Z, a < 0 → 0 ≤ b → Sprintf_04d a ≠ Sprintf_04d b) as Hmixed.
  { intros a b Ha Hb. unfold Sprintf_04d, zero_pad.
    rewrite (proj2 (Z.ltb_lt _ _) Ha), (proj2 (Z.ltb_ge _ _) Hb).
    destruct (4 - String.length (pretty (Z.to_N b)))%nat as [|k];
      [|discriminate].
    change (zeros 0 +:+ pretty (Z.to_N b)) with (pretty (Z.to_N b)).
    generalize (zeros (3 - String.length (pretty (Z.abs_N a)))
                +:+ pretty (Z.abs_N a)).
    intros digits. unfold pretty, pretty_N. case_decide; [discriminate|].
    intros Heq. symmetry in Heq. revert Heq.
    by apply pretty_N_go_ne_dash. }
  intros Heq.
  destruct (Z.ltb_spec m 0) as [Hm|Hm], (Z.ltb_spec n 0) as [Hn|Hn].
  - unfold Sprintf_04d, zero_pad in Heq.
    rewrite (proj2 (Z.ltb_lt _ _) Hm), (proj2 (Z.ltb_lt _ _) Hn) in Heq.
    apply (f_equal (λ s, match s with
                         | String _ digits => parse_decimal 0 digits
                         | EmptyString => 0%N
                         end)) in Heq.
    change (parse_decimal 0
              (zeros (3 - String.length (pretty (Z.abs_N m)))
               +:+ pretty (Z.abs_N m))
            = parse_decimal 0
                (zeros (3 - String.length (pretty (Z.abs_N n)))
                 +:+ pretty (Z.abs_N n))) in Heq.
    rewrite !parse_decimal_zeros, !parse_decimal_pretty in Heq. lia.
  - by destruct (Hmixed m n).
  - by destruct (Hmixed n m).
  - apply (f_equal (parse_decimal 0)) in Heq.
    rewrite !parse_decimal_Sprintf_04d in Heq by done. lia.
Qed.

Lemma int_wrap_succ_ne (n : Z) : int_wrap (n + 1) ≠ n.
Proof.
  unfold int_wrap. intros Heq.
  pose proof (Z.div_mod (n + 1 + 2 ^ 63) (2 ^ 64)) as Hdiv.
  change (2 ^ 64) with 18446744073709551616 in *.
  change (2 ^ 63) with 9223372036854775808 in *.
  lia.
Qed.

Lemma next_booking_id_differs rs service req now service' req' now' :
  Booking_ID (bookingOf rs service req now)
  ≠ Booking_ID (bookingOf (booked rs (bookingOf rs service req now))
                  service' req' now').
Proof.
  unfold bookingOf, NewBooking. simpl. intros Heq.
  apply (f_equal (λ s, match s with
                       | String _ digits => digits
                       | EmptyString => EmptyString
                       end)) in Heq.
  simpl in Heq. apply Sprintf_04d_inj in Heq.
  symmetry in Heq. by apply int_wrap_succ_ne in Heq.
Qed.

Lemma held_seat_decides rs t req now service :
  consistent rs → holds_ticket rs t →
  services rs !! Req_ServiceID req = Some service →
  Service_ID (Ticket_Service t) = Req_ServiceID req →
  IsValidOriginDestination (Service_Route service)
    (Req_Origin req) (Req_Destination req) = true →
  length (Req_Passengers req) = length (Req_SeatRequests req) →
  (∀ sr, sr ∈ Req_SeatRequests req → seat_exists service sr = true) →
  mkSeatRequest (Seat_CarriageID (Ticket_Seat t)) (Seat_Number (Ticket_Seat t))
    ∈ Req_SeatRequests req →
  (Date (Req_Date req) = Date (Service_DateTime service) →
   ∃ err, MakeReservation rs req now = Return (Err err, rs)
          ∧ Code err = "SEAT_ALREADY_BOOKED")
  ∧ (Date (Req_Date req) ≠ Date (Service_DateTime service) →
     ∃ booking rs',
       MakeReservation rs req now = Return (Ok booking, rs')
       ∧ bookings rs' !! Booking_ID booking = Some booking
       ∧ length (Booking_Tickets booking) = length (Req_SeatRequests req)).
Proof.
  intros Hcons Hheld Hsvc Hid Hvalid Hlen Hexist Hin. split.
  - intros Hday.
    assert (seat_taken rs req
              (mkSeatRequest (Seat_CarriageID (Ticket_Seat t))
                 (Seat_Number (Ticket_Seat t))) = true) as Htaken.
    { apply isSeatBooked_true. exists t. split; [exact Hheld|].
      destruct Hcons as [_ Hdays].
      destruct (Hdays t Hheld) as (service' & Hsvc' & Hday').
      rewrite Hid, Hsvc in Hsvc'. injection Hsvc' as <-.
      repeat split; [exact Hid|]. by rewrite Hday'. }
    rewrite MakeReservation_spec, Hsvc, Hvalid.
    rewrite (proj2 (Nat.eqb_eq _ _) Hlen). simpl.
    destruct (firstSeatError_taken _ service req _ _ Hin Hexist Htaken)
      as (sr & _ & ->).
    by eexists.
  - intros Hoff. do 2 eexists. split.
    { apply (MakeReservation_success _ req now service); try done.
      intros sr Hsr. split; [by apply Hexist|].
      by apply (off_schedule_free _ req service). }
    split; [apply lookup_insert_eq|].
    simpl. by rewrite length_zip_with_l_eq.
Qed.

(** C3, as the code has it.  A ticket stores no travel date, and the
    availability check compares the day of the service that a stored ticket
    carries with the date of the new request; the date of the request that
    issued the ticket plays no part.  On an engine whose stored tickets
    carry the day of the service registered under their id - every engine
    whose services were registered while its store was empty is one:
    - a request that is valid but for its date, which is not the day of the
      service, succeeds, and the same request succeeds again after it: the
      two bookings are stored under different ids, and at every position
      each holds a ticket for the seat asked there, of that service;
    - a seat booked by a request, whatever its date, blocks a later request
      that is otherwise valid exactly when the later request is dated on
      the day of the service: it is then refused with SEAT_ALREADY_BOOKED
      and nothing changes, and otherwise it succeeds;
    - the same holds of every ticket in the store, whichever reservation
      issued it. *)
Theorem availability_ignores_request_date :
  (∀ rs serviceID carriageID seatNumber date,
     isSeatBooked rs serviceID carriageID seatNumber date = true ↔
     ∃ t, holds_ticket rs t
          ∧ Service_ID (Ticket_Service t) = serviceID
          ∧ Seat_CarriageID (Ticket_Seat t) = carriageID
          ∧ Seat_Number (Ticket_Seat t) = seatNumber
          ∧ Date (Service_DateTime (Ticket_Service t)) = Date date)
  ∧ (∀ rs, operating rs → consistent rs)
  ∧ (∀ rs req now now' service,
       consistent rs →
       services rs !! Req_ServiceID req = Some service →
       IsValidOriginDestination (Service_Route service)
         (Req_Origin req) (Req_Destination req) = true →
       length (Req_Passengers req) = length (Req_SeatRequests req) →
       (∀ sr, sr ∈ Req_SeatRequests req → seat_exists service sr = true) →
       Date (Req_Date req) ≠ Date (Service_DateTime service) →
       ∃ booking rs' booking' rs'',
         MakeReservation rs req now = Return (Ok booking, rs')
         ∧ MakeReservation rs' req now' = Return (Ok booking', rs'')
         ∧ Booking_ID booking ≠ Booking_ID booking'
         ∧ bookings rs'' !! Booking_ID booking = Some booking
         ∧ bookings rs'' !! Booking_ID booking' = Some booking'
         ∧ ∀ (i : nat) seatReq passenger,
             Req_SeatRequests req !! i = Some seatReq →
             Req_Passengers req !! i = Some passenger →
             ∃ seat t t',
               GetSeatByID service (SeatRequest_CarriageID seatReq)
                 (SeatRequest_SeatNumber seatReq) = (seat, true)
               ∧ Booking_Tickets booking !! i = Some t
               ∧ Booking_Tickets booking' !! i = Some t'
               ∧ Ticket_Seat t = seat ∧ Ticket_Seat t' = seat
               ∧ Ticket_Service t = service ∧ Ticket_Service t' = service
               ∧ Ticket_Passenger t = passenger
               ∧ Ticket_Passenger t' = passenger)
  ∧ (∀ rs req now service booking rs' seatReq seat req' now',
      consistent rs →
      services rs !! Req_ServiceID req = Some service →
      MakeReservation rs req now = Return (Ok booking, rs') →
      seatReq ∈ Req_SeatRequests req →
      GetSeatByID service (SeatRequest_CarriageID seatReq)
        (SeatRequest_SeatNumber seatReq) = (seat, true) →
      Req_ServiceID req' = Req_ServiceID req →
      IsValidOriginDestination (Service_Route service)
        (Req_Origin req') (Req_Destination req') = true →
      length (Req_Passengers req') = length (Req_SeatRequests req') →
      (∀ sr, sr ∈ Req_SeatRequests req' → seat_exists service sr = true) →
      mkSeatRequest (Seat_CarriageID seat) (Seat_Number seat)
        ∈ Req_SeatRequests req' →
      (Date (Req_Date req') = Date (Service_DateTime service) →
       ∃ err, MakeReservation rs' req' now' = Return (Err err, rs')
              ∧ Code err = "SEAT_ALREADY_BOOKED")
      ∧ (Date (Req_Date req') ≠ Date (Service_DateTime service) →
         ∃ booking' rs'',
           MakeReservation rs' req' now' = Return (Ok booking', rs'')
           ∧ bookings rs'' !! Booking_ID booking' = Some booking'
           ∧ length (Booking_Tickets booking')
             = length (Req_SeatRequests req')))
  ∧ ∀ rs t req now service,
      consistent rs → holds_ticket rs t →
      services rs !! Req_ServiceID req = Some service →
      Service_ID (Ticket_Service t) = Req_ServiceID req →
      IsValidOriginDestination (Service_Route service)
        (Req_Origin req) (Req_Destination req) = true →
      length (Req_Passengers req) = length (Req_SeatRequests req) →
      (∀ sr, sr ∈ Req_SeatRequests req → seat_exists service sr = true) →
      mkSeatRequest (Seat_CarriageID (Ticket_Seat t))
        (Seat_Number (Ticket_Seat t)) ∈ Req_SeatRequests req →
      (Date (Req_Date req) = Date (Service_DateTime service) →
       ∃ err, MakeReservation rs req now = Return (Err err, rs)
              ∧ Code err = "SEAT_ALREADY_BOOKED")
      ∧ (Date (Req_Date req) ≠ Date (Service_DateTime service) →
         ∃ booking rs',
           MakeReservation rs req now = Return (Ok booking, rs')
           ∧ bookings rs' !! Booking_ID booking = Some booking
           ∧ length (Booking_Tickets booking)
             = length (Req_SeatRequests req)).
Proof.
  split; [exact isSeatBooked_true|]. split; [exact operating_consistent|].
  split; [|split; [|exact held_seat_decides]].
  - intros rs req now now' service Hcons Hsvc Hvalid Hlen Hexist Hoff.
    set (booking := bookingOf rs service req now).
    set (rs' := booked rs booking).
    set (booking' := bookingOf rs' service req now').
    assert (consistent rs') as Hcons' by (by apply booked_consistent).
    exists booking, rs', booking', (booked rs' booking').
    split.
    { apply MakeReservation_success; try done.
      intros sr Hsr. split; [by apply Hexist|].
      by apply (off_schedule_free rs req service). }
    split.
    { apply (MakeReservation_success rs' req now' service); try done.
      intros sr Hsr. split; [by apply Hexist|].
      by apply (off_schedule_free rs' req service). }
    pose proof (next_booking_id_differs rs service req now service req now')
      as Hids.
    split; [exact Hids|]. split.
    { simpl. rewrite lookup_insert_ne by (intros Heq; by apply Hids).
      apply lookup_insert_eq. }
    split; [apply lookup_insert_eq|].
    intros i seatReq passenger Hs Hp.
    pose proof (Hexist seatReq (list_elem_of_lookup_2 _ _ _ Hs)) as Hex.
    unfold seat_exists in Hex.
    destruct (GetSeatByID service _ _) as [seat found] eqn:Hseat.
    simpl in Hex. subst found.
    exists seat,
      (ticketFor service
         (GetStationByName (Service_Route service) (Req_Origin req)).1
         (GetStationByName (Service_Route service) (Req_Destination req)).1
         seatReq passenger),
      (ticketFor service
         (GetStationByName (Service_Route service) (Req_Origin req)).1
         (GetStationByName (Service_Route service) (Req_Destination req)).1
         seatReq passenger).
    split; [done|].
    split; [by apply bookingOf_ticket|].
    split; [by apply bookingOf_ticket|].
    unfold ticketFor. simpl. by rewrite Hseat.
  - intros rs req now service booking rs' seatReq seat req' now'
      Hcons Hsvc Hrun Hin Hseat Hsame Hvalid' Hlen' Hexist' Hin'.
    apply MakeReservation_Ok_inv_strong in Hrun
      as (service' & Hsvc' & _ & Hlen & _ & -> & ->).
    rewrite Hsvc in Hsvc'. injection Hsvc' as <-.
    pose proof (booked_consistent rs req now service Hcons Hsvc) as Hcons'.
    destruct Hcons as [Hkeyed _].
    apply list_elem_of_lookup_1 in Hin as [i Hs].
    destruct (lookup_lt_is_Some_2 (Req_Passengers req) i) as [p Hp];
      [rewrite Hlen; by apply lookup_lt_Some in Hs|].
    pose proof (reserved_ticket rs req now service i seatReq p Hlen Hs Hp)
      as Hheld.
    apply (held_seat_decides _ _ req' now' service Hcons' Hheld);
      try done.
    + simpl. by rewrite Hsame.
    + simpl. rewrite Hsame. by apply Hkeyed.
    + unfold ticketFor. simpl. by rewrite Hseat.
Qed.

(** As in scenarios 1 and 2 of the demo: seats A7 and A8 of service 5160,
    which runs on 2021-04-01, are booked for 2025-09-01 and booked again by
    the same request; a request for them dated 2021-04-01 is refused. *)
Lemma availability_ignores_request_date_witness :
  (∃ booking rs' booking' rs'' t t',
     MakeReservation setupTestSystem requestOffSchedule testNow
     = Return (Ok booking, rs')
     ∧ MakeReservation rs' requestOffSchedule testNow
       = Return (Ok booking', rs'')
     ∧ bookings rs'' !! Booking_ID booking = Some booking
     ∧ bookings rs'' !! Booking_ID booking' = Some booking'
     ∧ Booking_ID booking ≠ Booking_ID booking'
     ∧ Booking_Tickets booking !! 0%nat = Some t
     ∧ Booking_Tickets booking' !! 0%nat = Some t'
     ∧ Ticket_Seat t = mkSeat "A7" FirstClass "A"
     ∧ Ticket_Seat t' = mkSeat "A7" FirstClass "A")
  ∧ ∃ err,
      MakeReservation
        (booked setupTestSystem
           (bookingOf setupTestSystem testService requestOffSchedule testNow))
        requestOnSchedule testNow
      = Return (Err err,
                booked setupTestSystem
                  (bookingOf setupTestSystem testService requestOffSchedule
                     testNow))
      ∧ Code err = "SEAT_ALREADY_BOOKED".
Proof.
  destruct availability_ignores_request_date
    as (_ & Hop & Hoff & Hblock & _).
  assert (consistent setupTestSystem) as Hcons.
  { apply Hop. apply operating_service; [|reflexivity].
    apply operating_route. apply operating_new. }
  assert (∀ sr, sr ∈ Req_SeatRequests requestOffSchedule →
            seat_exists testService sr = true) as Hexist.
  { intros sr Hsr.
    apply elem_of_cons in Hsr as [->|Hsr]; [reflexivity|].
    apply list_elem_of_singleton in Hsr as ->. reflexivity. }
  split.
  - destruct (Hoff setupTestSystem requestOffSchedule testNow testNow
                testService Hcons eq_refl eq_refl eq_refl Hexist)
      as (booking & rs' & booking' & rs'' & Hrun & Hrun' & Hids & Hb & Hb'
          & Htickets); [discriminate|].
    destruct (Htickets 0%nat (mkSeatRequest "A" "A7") (mkPassenger "John Doe")
                eq_refl eq_refl)
      as (seat & t & t' & Hseat & Ht & Ht' & Hts & Hts' & _).
    injection Hseat as <-.
    exists booking, rs', booking', rs'', t, t'.
    repeat split; assumption.
  - destruct (Hblock setupTestSystem requestOffSchedule testNow testService
                (bookingOf setupTestSystem testService requestOffSchedule
                   testNow)
                (booked setupTestSystem
                   (bookingOf setupTestSystem testService requestOffSchedule
                      testNow))
                (mkSeatRequest "A" "A7") (mkSeat "A7" FirstClass "A")
                requestOnSchedule testNow) as [Hrefused _].
    + exact Hcons.
    + reflexivity.
    + vm_compute. reflexivity.
    + left.
    + reflexivity.
    + reflexivity.
    + reflexivity.
    + reflexivity.
    + exact Hexist.
    + left.
    + exact (Hrefused eq_refl).
Defined.

(** C3, as the specification states it, fails.  After service 5160 is
    registered again to run on 2025-09-01, the ticket for seat A1 still
    carries the service of 2021-04-01.  A request for that seat dated
    2021-04-01 is valid but for its date, which is not the day of the
    registered service, and it is refused, not booked; a request for that
    seat dated 2025-09-01, the day of the registered service, is not
    blocked by the ticket. *)
Lemma availability_claim_fails_after_reregistration :
  reachable reRegistered
  ∧ services reRegistered !! "5160" = Some service5160_moved
  ∧ IsValidOriginDestination (Service_Route service5160_moved)
      (Req_Origin requestA1_again) (Req_Destination requestA1_again) = true
  ∧ length (Req_Passengers requestA1_again)
    = length (Req_SeatRequests requestA1_again)
  ∧ seat_exists service5160_moved (mkSeatRequest "A" "A1") = true
  ∧ Date (Req_Date requestA1_again) ≠ Date (Service_DateTime service5160_moved)
  ∧ MakeReservation reRegistered requestA1_again testNow
    = Return (Err (errSeatAlreadyBooked (mkSeatRequest "A" "A1") "5160"),
              reRegistered)
  ∧ isSeatBooked reRegistered "5160" "A" "A1" april1 = true
  ∧ Date september1 = Date (Service_DateTime service5160_moved)
  ∧ ∃ booking rs',
      MakeReservation reRegistered
        (testRequest "Paris" "Amsterdam" ["Jane Smith"] ["A1"] september1)
        testNow
      = Return (Ok booking, rs')
      ∧ bookings rs' !! Booking_ID booking = Some booking
      ∧ (Ticket_Seat <$> Booking_Tickets booking)
        = [mkSeat "A1" FirstClass "A"].
Proof.
  split.
  { apply reachable_service.
    apply (reachable_reserve setupTestSystem requestA1 testNow
             (Ok (bookingOf setupTestSystem testService requestA1 testNow))).
    - apply reachable_service, reachable_route, reachable_new.
    - vm_compute. reflexivity. }
  split; [reflexivity|]. split; [reflexivity|]. split; [reflexivity|].
  split; [reflexivity|]. split; [discriminate|].
  split; [vm_compute; reflexivity|].
  split; [vm_compute; reflexivity|].
  split; [reflexivity|].
  eexists _, _. split; [vm_compute; reflexivity|].
  split; [vm_compute; reflexivity|reflexivity].
Qed.
